(** * Lesson / quiz progression, badges, streaks and stored progress

    A shallow embedding of the progress logic of the repository's pages:

    - [SpaceEd] follows [src/spaced.js] (the learning platform): the global
      [AppState], the badge system, lesson navigation, the quiz modal, XP and
      level, the login streak and the progress kept in [localStorage];
    - [ClimateGuardian] follows [src/unnamed/part_000] (the climate
      dashboard): its ten-question quiz, its badges and its daily-visit
      streak;
    - [CosmosExplorer] holds the one function of [src/unnamed/part_001] (the
      cosmos explorer) that the comparison of the loaders needs.

    JavaScript numbers that the code only ever uses as integers (XP, level,
    streak, indices) are [Z].  [Date.now()] is an argument [now] of every
    function that reads the clock, in milliseconds of local time; the zone is
    taken to have a fixed offset, so that a calendar day is [now / 86400000]
    and [toDateString], which prints the calendar day injectively, is modelled
    by that day number; [SpaceEdClock] has [updateStreak] in a zone whose
    offset changes, where the two differ.  Of the document only the parts the code reads back
    or that carry a result are kept: the quiz modal, the lesson pane, the
    certificate modal, the notifications and the alerts.  [localStorage] is
    split by key family, each entry classified by what [JSON.parse] does with
    the stored text. *)

From stdpp Require Import gmap strings list fin_maps pretty.

Open Scope Z_scope.

(** ** JavaScript helpers shared by the pages *)

(** [Array.prototype.includes] on values compared by [===]. *)
Definition includes `{EqDecision A} (x : A) (l : list A) : bool :=
  bool_decide (x ∈ l).

(** [arr[i]] for an integer index: [undefined] (here [None]) out of range. *)
Definition nth_Z {A} (l : list A) (i : Z) : option A :=
  if bool_decide (0 ≤ i) then l !! Z.to_nat i else None.

(** How many times [x] occurs in [l]. *)
Definition occurrences `{EqDecision A} (x : A) (l : list A) : nat :=
  length (filter (λ y, y = x) l).

(** [arr.length]. *)
Definition lengthZ {A} (l : list A) : Z := Z.of_nat (length l).

Definition msPerDay : Z := 24 * 60 * 60 * 1000.

(** [new Date(ms).toDateString()], as the number of the calendar day. *)
Definition toDateString (ms : Z) : Z := ms / msPerDay.

(** What can escape a handler. *)
Inductive Exn := TypeError | SyntaxError.

(** The result of running a handler on a state: it returns, or it throws and
    leaves the state as it was at the [throw]. *)
Inductive Outcome (S : Type) :=
  | Done (s : S)
  | Threw (e : Exn) (s : S).
Arguments Done {S} s.
Arguments Threw {S} e s.

Definition andThen {S} (o : Outcome S) (k : S → Outcome S) : Outcome S :=
  match o with
  | Done s => k s
  | Threw e s => Threw e s
  end.

(** The state a handler leaves behind, whether it returned or threw. *)
Definition settle {S} (o : Outcome S) : S :=
  match o with
  | Done s => s
  | Threw _ s => s
  end.

Definition returned {S} (o : Outcome S) : bool :=
  match o with
  | Done _ => true
  | Threw _ _ => false
  end.

(** A text kept in [localStorage], by what [JSON.parse] does with it: it is
    rejected with a [SyntaxError], or it yields a value. *)
Inductive Stored (A : Type) :=
  | NotJSON (raw : string)
  | Json (a : A).
Arguments NotJSON {A} raw.
Arguments Json {A} a.

(** [getItem] yields a string that an [if] tests for truthiness: the empty
    string counts as no entry. *)
Definition truthy {A} (item : option (Stored A)) : option (Stored A) :=
  match item with
  | Some (NotJSON EmptyString) => None
  | _ => item
  end.

Module SpaceEd.

(** *** Data *)

Record UserProgress := mkProgress {
  completedLessons : gmap string (list Z);
  streak : Z;
  level : Z;
  xp : Z;
  lastLoginDate : option Z;
  badges : list string
}.

Record User := mkUser {
  name : string;
  email : string;
  password : string
}.

Record Quiz := mkQuiz {
  question : string;
  options : list string;
  correct : Z
}.

(** A lesson of [CoursesData]; its HTML [content] is opaque and is
    identified by the lesson's [id]. *)
Record Lesson := mkLesson {
  id : Z;
  title : string;
  quiz : option Quiz
}.

Record Course := mkCourse {
  courseTitle : string;
  lessons : list Lesson
}.

Record Badge := mkBadge {
  badgeId : string;
  badgeName : string;
  icon : string;
  description : string
}.

(** [BadgeSystem.badges]. *)
Definition BadgeSystem_badges : list Badge :=
  [ mkBadge "first_lesson" "First Steps" "👶" "Complete your first lesson";
    mkBadge "quiz_master" "Quiz Master" "🧠" "Pass 5 quizzes";
    mkBadge "week_streak" "Consistent" "🔥" "Maintain a 7-day streak";
    mkBadge "course_complete" "Graduate" "🎓" "Complete a full course";
    mkBadge "speed_learner" "Speed Learner" "⚡" "Complete 3 lessons in one day";
    mkBadge "explorer" "Explorer" "🚀" "Start all three courses";
    mkBadge "perfectionist" "Perfectionist" "💯" "Get 100% on 5 quizzes";
    mkBadge "dedicated" "Dedicated" "💪" "Study for 30 days total" ].

(** The object [JSON.parse] yields for a progress blob.  The spread
    [{...AppState.userProgress, ...data.progress}] takes a field from the blob
    exactly when the blob has it. *)
Record SavedProgress := mkSavedProgress {
  sv_completedLessons : option (gmap string (list Z));
  sv_streak : option Z;
  sv_level : option Z;
  sv_xp : option Z;
  sv_lastLoginDate : option (option Z);
  sv_badges : option (list string)
}.

(** The object written under [userData_<email>]. *)
Record SavedData := mkSavedData {
  sd_progress : option SavedProgress;
  sd_currentCourse : option string;
  sd_currentLesson : option Z
}.

(** [localStorage]: the key [currentUser] and the keys [userData_<email>],
    the latter indexed by the email. *)
Record LocalStorage := mkStorage {
  ls_currentUser : option (Stored User);
  ls_userData : gmap string (Stored SavedData)
}.

Record Notification := mkNotification {
  noteTitle : string;
  noteMessage : string
}.

(** What [showQuizResults] writes into the quiz modal. *)
Record QuizResults := mkQuizResults {
  quizScore : string;
  quizFeedback : string;
  buttonLabel : string;
  (** the button runs [proceedToNextLesson()] (else [loadLesson(currentLesson)]) *)
  buttonProceeds : bool
}.

(** The content of [#quizContent]: nothing yet, the form built by [showQuiz]
    with the radio that is checked, or the results. *)
Inductive QuizContent :=
  | NoQuiz
  | QuizForm (quizData : Quiz) (checked : option Z)
  | QuizResultsView (r : QuizResults).

(** [AppState] (its [courses] field is never used), followed by the parts of
    the browser the handlers act on. *)
Record World := mkWorld {
  currentUser : option User;
  currentPage : string;
  currentCourse : option string;
  currentLesson : Z;
  userProgress : UserProgress;
  localStorage : LocalStorage;
  notifications : list Notification;
  alerts : list string;
  quizContent : QuizContent;
  quizModalActive : bool;
  certificateModalActive : bool;
  (** the [id] of the lesson whose content fills [#lessonContent] *)
  lessonContent : option Z;
  prevBtnDisabled : bool;
  nextBtnDisabled : bool
}.

Definition defaultProgress : UserProgress :=
  mkProgress ∅ 0 1 0 None [].

Definition emptyStorage : LocalStorage := mkStorage None ∅.

(** The state of a page that has just been opened over storage [ls]. *)
Definition freshPage (ls : LocalStorage) : World :=
  mkWorld None "home" None 0 defaultProgress ls [] [] NoQuiz false false None
    false false.

(** *** Field updates *)

Definition with_progress (f : UserProgress → UserProgress) (w : World) : World :=
  mkWorld (currentUser w) (currentPage w) (currentCourse w) (currentLesson w)
    (f (userProgress w)) (localStorage w) (notifications w) (alerts w)
    (quizContent w) (quizModalActive w) (certificateModalActive w)
    (lessonContent w) (prevBtnDisabled w) (nextBtnDisabled w).

Definition with_currentUser (u : option User) (w : World) : World :=
  mkWorld u (currentPage w) (currentCourse w) (currentLesson w)
    (userProgress w) (localStorage w) (notifications w) (alerts w)
    (quizContent w) (quizModalActive w) (certificateModalActive w)
    (lessonContent w) (prevBtnDisabled w) (nextBtnDisabled w).

Definition with_currentPage (p : string) (w : World) : World :=
  mkWorld (currentUser w) p (currentCourse w) (currentLesson w)
    (userProgress w) (localStorage w) (notifications w) (alerts w)
    (quizContent w) (quizModalActive w) (certificateModalActive w)
    (lessonContent w) (prevBtnDisabled w) (nextBtnDisabled w).

Definition with_currentCourse (c : option string) (w : World) : World :=
  mkWorld (currentUser w) (currentPage w) c (currentLesson w)
    (userProgress w) (localStorage w) (notifications w) (alerts w)
    (quizContent w) (quizModalActive w) (certificateModalActive w)
    (lessonContent w) (prevBtnDisabled w) (nextBtnDisabled w).

Definition with_currentLesson (i : Z) (w : World) : World :=
  mkWorld (currentUser w) (currentPage w) (currentCourse w) i
    (userProgress w) (localStorage w) (notifications w) (alerts w)
    (quizContent w) (quizModalActive w) (certificateModalActive w)
    (lessonContent w) (prevBtnDisabled w) (nextBtnDisabled w).

Definition with_localStorage (ls : LocalStorage) (w : World) : World :=
  mkWorld (currentUser w) (currentPage w) (currentCourse w) (currentLesson w)
    (userProgress w) ls (notifications w) (alerts w)
    (quizContent w) (quizModalActive w) (certificateModalActive w)
    (lessonContent w) (prevBtnDisabled w) (nextBtnDisabled w).

Definition with_notifications (l : list Notification) (w : World) : World :=
  mkWorld (currentUser w) (currentPage w) (currentCourse w) (currentLesson w)
    (userProgress w) (localStorage w) l (alerts w)
    (quizContent w) (quizModalActive w) (certificateModalActive w)
    (lessonContent w) (prevBtnDisabled w) (nextBtnDisabled w).

Definition with_alerts (l : list string) (w : World) : World :=
  mkWorld (currentUser w) (currentPage w) (currentCourse w) (currentLesson w)
    (userProgress w) (localStorage w) (notifications w) l
    (quizContent w) (quizModalActive w) (certificateModalActive w)
    (lessonContent w) (prevBtnDisabled w) (nextBtnDisabled w).

Definition with_quizContent (q : QuizContent) (w : World) : World :=
  mkWorld (currentUser w) (currentPage w) (currentCourse w) (currentLesson w)
    (userProgress w) (localStorage w) (notifications w) (alerts w)
    q (quizModalActive w) (certificateModalActive w)
    (lessonContent w) (prevBtnDisabled w) (nextBtnDisabled w).

Definition with_quizModalActive (b : bool) (w : World) : World :=
  mkWorld (currentUser w) (currentPage w) (currentCourse w) (currentLesson w)
    (userProgress w) (localStorage w) (notifications w) (alerts w)
    (quizContent w) b (certificateModalActive w)
    (lessonContent w) (prevBtnDisabled w) (nextBtnDisabled w).

Definition with_certificateModalActive (b : bool) (w : World) : World :=
  mkWorld (currentUser w) (currentPage w) (currentCourse w) (currentLesson w)
    (userProgress w) (localStorage w) (notifications w) (alerts w)
    (quizContent w) (quizModalActive w) b
    (lessonContent w) (prevBtnDisabled w) (nextBtnDisabled w).

Definition with_lessonPane (shown : option Z) (prev next : bool) (w : World) : World :=
  mkWorld (currentUser w) (currentPage w) (currentCourse w) (currentLesson w)
    (userProgress w) (localStorage w) (notifications w) (alerts w)
    (quizContent w) (quizModalActive w) (certificateModalActive w)
    shown prev next.

Definition set_completedLessons (m : gmap string (list Z)) (p : UserProgress) : UserProgress :=
  mkProgress m (streak p) (level p) (xp p) (lastLoginDate p) (badges p).

Definition set_streak (n : Z) (p : UserProgress) : UserProgress :=
  mkProgress (completedLessons p) n (level p) (xp p) (lastLoginDate p) (badges p).

Definition set_level (n : Z) (p : UserProgress) : UserProgress :=
  mkProgress (completedLessons p) (streak p) n (xp p) (lastLoginDate p) (badges p).

Definition set_xp (n : Z) (p : UserProgress) : UserProgress :=
  mkProgress (completedLessons p) (streak p) (level p) n (lastLoginDate p) (badges p).

Definition set_lastLoginDate (d : option Z) (p : UserProgress) : UserProgress :=
  mkProgress (completedLessons p) (streak p) (level p) (xp p) d (badges p).

Definition set_badges (l : list string) (p : UserProgress) : UserProgress :=
  mkProgress (completedLessons p) (streak p) (level p) (xp p) (lastLoginDate p) l.

(** *** Notifications, storage, badges *)

(** [showNotification(title, message)]: one more notification on the page. *)
Definition showNotification (title message : string) (w : World) : World :=
  with_notifications (notifications w ++ [mkNotification title message]) w.

(** [alert(text)]. *)
Definition alert (text : string) (w : World) : World :=
  with_alerts (alerts w ++ [text]) w.

(** The snapshot [JSON.stringify(AppState.userProgress)] parses back to. *)
Definition snapshot (p : UserProgress) : SavedProgress :=
  mkSavedProgress (Some (completedLessons p)) (Some (streak p)) (Some (level p))
    (Some (xp p)) (Some (lastLoginDate p)) (Some (badges p)).

Definition saveUserData (w : World) : World :=
  match currentUser w with
  | Some u =>
      let userData :=
        mkSavedData (Some (snapshot (userProgress w))) (currentCourse w)
          (Some (currentLesson w)) in
      with_localStorage
        (mkStorage (ls_currentUser (localStorage w))
           (<[email u := Json userData]> (ls_userData (localStorage w)))) w
  | None => w
  end.

(** [BadgeSystem.showBadgeNotification]. *)
Definition showBadgeNotification (badge_id : string) (w : World) : World :=
  match List.find (λ b, bool_decide (badgeId b = badge_id)) BadgeSystem_badges with
  | Some badge =>
      showNotification ("Badge Earned: " +:+ icon badge +:+ " " +:+ badgeName badge)
        (description badge) w
  | None => w
  end.

(** [BadgeSystem.checkAndAwardBadge]. *)
Definition checkAndAwardBadge (badge_id : string) (w : World) : World :=
  if negb (includes badge_id (badges (userProgress w))) then
    let w1 := with_progress (λ p, set_badges (badges p ++ [badge_id]) p) w in
    let w2 := showBadgeNotification badge_id w1 in
    saveUserData w2
  else w.

(** *** Level and streak *)

(** The [newLevel] of [updateLevel]: [Math.floor(xp / 100) + 1]. *)
Definition newLevel (xp : Z) : Z := xp / 100 + 1.

Definition updateLevel (w : World) : World :=
  let newLevel := newLevel (xp (userProgress w)) in
  if bool_decide (newLevel > level (userProgress w)) then
    showNotification "Level Up!" ("You've reached level " +:+ pretty newLevel +:+ "!")
      (with_progress (set_level newLevel) w)
  else w.

Definition updateStreak (now : Z) (w : World) : World :=
  let today := toDateString now in
  let lastLogin := lastLoginDate (userProgress w) in
  if bool_decide (lastLogin ≠ Some today) then
    let yesterday := toDateString (now - 24 * 60 * 60 * 1000) in
    let w1 :=
      if bool_decide (lastLogin = Some yesterday) then
        let w' := with_progress (λ p, set_streak (streak p + 1) p) w in
        if bool_decide (streak (userProgress w') >= 7) then
          checkAndAwardBadge "week_streak" w'
        else w'
      else if bool_decide (lastLogin ≠ Some today) then
        with_progress (set_streak 1) w
      else w in
    with_progress (set_lastLoginDate (Some today)) w1
  else w.

(** *** Progress tracking *)

(** [completedLessons] is a plain object used as a map from course identifier
    to array.  The map below is that object for every key that is no property
    name of [Object.prototype] ([SpaceEdPaths.objectPrototypeKeys]); the
    identifiers of the catalogue and the key "null" are none. *)

(** A property key: [obj[null]] is [obj["null"]]. *)
Definition propKey (c : option string) : string := default "null" c.

Definition addXp (n : Z) (w : World) : World :=
  with_progress (λ p, set_xp (xp p + n) p) w.

Definition markLessonCompleted (courseId : string) (lessonIndex : Z) (now : Z)
    (w : World) : World :=
  let w1 :=
    match completedLessons (userProgress w) !! courseId with
    | None => with_progress
                (λ p, set_completedLessons (<[courseId := []]> (completedLessons p)) p) w
    | Some _ => w
    end in
  let done := default [] (completedLessons (userProgress w1) !! courseId) in
  if negb (includes lessonIndex done) then
    let w2 := with_progress
                (λ p, set_completedLessons
                        (<[courseId := done ++ [lessonIndex]]> (completedLessons p)) p) w1 in
    let w3 := addXp 25 w2 in
    let w4 := updateLevel w3 in
    let w5 := updateStreak now w4 in
    saveUserData w5
  else w1.

Definition isLessonCompleted (courseId : string) (lessonIndex : Z) (w : World) : bool :=
  match completedLessons (userProgress w) !! courseId with
  | Some done => includes lessonIndex done
  | None => false
  end.

(** [showCertificateModal] looks [courseId] up and does not use the result. *)
Definition showCertificateModal (courseId : string) (w : World) : World :=
  with_certificateModalActive true w.

Definition completeCourse (courseId : string) (w : World) : World :=
  let w1 := checkAndAwardBadge "course_complete" w in
  let w2 := addXp 100 w1 in
  let w3 := updateLevel w2 in
  let w4 := showCertificateModal courseId w3 in
  saveUserData w4.

(** *** The quiz modal *)

Definition showQuiz (quizData : Quiz) (w : World) : World :=
  with_quizModalActive true (with_quizContent (QuizForm quizData None) w).

(** The click handler [showQuiz] puts on option [index] of the form. *)
Definition selectOption (index : Z) (w : World) : World :=
  match quizContent w with
  | QuizForm quizData _ =>
      if bool_decide (0 ≤ index < lengthZ (options quizData)) then
        with_quizContent (QuizForm quizData (Some index)) w
      else w
  | _ => w
  end.

Definition showQuizResults (isCorrect : bool) (w : World) : World :=
  with_quizContent
    (QuizResultsView
       (mkQuizResults
          (if isCorrect then "✅ Correct!" else "❌ Incorrect")
          (if isCorrect then "Great job! You earned 10 XP points."
           else "Don't worry, learning is a process. Review the lesson and try again!")
          (if isCorrect then "Continue" else "Review Lesson")
          isCorrect)) w.

(** [document.querySelector('input[name="quiz-answer"]:checked')]: the radios
    exist only inside the form of [showQuiz]. *)
Definition selectedOption (w : World) : option Z :=
  match quizContent w with
  | QuizForm _ checked => checked
  | _ => None
  end.

Definition submitQuiz (correctAnswer : Z) (w : World) : World :=
  match selectedOption w with
  | None => alert "Please select an answer before submitting." w
  | Some userAnswer =>
      let isCorrect := bool_decide (userAnswer = correctAnswer) in
      let w1 := showQuizResults isCorrect w in
      let w2 :=
        if isCorrect then
          checkAndAwardBadge "quiz_master" (updateLevel (addXp 10 w1))
        else w1 in
      saveUserData w2
  end.

Definition hideQuizModal (w : World) : World :=
  with_quizModalActive false w.

(** *** Lessons of a course *)

Section Courses.

(** [CoursesData], the static catalogue: course identifier to course. *)
Variable CoursesData : gmap string Course.

(** [navigateToPage]: besides the page switch, [updateCoursesPage] only
    redraws progress bars and badges. *)
Definition navigateToPage (page : string) (w : World) : World :=
  with_currentPage page w.

Definition loadLesson (lessonIndex : Z) (w : World) : Outcome World :=
  match CoursesData !! propKey (currentCourse w) with
  | None => Threw TypeError w
  | Some course =>
      match nth_Z (lessons course) lessonIndex with
      | None => Done w
      | Some lesson =>
          let w1 :=
            with_lessonPane (Some (id lesson))
              (bool_decide (lessonIndex = 0))
              (bool_decide (lessonIndex >= lengthZ (lessons course) - 1)) w in
          Done (checkAndAwardBadge "first_lesson" w1)
      end
  end.

Definition previousLesson (w : World) : Outcome World :=
  if bool_decide (currentLesson w > 0) then
    let w1 := with_currentLesson (currentLesson w - 1) w in
    loadLesson (currentLesson w1) w1
  else Done w.

(** [renderLessonsList] and [updateCourseProgress] only redraw. *)
Definition proceedToNextLesson (now : Z) (w : World) : Outcome World :=
  let course := CoursesData !! propKey (currentCourse w) in
  let w1 := markLessonCompleted (propKey (currentCourse w)) (currentLesson w) now w in
  match course with
  | None => Threw TypeError w1
  | Some course =>
      if bool_decide (currentLesson w1 < lengthZ (lessons course) - 1) then
        let w2 := with_currentLesson (currentLesson w1 + 1) w1 in
        loadLesson (currentLesson w2) w2
      else Done (completeCourse (propKey (currentCourse w1)) w1)
  end.

Definition nextLesson (now : Z) (w : World) : Outcome World :=
  match CoursesData !! propKey (currentCourse w) with
  | None => Threw TypeError w
  | Some course =>
      match nth_Z (lessons course) (currentLesson w) with
      | Some (mkLesson _ _ (Some quizData)) => Done (showQuiz quizData w)
      | _ => proceedToNextLesson now w
      end
  end.

(** The click handler [renderLessonsList] puts on item [index] of the list;
    there is one item per lesson of the current course. *)
Definition lessonItemClick (index : Z) (w : World) : Outcome World :=
  match CoursesData !! propKey (currentCourse w) with
  | None => Done w
  | Some course =>
      if bool_decide (0 ≤ index < lengthZ (lessons course)) then
        loadLesson index (with_currentLesson index w)
      else Done w
  end.

Definition showCourseContent (w : World) : Outcome World :=
  match CoursesData !! propKey (currentCourse w) with
  | None => Threw TypeError w
  | Some course => loadLesson (currentLesson w) w
  end.

Definition startCourse (courseId : string) (w : World) : Outcome World :=
  let w1 := with_currentLesson 0 (with_currentCourse (Some courseId) w) in
  let w2 := navigateToPage "courses" w1 in
  andThen (showCourseContent w2) (λ w3,
    let startedCourses := size (completedLessons (userProgress w3)) in
    if bool_decide (startedCourses = 3%nat) then
      Done (checkAndAwardBadge "explorer" w3)
    else Done w3).

(** The button of the results view: [hideQuizModal()], then
    [proceedToNextLesson()] or [loadLesson(AppState.currentLesson)]. *)
Definition resultsButton (now : Z) (w : World) : Outcome World :=
  match quizContent w with
  | QuizResultsView r =>
      let w1 := hideQuizModal w in
      if buttonProceeds r then proceedToNextLesson now w1
      else loadLesson (currentLesson w1) w1
  | _ => Done w
  end.

(** *** Users and stored progress *)

Definition loginUser (user : User) (now : Z) (w : World) : World :=
  let w1 := with_currentUser (Some user) w in
  let w2 := with_localStorage
              (mkStorage (Some (Json user)) (ls_userData (localStorage w1))) w1 in
  let w3 := updateStreak now w2 in
  showNotification "Welcome!" ("Good to see you, " +:+ name user +:+ "!") w3.

Definition logout (w : World) : World :=
  let w1 := with_currentUser None w in
  let w2 := with_localStorage
              (mkStorage None (ls_userData (localStorage w1))) w1 in
  navigateToPage "home" w2.

(** [{...base, ...saved}]. *)
Definition mergeProgress (base : UserProgress) (saved : option SavedProgress)
    : UserProgress :=
  match saved with
  | None => base
  | Some sv =>
      mkProgress
        (default (completedLessons base) (sv_completedLessons sv))
        (default (streak base) (sv_streak sv))
        (default (level base) (sv_level sv))
        (default (xp base) (sv_xp sv))
        (default (lastLoginDate base) (sv_lastLoginDate sv))
        (default (badges base) (sv_badges sv))
  end.

Definition loadUserData (now : Z) (w : World) : Outcome World :=
  match truthy (ls_currentUser (localStorage w)) with
  | None => Done w
  | Some (NotJSON _) => Threw SyntaxError w
  | Some (Json user) =>
      let w1 := with_currentUser (Some user) w in
      let loaded :=
        match truthy (ls_userData (localStorage w1) !! email user) with
        | None => Done w1
        | Some (NotJSON _) => Threw SyntaxError w1
        | Some (Json data) =>
            let w2 := with_progress (λ p, mergeProgress p (sd_progress data)) w1 in
            let w3 := with_currentCourse (sd_currentCourse data) w2 in
            Done (with_currentLesson (default 0 (sd_currentLesson data)) w3)
        end in
      andThen loaded (λ w4, Done (updateStreak now w4))
  end.

(** [checkDailyProgress]; [dailyLessons] is what the page finds under the key
    [daily_<today>], which no code of the page writes. *)
Definition checkDailyProgress (dailyLessons : option Z) (w : World) : World :=
  if bool_decide (default 0 dailyLessons >= 3) then
    checkAndAwardBadge "speed_learner" w
  else w.

(** *** Runs of the page *)

(** The calls a run is made of: the handlers the page binds to its controls
    and the functions they are built from, with any arguments. *)
Inductive Op :=
  | StartCourse (courseId : string)
  | LessonItemClick (index : Z)
  | PreviousLesson
  | NextLesson
  | LoadLesson (lessonIndex : Z)
  | ProceedToNextLesson
  | MarkLessonCompleted (courseId : string) (lessonIndex : Z)
  | CompleteCourse (courseId : string)
  | ShowQuiz (quizData : Quiz)
  | SelectOption (index : Z)
  | SubmitQuiz (correctAnswer : Z)
  | ResultsButton
  | HideQuizModal
  | CheckAndAwardBadge (badge_id : string)
  | UpdateLevel
  | UpdateStreak
  | CheckDailyProgress (dailyLessons : option Z)
  | LoginUser (user : User)
  | Logout
  | SaveUserData.

Definition exec (op : Op) (now : Z) (w : World) : Outcome World :=
  match op with
  | StartCourse courseId => startCourse courseId w
  | LessonItemClick index => lessonItemClick index w
  | PreviousLesson => previousLesson w
  | NextLesson => nextLesson now w
  | LoadLesson lessonIndex => loadLesson lessonIndex w
  | ProceedToNextLesson => proceedToNextLesson now w
  | MarkLessonCompleted courseId lessonIndex =>
      Done (markLessonCompleted courseId lessonIndex now w)
  | CompleteCourse courseId => Done (completeCourse courseId w)
  | ShowQuiz quizData => Done (showQuiz quizData w)
  | SelectOption index => Done (selectOption index w)
  | SubmitQuiz correctAnswer => Done (submitQuiz correctAnswer w)
  | ResultsButton => resultsButton now w
  | HideQuizModal => Done (hideQuizModal w)
  | CheckAndAwardBadge badge_id => Done (checkAndAwardBadge badge_id w)
  | UpdateLevel => Done (updateLevel w)
  | UpdateStreak => Done (updateStreak now w)
  | CheckDailyProgress dailyLessons => Done (checkDailyProgress dailyLessons w)
  | LoginUser user => Done (loginUser user now w)
  | Logout => Done (logout w)
  | SaveUserData => Done (saveUserData w)
  end.

(** Calls run one after the other, each at its own clock reading; a call that
    throws ends there and the next one starts from the state it left. *)
Fixpoint run (calls : list (Z * Op)) (w : World) : World :=
  match calls with
  | [] => w
  | (now, op) :: rest => run rest (settle (exec op now w))
  end.

(** Opening the page: [DOMContentLoaded] runs [loadUserData] on the initial
    [AppState], over whatever the profile's storage holds. *)
Definition openPage (now : Z) (ls : LocalStorage) : World :=
  settle (loadUserData now (freshPage ls)).

(** One visit: the page is opened over the storage the previous visit left,
    then receives calls. *)
Definition visit (w : World) (v : Z * list (Z * Op)) : World :=
  run v.2 (openPage v.1 (localStorage w)).

(** Any number of visits of a profile whose storage starts empty. *)
Definition browse (visits : list (Z * list (Z * Op))) : World :=
  fold_left visit visits (freshPage emptyStorage).

End Courses.

(** The [CoursesData] literal of the page (lesson contents left out). *)
Definition spacedCourses : gmap string Course :=
  <["aerospace" := mkCourse "Aerospace Engineering"
      [ mkLesson 1 "Introduction to Aerospace Engineering"
          (Some (mkQuiz "What are the two major branches of aerospace engineering?"
             ["Mechanical and Electrical Engineering";
              "Aeronautical and Astronautical Engineering";
              "Civil and Chemical Engineering";
              "Computer and Software Engineering"] 1));
        mkLesson 2 "Fundamentals of Aerodynamics"
          (Some (mkQuiz "Which force is generated by aircraft wings to counteract weight?"
             ["Thrust"; "Drag"; "Lift"; "Pressure"] 2));
        mkLesson 3 "Propulsion Systems"
          (Some (mkQuiz "What law of physics explains how rocket propulsion works?"
             ["Newton's First Law"; "Newton's Second Law"; "Newton's Third Law";
              "Bernoulli's Principle"] 2)) ]]>
  (<["satellites" := mkCourse "Satellite Technology"
      [ mkLesson 1 "Introduction to Satellites"
          (Some (mkQuiz "What was the first artificial satellite launched into space?"
             ["Explorer 1"; "Telstar 1"; "Sputnik 1"; "Echo 1"] 2));
        mkLesson 2 "Orbital Mechanics Fundamentals"
          (Some (mkQuiz "What type of orbit appears stationary relative to Earth's surface?"
             ["Polar orbit"; "Sun-synchronous orbit"; "Geostationary orbit";
              "Molniya orbit"] 2)) ]]>
  (<["astronomy" := mkCourse "Astronomy"
      [ mkLesson 1 "Introduction to Astronomy"
          (Some (mkQuiz "What is the approximate diameter of the observable universe?"
             ["93 million light years"; "93 billion light years";
              "9.3 trillion light years"; "93 trillion light years"] 1));
        mkLesson 2 "Our Solar System"
          (Some (mkQuiz "How many planets are currently recognized in our solar system?"
             ["7"; "8"; "9"; "10"] 1)) ]]> ∅)).

End SpaceEd.

Module ClimateGuardian.

(** *** Data *)

Record Badge := mkBadge {
  icon : string;
  name : string
}.

Record UserData := mkUserData {
  streak : Z;
  badges : list Badge;
  lastVisit : option Z;
  quizScore : Z
}.

(** An entry of [quizQuestions] (its [explanation] is never read). *)
Record Question := mkQuestion {
  question : string;
  options : list string;
  correct : Z
}.

Record CurrentQuiz := mkCurrentQuiz {
  questionIndex : Z;
  score : Z;
  answered : bool
}.

(** A [.quiz-option] element: its text, the classes of its [classList] and
    whether [pointer-events] is [none]. *)
Record OptionEl := mkOptionEl {
  optionText : string;
  classList : list string;
  pointerEventsNone : bool
}.

(** The content of [#quiz-question]. *)
Inductive QuestionEl :=
  | NoQuestion
  | QuestionText (text : string)
  | QuizComplete (score total : Z) (message : string).

(** The four keys of [localStorage] the page writes. *)
Record LocalStorage := mkStorage {
  ls_climateStreak : option Z;
  ls_lastVisit : option Z;
  ls_climateBadges : option (list Badge);
  ls_quizScore : option Z
}.

Record Page := mkPage {
  userData : UserData;
  currentQuiz : CurrentQuiz;
  localStorage : LocalStorage;
  questionEl : QuestionEl;
  optionsEl : list OptionEl;
  quizScoreEl : Z;
  quizStartEl : string;
  (** the badge notifications shown so far *)
  notifications : list Badge;
  (** the two-second timers of [selectAnswer] that have not fired yet *)
  pendingAdvance : nat
}.

Definition with_userData (u : UserData) (p : Page) : Page :=
  mkPage u (currentQuiz p) (localStorage p) (questionEl p) (optionsEl p)
    (quizScoreEl p) (quizStartEl p) (notifications p) (pendingAdvance p).

Definition with_currentQuiz (q : CurrentQuiz) (p : Page) : Page :=
  mkPage (userData p) q (localStorage p) (questionEl p) (optionsEl p)
    (quizScoreEl p) (quizStartEl p) (notifications p) (pendingAdvance p).

Definition with_localStorage (ls : LocalStorage) (p : Page) : Page :=
  mkPage (userData p) (currentQuiz p) ls (questionEl p) (optionsEl p)
    (quizScoreEl p) (quizStartEl p) (notifications p) (pendingAdvance p).

Definition with_quizPane (q : QuestionEl) (opts : list OptionEl) (p : Page) : Page :=
  mkPage (userData p) (currentQuiz p) (localStorage p) q opts
    (quizScoreEl p) (quizStartEl p) (notifications p) (pendingAdvance p).

Definition with_optionsEl (opts : list OptionEl) (p : Page) : Page :=
  with_quizPane (questionEl p) opts p.

Definition with_quizScoreEl (n : Z) (p : Page) : Page :=
  mkPage (userData p) (currentQuiz p) (localStorage p) (questionEl p) (optionsEl p)
    n (quizStartEl p) (notifications p) (pendingAdvance p).

Definition with_quizStartEl (t : string) (p : Page) : Page :=
  mkPage (userData p) (currentQuiz p) (localStorage p) (questionEl p) (optionsEl p)
    (quizScoreEl p) t (notifications p) (pendingAdvance p).

Definition with_notifications (l : list Badge) (p : Page) : Page :=
  mkPage (userData p) (currentQuiz p) (localStorage p) (questionEl p) (optionsEl p)
    (quizScoreEl p) (quizStartEl p) l (pendingAdvance p).

Definition with_pendingAdvance (n : nat) (p : Page) : Page :=
  mkPage (userData p) (currentQuiz p) (localStorage p) (questionEl p) (optionsEl p)
    (quizScoreEl p) (quizStartEl p) (notifications p) n.

(** The page as its script starts: [userData] read from storage (absent keys
    give [0], [[]] and [null]), the quiz not started. *)
Definition startPage (ls : LocalStorage) : Page :=
  mkPage
    (mkUserData (default 0 (ls_climateStreak ls)) (default [] (ls_climateBadges ls))
       (ls_lastVisit ls) (default 0 (ls_quizScore ls)))
    (mkCurrentQuiz 0 0 false) ls NoQuestion [] 0 EmptyString [] 0.

(** *** Badges and the daily visit *)

Definition showBadgeNotification (icon name : string) (p : Page) : Page :=
  with_notifications (notifications p ++ [mkBadge icon name]) p.

(** [updateUserProgress] only redraws the streak and the badges. *)
Definition awardBadge (icon name : string) (p : Page) : Page :=
  let existingBadge :=
    List.find (λ badge, bool_decide (ClimateGuardian.name badge = name))
      (badges (userData p)) in
  match existingBadge with
  | None =>
      let u := userData p in
      let u' := mkUserData (streak u) (badges u ++ [mkBadge icon name])
                  (lastVisit u) (quizScore u) in
      let p1 := with_userData u' p in
      let ls := localStorage p1 in
      let p2 := with_localStorage
                  (mkStorage (ls_climateStreak ls) (ls_lastVisit ls)
                     (Some (badges u')) (ls_quizScore ls)) p1 in
      showBadgeNotification icon name p2
  | Some _ => p
  end.

Definition checkDailyVisit (now : Z) (p : Page) : Page :=
  let today := toDateString now in
  let lastVisit := lastVisit (userData p) in
  if bool_decide (lastVisit ≠ Some today) then
    (* yesterday.setDate(yesterday.getDate() - 1) *)
    let yesterday := now - msPerDay in
    let u := userData p in
    let streak' :=
      if bool_decide (lastVisit = Some (toDateString yesterday)) then streak u + 1
      else 1 in
    let u' := mkUserData streak' (badges u) (Some today) (quizScore u) in
    let p1 := with_userData u' p in
    let ls := localStorage p1 in
    let p2 := with_localStorage
                (mkStorage (Some streak') (Some today) (ls_climateBadges ls)
                   (ls_quizScore ls)) p1 in
    if bool_decide (streak' = 7) then awardBadge "📅" "Week Warrior" p2
    else if bool_decide (streak' = 30) then awardBadge "🌟" "Monthly Master" p2
    else p2
  else p.

(** *** The quiz *)

Section Quiz.

Variable quizQuestions : list Question.

Definition getScoreMessage (score : Z) : string :=
  if bool_decide (score >= 9) then "Outstanding! You're a true Climate Guardian!"
  else if bool_decide (score >= 7) then "Excellent knowledge of climate science!"
  else if bool_decide (score >= 5) then "Good job! Keep learning about our planet."
  else "Keep exploring - every step helps save our Earth!".

Definition finishQuiz (p : Page) : Page :=
  let score := score (currentQuiz p) in
  let p1 := with_quizPane
              (QuizComplete score (lengthZ quizQuestions) (getScoreMessage score)) [] p in
  let p2 := with_quizStartEl "Restart Quiz" p1 in
  let u := userData p2 in
  let best := Z.max (quizScore u) score in
  let p3 := with_userData (mkUserData (streak u) (badges u) (lastVisit u) best) p2 in
  let ls := localStorage p3 in
  let p4 := with_localStorage
              (mkStorage (ls_climateStreak ls) (ls_lastVisit ls) (ls_climateBadges ls)
                 (Some best)) p3 in
  let p5 := if bool_decide (score >= 7) then awardBadge "🧠" "Climate Expert" p4 else p4 in
  if bool_decide (score = 10) then awardBadge "🏆" "Perfect Score" p5 else p5.

Definition showQuestion (p : Page) : Outcome Page :=
  if bool_decide (questionIndex (currentQuiz p) >= lengthZ quizQuestions) then
    Done (finishQuiz p)
  else
    match nth_Z quizQuestions (questionIndex (currentQuiz p)) with
    | None => Threw TypeError p
    | Some question =>
        let p1 := with_quizPane (QuestionText (ClimateGuardian.question question))
                    (map (λ option, mkOptionEl option ["quiz-option"] false)
                       (options question)) p in
        let q := currentQuiz p1 in
        let p2 := with_currentQuiz (mkCurrentQuiz (questionIndex q) (score q) false) p1 in
        Done (with_quizStartEl "Next Question" p2)
    end.

Definition startQuiz (p : Page) : Outcome Page :=
  let p1 := with_currentQuiz (mkCurrentQuiz 0 0 false) p in
  let p2 := with_quizStartEl "Next Question" p1 in
  let p3 := with_quizScoreEl (score (currentQuiz p2)) p2 in
  showQuestion p3.

(** [classList.add]. *)
Definition classList_add (cls : string) (el : OptionEl) : OptionEl :=
  if includes cls (classList el) then el
  else mkOptionEl (optionText el) (classList el ++ [cls]) (pointerEventsNone el).

(** The body of the [forEach] of [selectAnswer], for the option at [index]. *)
Definition markOption (question : Question) (selectedIndex : Z) (index : nat)
    (option : OptionEl) : OptionEl :=
  let option1 :=
    if bool_decide (Z.of_nat index = correct question) then classList_add "correct" option
    else if bool_decide (Z.of_nat index = selectedIndex) then
      classList_add "incorrect" option
    else option in
  mkOptionEl (optionText option1) (classList option1) true.

Definition selectAnswer (selectedIndex : Z) (p : Page) : Outcome Page :=
  if answered (currentQuiz p) then Done p
  else
    let q := currentQuiz p in
    let p1 := with_currentQuiz (mkCurrentQuiz (questionIndex q) (score q) true) p in
    match nth_Z quizQuestions (questionIndex q) with
    | None => Threw TypeError p1
    | Some question =>
        let p2 := with_optionsEl (imap (markOption question selectedIndex) (optionsEl p1)) p1 in
        let p3 :=
          if bool_decide (selectedIndex = correct question) then
            let q2 := currentQuiz p2 in
            let p' := with_currentQuiz
                        (mkCurrentQuiz (questionIndex q2) (score q2 + 1) (answered q2)) p2 in
            with_quizScoreEl (score (currentQuiz p')) p'
          else p2 in
        Done (with_pendingAdvance (S (pendingAdvance p3)) p3)
    end.

(** One of the pending two-second timers fires. *)
Definition autoAdvance (p : Page) : Outcome Page :=
  match pendingAdvance p with
  | O => Done p
  | S n =>
      let p1 := with_pendingAdvance n p in
      let q := currentQuiz p1 in
      let p2 := with_currentQuiz
                  (mkCurrentQuiz (questionIndex q + 1) (score q) (answered q)) p1 in
      if bool_decide (questionIndex (currentQuiz p2) < lengthZ quizQuestions) then
        showQuestion p2
      else Done (finishQuiz p2)
  end.

End Quiz.

(** The [quizQuestions] literal of the page. *)
Definition climateQuestions : list Question :=
  [ mkQuestion "What is the current atmospheric CO₂ concentration?"
      ["350 ppm"; "420 ppm"; "500 ppm"; "380 ppm"] 1;
    mkQuestion "How much has global temperature risen since pre-industrial times?"
      ["0.5°C"; "1.1°C"; "2.0°C"; "0.8°C"] 1;
    mkQuestion "Which NASA mission monitors Earth's climate?"
      ["Hubble"; "MODIS"; "Curiosity"; "Voyager"] 1;
    mkQuestion "What percentage of climate scientists agree that climate change is human-caused?"
      ["75%"; "85%"; "97%"; "90%"] 2;
    mkQuestion "How much has sea level risen in the past century?"
      ["10 cm"; "23 cm"; "35 cm"; "15 cm"] 1;
    mkQuestion "Which greenhouse gas has the highest concentration in the atmosphere?"
      ["Methane"; "Carbon Dioxide"; "Nitrous Oxide"; "Fluorocarbons"] 1;
    mkQuestion "What is the main cause of Arctic ice melting?"
      ["Natural cycles"; "Solar activity"; "Global warming"; "Ocean currents"] 2;
    mkQuestion "How often does NASA's EPIC camera take Earth images?"
      ["Every hour"; "Every 2 hours"; "Daily"; "Weekly"] 1;
    mkQuestion "What is the target temperature limit in the Paris Agreement?"
      ["1.0°C"; "1.5°C"; "2.0°C"; "2.5°C"] 1;
    mkQuestion "Which sector produces the most CO₂ emissions globally?"
      ["Transportation"; "Energy"; "Agriculture"; "Industry"] 1 ].

End ClimateGuardian.

Module CosmosExplorer.

(** [SettingsManager.load] of [src/unnamed/part_001], the third page: the
    same restore-by-spread as [SpaceEd.loadUserData], inside a [try] whose
    [catch] only logs a warning.  The settings object is a map from field
    name to value; [savedSettings] is the entry [cosmos-explorer-settings]. *)
Definition load {Value : Type} (savedSettings : option (Stored (gmap string Value)))
    (settings : gmap string Value) : gmap string Value :=
  match truthy savedSettings with
  | None => settings
  | Some (NotJSON _) => settings
  | Some (Json parsed) => parsed ∪ settings
  end.

End CosmosExplorer.

(** ** Notions and sample states used in the statements *)

Module SpaceEdSpec.
Import SpaceEd.

(** [completedLessons[courseId] || []], as [updateCourseProgress] reads it. *)
Definition completedOf (courseId : string) (w : World) : list Z :=
  default [] (completedLessons (userProgress w) !! courseId).

(** Everything of the state that is neither the progress, nor the storage,
    nor the notifications. *)
Definition controls (w : World) :=
  (currentUser w, currentPage w, currentCourse w, currentLesson w, alerts w,
   quizContent w, quizModalActive w, certificateModalActive w, lessonContent w,
   prevBtnDisabled w, nextBtnDisabled w).

(** The invariant of every run: XP is non-negative, the stored level is the
    derived one and no badge is held twice, in the state and in every blob
    of the storage. *)
Definition good (p : UserProgress) : Prop :=
  0 ≤ xp p ∧ level p = newLevel (xp p) ∧ NoDup (badges p).

Definition stored_ok (item : Stored SavedData) : Prop :=
  ∃ p c l, item = Json (mkSavedData (Some (snapshot p)) c l) ∧ good p.

Definition storage_ok (ls : LocalStorage) : Prop :=
  (∀ raw, ls_currentUser ls ≠ Some (NotJSON raw)) ∧
  map_Forall (λ _ item, stored_ok item) (ls_userData ls).

Definition Inv (w : World) : Prop :=
  good (userProgress w) ∧ storage_ok (localStorage w).

(** No course loses a completed index, no badge is lost, XP does not drop. *)
Definition Grows (w w' : World) : Prop :=
  (∀ c, completedOf c w ⊆ completedOf c w') ∧
  badges (userProgress w) ⊆ badges (userProgress w') ∧
  xp (userProgress w) ≤ xp (userProgress w').

(** The page of a signed-out visitor who has just opened the course
    [aerospace]. *)
Definition aerospaceStarted : World :=
  settle (startCourse spacedCourses "aerospace" (freshPage emptyStorage)).

(** The first course of [spacedCourses]. *)
Definition aerospace : Course :=
  default (mkCourse EmptyString []) (spacedCourses !! "aerospace").

(** A signed-out visitor whose progress says: last login on 2024-01-01 (day
    19723 since 1970-01-01), streak 5. *)
Definition streakFive : World :=
  with_progress (λ p, set_lastLoginDate (Some 19723) (set_streak 5 p))
    (freshPage emptyStorage).

(** The quiz of lesson [lessonIndex] of [aerospace]. *)
Definition quizOf (lessonIndex : Z) : Quiz :=
  default (mkQuiz EmptyString [] 0) (nth_Z (lessons aerospace) lessonIndex ≫= quiz).

(** A new page showing [quizData] with its first option checked (for the
    quizzes of [aerospace] a wrong one). *)
Definition wrongAnswerTo (quizData : Quiz) : World :=
  selectOption 0 (showQuiz quizData (freshPage emptyStorage)).

(** A signed-in user. *)
Definition ada : User := mkUser "Ada" "ada@example.org" "secret".

(** A profile where [ada] is signed in and her progress blob is cut short. *)
Definition cutShortStorage : LocalStorage :=
  mkStorage (Some (Json ada)) {[ "ada@example.org" := NotJSON "{" ]}.

End SpaceEdSpec.

Module ClimateGuardianSpec.
Import ClimateGuardian.

(** The dashboard of a visitor last seen on 2024-01-01 with a streak of 5. *)
Definition visitFive : Page :=
  startPage
    (mkStorage (Some 5) (Some 19723) None None).

(** The dashboard with its quiz just started. *)
Definition quizStarted : Page :=
  settle (startQuiz climateQuestions
            (startPage (mkStorage None None None None))).

End ClimateGuardianSpec.

(** ** Accounts of the learning platform *)

Module SpaceEdAccounts.
Import SpaceEd.

(** The page together with the keys [user_<email>] of [localStorage], indexed
    by the email. *)
Record Site := mkSite {
  page : World;
  users : gmap string (Stored User)
}.

Definition onPage (f : World → World) (s : Site) : Site :=
  mkSite (f (page s)) (users s).

(** [handleLogin], on the values of the two fields of the login form. *)
Definition handleLogin (email password : string) (now : Z) (s : Site) : Outcome Site :=
  if bool_decide (email = EmptyString ∨ password = EmptyString) then
    Done (onPage (alert "Please fill in all fields") s)
  else
    match truthy (users s !! email) with
    | Some (NotJSON _) => Threw SyntaxError s
    | Some (Json user) =>
        if bool_decide (SpaceEd.password user = password) then
          Done (onPage (loginUser user now) s)
        else Done (onPage (alert "Invalid password") s)
    | None => Done (onPage (alert "User not found") s)
    end.

(** [handleSignup], on the values of the three fields of the signup form. *)
Definition handleSignup (name email password : string) (now : Z) (s : Site) : Site :=
  if bool_decide (name = EmptyString ∨ email = EmptyString ∨ password = EmptyString) then
    onPage (alert "Please fill in all fields") s
  else
    match truthy (users s !! email) with
    | Some _ => onPage (alert "User already exists") s
    | None =>
        let user := mkUser name email password in
        let s1 := mkSite (page s) (<[email := Json user]> (users s)) in
        onPage (loginUser user now) s1
    end.

(** [handleGoogleAuth]; its argument [type] is not used. *)
Definition handleGoogleAuth (now : Z) (s : Site) : Site :=
  let mockUser := mkUser "Space Explorer" "explorer@spaceed.com" "google_auth" in
  let s1 := mkSite (page s) (<[email mockUser := Json mockUser]> (users s)) in
  onPage (loginUser mockUser now) s1.

End SpaceEdAccounts.

(** ** The login streak in a time zone *)

Module SpaceEdClock.
Import SpaceEd.

(** A time zone: at each instant, the offset of local time from UTC, both in
    milliseconds. *)
Definition Zone := Z → Z.

(** A zone without clock changes. *)
Definition fixedOffset (offset : Z) : Zone := λ _, offset.

(** What the clocks of [zone] show at the instant [ms]. *)
Definition localTime (zone : Zone) (ms : Z) : Z := ms + zone ms.

(** [new Date(ms).toDateString()] in [zone], as the number of the local
    calendar day on which the instant [ms] falls. *)
Definition toDateStringIn (zone : Zone) (ms : Z) : Z :=
  toDateString (localTime zone ms).

(** [updateStreak] in [zone], [Date.now()] being the instant [now]:
    [yesterday] is the calendar day of the instant 24 hours before [now].
    [SpaceEd.updateStreak] is this function in a zone of fixed offset, at the
    local reading of the clock. *)
Definition updateStreakIn (zone : Zone) (now : Z) (w : World) : World :=
  let today := toDateStringIn zone now in
  let lastLogin := lastLoginDate (userProgress w) in
  if bool_decide (lastLogin ≠ Some today) then
    let yesterday := toDateStringIn zone (now - 24 * 60 * 60 * 1000) in
    let w1 :=
      if bool_decide (lastLogin = Some yesterday) then
        let w' := with_progress (λ p, set_streak (streak p + 1) p) w in
        if bool_decide (streak (userProgress w') >= 7) then
          checkAndAwardBadge "week_streak" w'
        else w'
      else if bool_decide (lastLogin ≠ Some today) then
        with_progress (set_streak 1) w
      else w in
    with_progress (set_lastLoginDate (Some today)) w1
  else w.

(** [updateStreak] called on [n] days in a row, 24 hours apart, each call on
    the state the call before it left. *)
Fixpoint loginDaysIn (zone : Zone) (t0 : Z) (n : nat) (w : World) : World :=
  match n with
  | O => w
  | S m => updateStreakIn zone (t0 + Z.of_nat m * msPerDay) (loginDaysIn zone t0 m w)
  end.

(** America/New_York in March 2025: Eastern Standard Time (UTC-5) until the
    clocks go forward on Sunday 9 March at 07:00 UTC, Eastern Daylight Time
    (UTC-4) from then on. *)
Definition newYork : Zone := λ ms,
  if bool_decide (ms < 1741503600000) then -5 * 60 * 60 * 1000
  else -4 * 60 * 60 * 1000.

(** Three clock readings in New York: Saturday 8 March 2025 at noon, Sunday
    9 March at noon, and Monday 10 March at 00:30. *)
Definition saturdayNoon : Z := 1741453200000.
Definition sundayNoon : Z := 1741536000000.
Definition mondayEarly : Z := 1741581000000.

End SpaceEdClock.

(** ** Further notions used in the statements *)

Module SpaceEdPaths.
Import SpaceEd SpaceEdSpec.

(** The property names an object inherits from [Object.prototype]: under such
    a key [completedLessons[courseId]] is the inherited value, which has no
    [includes], unless the object has a property of its own under it. *)
Definition objectPrototypeKeys : list string :=
  ["constructor"; "__proto__"; "__defineGetter__"; "__defineSetter__";
   "__lookupGetter__"; "__lookupSetter__"; "hasOwnProperty"; "isPrototypeOf";
   "propertyIsEnumerable"; "toLocaleString"; "toString"; "valueOf"].

(** A key under which an object holds what was put there and nothing else. *)
Definition plainKey (key : string) : Prop := key ∉ objectPrototypeKeys.





(** The elementary ways in which the progress changes. *)
Inductive Update : UserProgress → UserProgress → Prop :=
  | U_badge p b :
      b ∉ badges p → Update p (set_badges (badges p ++ [b]) p)
  | U_xp p n :
      0 ≤ n → Update p (set_xp (xp p + n) p)
  | U_level p :
      Update p (set_level (Z.max (level p) (newLevel (xp p))) p)
  | U_streak_next p :
      Update p (set_streak (streak p + 1) p)
  | U_streak_one p :
      Update p (set_streak 1 p)
  | U_date p d :
      Update p (set_lastLoginDate (Some d) p)
  | U_course p c :
      completedLessons p !! c = None →
      Update p (set_completedLessons (<[c := []]> (completedLessons p)) p)
  | U_lesson p c l i :
      completedLessons p !! c = Some l → i ∉ l →
      Update p (set_completedLessons (<[c := l ++ [i]]> (completedLessons p)) p).

(** The progress of [w'] comes from that of [w] by elementary updates. *)
Definition Updates (w w' : World) : Prop :=
  rtc Update (userProgress w) (userProgress w').

(** No course holds a completed index twice. *)
Definition completedOnce (p : UserProgress) : Prop :=
  map_Forall (λ _ l, NoDup l) (completedLessons p).

(** The current lesson is a lesson of the current course, when that course
    is in the catalogue. *)
Definition onALesson (CoursesData : gmap string Course) (w : World) : Prop :=
  ∀ course, CoursesData !! propKey (currentCourse w) = Some course →
            0 ≤ currentLesson w < lengthZ (lessons course).





(** [updateStreak] called on [n] days in a row, 24 hours apart, at local
    clock readings of a zone without clock changes. *)
Fixpoint loginDays (t0 : Z) (n : nat) (w : World) : World :=
  match n with
  | O => w
  | S m => updateStreak (t0 + Z.of_nat m * msPerDay) (loginDays t0 m w)
  end.

(** A call that signs a user in or out. *)
Definition signs (op : Op) : bool :=
  match op with
  | LoginUser _ | Logout => true
  | _ => false
  end.

(** A call that only moves about the course or the quiz modal. *)
Definition navigates (op : Op) : bool :=
  match op with
  | StartCourse _ | LessonItemClick _ | PreviousLesson | LoadLesson _
  | ShowQuiz _ | SelectOption _ | HideQuizModal => true
  | _ => false
  end.

(** The progress without its badges. *)
Definition exceptBadges (p : UserProgress) : UserProgress := set_badges [] p.

(** Every course of the catalogue has a lesson. *)
Definition noEmptyCourse (CoursesData : gmap string Course) : Prop :=
  map_Forall (λ _ course, lessons course ≠ []) CoursesData.

(** Where the visitor is: the current course and the current lesson. *)
Definition position (w : World) : option string * Z :=
  (currentCourse w, currentLesson w).

(** In [w'] nobody is signed in and the storage is that of [w]. *)
Definition unsaved (w w' : World) : Prop :=
  currentUser w' = None ∧ localStorage w' = localStorage w.

(** The calls of a visitor who answers the quiz of the current lesson with
    option [answer]. *)
Definition answerQuiz (quizData : Quiz) (answer : Z) : list Op :=
  [NextLesson; SelectOption answer; SubmitQuiz (correct quizData); ResultsButton].

End SpaceEdPaths.

(** ** Runs of the climate dashboard *)

Module ClimateGuardianRuns.
Import ClimateGuardian.

Section Quiz.

Variable quizQuestions : list Question.

(** What happens on the dashboard: the Start button, a click on an option, a
    two-second timer of [selectAnswer] firing, the daily-visit check of the
    page start, and an award (as by [finishQuiz], [checkDailyVisit] or the
    carbon calculator). *)
Inductive Event :=
  | StartQuiz
  | SelectAnswer (selectedIndex : Z)
  | TimerFires
  | CheckDailyVisit
  | AwardBadge (icon name : string).

Definition exec (e : Event) (now : Z) (p : Page) : Outcome Page :=
  match e with
  | StartQuiz => startQuiz quizQuestions p
  | SelectAnswer selectedIndex => selectAnswer quizQuestions selectedIndex p
  | TimerFires => autoAdvance quizQuestions p
  | CheckDailyVisit => Done (checkDailyVisit now p)
  | AwardBadge icon name => Done (awardBadge icon name p)
  end.

Fixpoint run (events : list (Z * Event)) (p : Page) : Page :=
  match events with
  | [] => p
  | (now, e) :: rest => run rest (settle (exec e now p))
  end.

(** A visitor who answers each question once and waits for the next one. *)
Definition play (answers : list Z) : list Event :=
  flat_map (λ answer, [SelectAnswer answer; TimerFires]) answers.

(** How many of the [answers] are the correct option of their question. *)
Fixpoint hits (answers : list Z) (questions : list Question) : Z :=
  match answers, questions with
  | answer :: answers', question :: questions' =>
      (if bool_decide (answer = correct question) then 1 else 0) + hits answers' questions'
  | _, _ => 0
  end.

End Quiz.

(** [checkDailyVisit] once a day on [n] days in a row, at the same time of
    day. *)
Fixpoint visitDays (t0 : Z) (n : nat) (p : Page) : Page :=
  match n with
  | O => p
  | S m => checkDailyVisit (t0 + Z.of_nat m * msPerDay) (visitDays t0 m p)
  end.

(** The names of the badges held. *)
Definition badgeNames (p : Page) : list string :=
  map ClimateGuardian.name (badges (userData p)).

(** Opening the page again over its storage would give the user data the
    page has. *)
Definition synced (p : Page) : Prop :=
  userData (startPage (localStorage p)) = userData p.

(** The score counts at most one point per question reached, and at most
    one per question of the quiz. *)
Definition scoreWithin (quizQuestions : list Question) (p : Page) : Prop :=
  let q := currentQuiz p in
  0 ≤ questionIndex q ∧
  0 ≤ score q ≤ questionIndex q + (if answered q then 1 else 0) ∧
  score q ≤ lengthZ quizQuestions.

(** The score is within the quiz, and the best score is at most the larger
    of [best] and the number of questions. *)
Definition within (quizQuestions : list Question) (best : Z) (p : Page) : Prop :=
  scoreWithin quizQuestions p ∧
  quizScore (userData p) ≤ Z.max best (lengthZ quizQuestions).

End ClimateGuardianRuns.

(** ** Properties of the learning platform *)

Module SpaceEdFacts.
Import SpaceEd SpaceEdSpec.

Lemma includes_true `{EqDecision A} (x : A) l : includes x l = true ↔ x ∈ l.
Proof. unfold includes. apply bool_decide_eq_true. Qed.

Lemma includes_false `{EqDecision A} (x : A) l : includes x l = false ↔ x ∉ l.
Proof. unfold includes. apply bool_decide_eq_false. Qed.

Lemma nth_Z_Some {A} (l : list A) i x :
  nth_Z l i = Some x ↔ 0 ≤ i ∧ l !! Z.to_nat i = Some x.
Proof.
  unfold nth_Z. case_bool_decide as E.
  - split; [by intros ?|by intros [_ ?]].
  - split; [done|by intros [? _]].
Qed.

Lemma occurrences_snoc `{EqDecision A} (x : A) l :
  occurrences x (l ++ [x]) = S (occurrences x l).
Proof.
  unfold occurrences. rewrite filter_app, length_app.
  rewrite filter_cons_True by done. simpl. lia.
Qed.

Lemma occurrences_absent `{EqDecision A} (x : A) l : x ∉ l → occurrences x l = 0%nat.
Proof.
  unfold occurrences. intros Hx.
  induction l as [|a l IH]; [done|].
  apply not_elem_of_cons in Hx as [Hne Hl].
  rewrite filter_cons_False by congruence. by apply IH.
Qed.

Lemma occurrences_present `{EqDecision A} (x : A) l : x ∈ l → (1 ≤ occurrences x l)%nat.
Proof.
  unfold occurrences. intros Hx.
  assert (x ∈ filter (λ y, y = x) l) as Hf by by apply list_elem_of_filter.
  destruct (filter _ l); [by apply not_elem_of_nil in Hf|simpl; lia].
Qed.

(** *** What each function leaves alone *)

Lemma saveUserData_progress w : userProgress (saveUserData w) = userProgress w.
Proof. unfold saveUserData. by destruct (currentUser w). Qed.

Lemma showBadgeNotification_progress b w :
  userProgress (showBadgeNotification b w) = userProgress w.
Proof. unfold showBadgeNotification. by destruct (List.find _ _). Qed.

Lemma checkAndAwardBadge_progress b w :
  userProgress (checkAndAwardBadge b w) =
  if includes b (badges (userProgress w)) then userProgress w
  else set_badges (badges (userProgress w) ++ [b]) (userProgress w).
Proof.
  unfold checkAndAwardBadge.
  destruct (includes b _); simpl; [done|].
  by rewrite saveUserData_progress, showBadgeNotification_progress.
Qed.

Lemma checkAndAwardBadge_badges b w :
  badges (userProgress (checkAndAwardBadge b w)) =
  if includes b (badges (userProgress w)) then badges (userProgress w)
  else badges (userProgress w) ++ [b].
Proof. rewrite checkAndAwardBadge_progress. by destruct (includes b _). Qed.

Lemma checkAndAwardBadge_xp b w :
  xp (userProgress (checkAndAwardBadge b w)) = xp (userProgress w).
Proof. rewrite checkAndAwardBadge_progress. by destruct (includes b _). Qed.

Lemma checkAndAwardBadge_level b w :
  level (userProgress (checkAndAwardBadge b w)) = level (userProgress w).
Proof. rewrite checkAndAwardBadge_progress. by destruct (includes b _). Qed.

Lemma checkAndAwardBadge_completed b w :
  completedLessons (userProgress (checkAndAwardBadge b w)) =
  completedLessons (userProgress w).
Proof. rewrite checkAndAwardBadge_progress. by destruct (includes b _). Qed.

Lemma checkAndAwardBadge_streak b w :
  streak (userProgress (checkAndAwardBadge b w)) = streak (userProgress w).
Proof. rewrite checkAndAwardBadge_progress. by destruct (includes b _). Qed.

Lemma checkAndAwardBadge_lastLoginDate b w :
  lastLoginDate (userProgress (checkAndAwardBadge b w)) = lastLoginDate (userProgress w).
Proof. rewrite checkAndAwardBadge_progress. by destruct (includes b _). Qed.

Lemma checkAndAwardBadge_in b w : b ∈ badges (userProgress (checkAndAwardBadge b w)).
Proof.
  rewrite checkAndAwardBadge_badges.
  destruct (includes b _) eqn:E.
  - by apply includes_true.
  - set_solver.
Qed.

Lemma updateLevel_progress w :
  userProgress (updateLevel w) =
  set_level (Z.max (level (userProgress w)) (newLevel (xp (userProgress w))))
    (userProgress w).
Proof.
  unfold updateLevel. case_bool_decide; simpl.
  - f_equal. lia.
  - destruct (userProgress w); unfold set_level; simpl in *. f_equal. lia.
Qed.

Lemma controls_saveUserData w : controls (saveUserData w) = controls w.
Proof. unfold saveUserData. by destruct (currentUser w). Qed.

Lemma controls_showBadgeNotification b w :
  controls (showBadgeNotification b w) = controls w.
Proof. unfold showBadgeNotification. by destruct (List.find _ _). Qed.

Lemma controls_checkAndAwardBadge b w : controls (checkAndAwardBadge b w) = controls w.
Proof.
  unfold checkAndAwardBadge. destruct (includes b _); simpl; [done|].
  by rewrite controls_saveUserData, controls_showBadgeNotification.
Qed.

Lemma controls_updateLevel w : controls (updateLevel w) = controls w.
Proof. unfold updateLevel. by case_bool_decide. Qed.

Lemma controls_updateStreak now w : controls (updateStreak now w) = controls w.
Proof.
  unfold updateStreak. case_bool_decide; [|done].
  destruct (bool_decide (lastLoginDate (userProgress w) = Some _)); cbv zeta; [|done].
  destruct (bool_decide (_ >= 7)); [|done].
  change (controls (checkAndAwardBadge "week_streak"
            (with_progress (λ p, set_streak (streak p + 1) p) w)) = controls w).
  by rewrite controls_checkAndAwardBadge.
Qed.

Lemma controls_markLessonCompleted c i now w :
  controls (markLessonCompleted c i now w) = controls w.
Proof.
  unfold markLessonCompleted.
  set (w1 := match _ !! c with None => _ | Some _ => w end).
  assert (controls w1 = controls w) as H1 by (subst w1; by destruct (_ !! c)).
  clearbody w1.
  destruct (includes i _); simpl; [done|].
  by rewrite controls_saveUserData, controls_updateStreak, controls_updateLevel.
Qed.

(** The fields of [controls], one by one. *)
Ltac controls_fields E :=
  unfold controls in E; simplify_eq E; intros.

(** *** XP, level and the completed lessons, function by function *)

Lemma updateStreak_xp now w :
  xp (userProgress (updateStreak now w)) = xp (userProgress w).
Proof.
  unfold updateStreak. case_bool_decide; [|done]. simpl.
  destruct (bool_decide (lastLoginDate (userProgress w) = Some _)); cbv zeta; [|done].
  destruct (bool_decide (_ >= 7)); [|done]. by rewrite checkAndAwardBadge_xp.
Qed.

Lemma updateStreak_level now w :
  level (userProgress (updateStreak now w)) = level (userProgress w).
Proof.
  unfold updateStreak. case_bool_decide; [|done]. simpl.
  destruct (bool_decide (lastLoginDate (userProgress w) = Some _)); cbv zeta; [|done].
  destruct (bool_decide (_ >= 7)); [|done]. by rewrite checkAndAwardBadge_level.
Qed.

Lemma updateStreak_completed now w :
  completedLessons (userProgress (updateStreak now w)) = completedLessons (userProgress w).
Proof.
  unfold updateStreak. case_bool_decide; [|done]. simpl.
  destruct (bool_decide (lastLoginDate (userProgress w) = Some _)); cbv zeta; [|done].
  destruct (bool_decide (_ >= 7)); [|done]. by rewrite checkAndAwardBadge_completed.
Qed.

(** [markLessonCompleted] adds the index if it is new, and then only. *)
Lemma markLessonCompleted_completed c i now w :
  completedLessons (userProgress (markLessonCompleted c i now w)) =
  <[c := if includes i (completedOf c w) then completedOf c w
         else completedOf c w ++ [i]]> (completedLessons (userProgress w)).
Proof.
  unfold markLessonCompleted, completedOf.
  destruct (completedLessons (userProgress w) !! c) as [done|] eqn:E; simpl.
  - rewrite E. simpl. destruct (includes i done); simpl.
    + by rewrite insert_id.
    + by rewrite saveUserData_progress, updateStreak_completed, updateLevel_progress.
  - rewrite lookup_insert_eq. simpl.
    rewrite saveUserData_progress, updateStreak_completed, updateLevel_progress. simpl.
    by rewrite insert_insert_eq.
Qed.

Lemma markLessonCompleted_xp c i now w :
  xp (userProgress (markLessonCompleted c i now w)) =
  xp (userProgress w) + (if includes i (completedOf c w) then 0 else 25).
Proof.
  unfold markLessonCompleted, completedOf.
  destruct (completedLessons (userProgress w) !! c) as [done|] eqn:E; simpl.
  - rewrite E. simpl. destruct (includes i done); simpl; [lia|].
    by rewrite saveUserData_progress, updateStreak_xp, updateLevel_progress.
  - rewrite lookup_insert_eq. simpl.
    by rewrite saveUserData_progress, updateStreak_xp, updateLevel_progress.
Qed.

(** Marking a lesson that is already marked changes nothing at all. *)
Lemma markLessonCompleted_again c i now w :
  i ∈ completedOf c w → markLessonCompleted c i now w = w.
Proof.
  unfold markLessonCompleted, completedOf. intros Hi.
  destruct (completedLessons (userProgress w) !! c) as [done|] eqn:E; simpl in *.
  - rewrite E. simpl. apply includes_true in Hi. by rewrite Hi.
  - by apply not_elem_of_nil in Hi.
Qed.

Lemma completeCourse_xp c w :
  xp (userProgress (completeCourse c w)) = xp (userProgress w) + 100.
Proof.
  unfold completeCourse, showCertificateModal.
  rewrite saveUserData_progress. simpl.
  by rewrite updateLevel_progress; simpl; rewrite checkAndAwardBadge_xp.
Qed.

Lemma completeCourse_completed c w :
  completedLessons (userProgress (completeCourse c w)) = completedLessons (userProgress w).
Proof.
  unfold completeCourse, showCertificateModal.
  rewrite saveUserData_progress. simpl.
  by rewrite updateLevel_progress; simpl; rewrite checkAndAwardBadge_completed.
Qed.

Lemma completeCourse_badge c w :
  "course_complete" ∈ badges (userProgress (completeCourse c w)).
Proof.
  unfold completeCourse, showCertificateModal.
  rewrite saveUserData_progress. simpl.
  rewrite updateLevel_progress. simpl. apply checkAndAwardBadge_in.
Qed.

Lemma completeCourse_controls c w :
  currentLesson (completeCourse c w) = currentLesson w ∧
  currentCourse (completeCourse c w) = currentCourse w ∧
  certificateModalActive (completeCourse c w) = true.
Proof.
  unfold completeCourse, showCertificateModal.
  pose proof (controls_saveUserData
    (with_certificateModalActive true
       (updateLevel (addXp 100 (checkAndAwardBadge "course_complete" w))))) as E1.
  pose proof (controls_updateLevel (addXp 100 (checkAndAwardBadge "course_complete" w)))
    as E2.
  pose proof (controls_checkAndAwardBadge "course_complete" w) as E3.
  controls_fields E1. controls_fields E2. controls_fields E3.
  repeat split; congruence.
Qed.

(** *** The streak *)

Lemma toDateString_yesterday now :
  toDateString (now - 24 * 60 * 60 * 1000) = toDateString now - 1.
Proof.
  unfold toDateString, msPerDay.
  replace (now - 24 * 60 * 60 * 1000) with (now + (-1) * (24 * 60 * 60 * 1000)) by lia.
  rewrite Z.div_add by lia. lia.
Qed.

Lemma updateStreak_same_day now w :
  lastLoginDate (userProgress w) = Some (toDateString now) → updateStreak now w = w.
Proof. intros E. unfold updateStreak. by rewrite bool_decide_eq_false_2 by naive_solver. Qed.

Lemma updateStreak_streak now w :
  streak (userProgress (updateStreak now w)) =
  if decide (lastLoginDate (userProgress w) = Some (toDateString now)) then
    streak (userProgress w)
  else if decide (lastLoginDate (userProgress w) = Some (toDateString now - 1)) then
    streak (userProgress w) + 1
  else 1.
Proof.
  unfold updateStreak. rewrite toDateString_yesterday.
  case_decide as Ht.
  - by rewrite bool_decide_eq_false_2 by naive_solver.
  - rewrite bool_decide_eq_true_2 by done. simpl.
    case_decide as Hy.
    + rewrite bool_decide_eq_true_2 by done. cbv zeta.
      destruct (bool_decide (_ >= 7)); [|done]. by rewrite checkAndAwardBadge_streak.
    + by rewrite bool_decide_eq_false_2 by done.
Qed.

Lemma updateStreak_lastLoginDate now w :
  lastLoginDate (userProgress (updateStreak now w)) = Some (toDateString now).
Proof.
  unfold updateStreak. by case_bool_decide as Ht.
Qed.

(** *** Submitting an answer *)

Lemma quizContent_of_controls w w' :
  controls w' = controls w → quizContent w' = quizContent w.
Proof. intros E. by controls_fields E. Qed.

Lemma submitQuiz_content c w :
  quizContent (submitQuiz c w) =
  match selectedOption w with
  | Some userAnswer =>
      quizContent (showQuizResults (bool_decide (userAnswer = c)) w)
  | None => quizContent w
  end.
Proof.
  unfold submitQuiz. destruct (selectedOption w) as [a|]; [|done].
  rewrite (quizContent_of_controls _ _ (controls_saveUserData _)).
  case_bool_decide; [|done].
  rewrite (quizContent_of_controls _ _ (controls_checkAndAwardBadge _ _)).
  by rewrite (quizContent_of_controls _ _ (controls_updateLevel _)).
Qed.

(** After a submission no radio is checked: the form, if it was answered, has
    been replaced by the results. *)
Lemma submitQuiz_selectedOption c w : selectedOption (submitQuiz c w) = None.
Proof.
  unfold selectedOption at 1. rewrite submitQuiz_content.
  destruct (selectedOption w) eqn:E; [done|]. unfold selectedOption in E.
  by destruct (quizContent w).
Qed.

Lemma submitQuiz_xp c w :
  xp (userProgress (submitQuiz c w)) =
  xp (userProgress w) +
  match selectedOption w with
  | Some userAnswer => if bool_decide (userAnswer = c) then 10 else 0
  | None => 0
  end.
Proof.
  unfold submitQuiz. destruct (selectedOption w) as [a|]; simpl; [|lia].
  rewrite saveUserData_progress. case_bool_decide; simpl; [|lia].
  by rewrite checkAndAwardBadge_xp, updateLevel_progress.
Qed.

(** *** An invariant of every run: level in step with XP, no badge twice *)

Lemma good_same p q :
  xp q = xp p → level q = level p → badges q = badges p → good p → good q.
Proof. unfold good. intros -> -> ->. done. Qed.

Lemma Inv_same w w' :
  userProgress w' = userProgress w → localStorage w' = localStorage w →
  Inv w → Inv w'.
Proof. unfold Inv. intros -> ->. done. Qed.

Lemma Inv_progress f w :
  (good (userProgress w) → good (f (userProgress w))) →
  Inv w → Inv (with_progress f w).
Proof. intros Hf [Hg Hs]. split; [by apply Hf | done]. Qed.

Lemma Inv_saveUserData w : Inv w → Inv (saveUserData w).
Proof.
  intros [Hg [Hu Hs]]. unfold saveUserData.
  destruct (currentUser w) as [u|]; [|done].
  split; [done|]. split; [done|]. simpl.
  apply map_Forall_insert_2; [|done].
  by exists (userProgress w), (currentCourse w), (Some (currentLesson w)).
Qed.

Lemma Inv_showNotification t m w : Inv w → Inv (showNotification t m w).
Proof. by apply Inv_same. Qed.

Lemma Inv_showBadgeNotification b w : Inv w → Inv (showBadgeNotification b w).
Proof.
  unfold showBadgeNotification. destruct (List.find _ _); [|done].
  apply Inv_showNotification.
Qed.

Lemma Inv_checkAndAwardBadge b w : Inv w → Inv (checkAndAwardBadge b w).
Proof.
  intros H. unfold checkAndAwardBadge.
  destruct (includes b _) eqn:E; simpl; [done|].
  apply Inv_saveUserData, Inv_showBadgeNotification, Inv_progress; [|done].
  intros (? & ? & Hnd). repeat split; try done. simpl.
  apply NoDup_app. split; [done|]. split; [|apply NoDup_singleton].
  intros x Hx ->%list_elem_of_singleton. by apply includes_false in E.
Qed.

Lemma div100_le a b : a ≤ b → a / 100 ≤ b / 100.
Proof. intros. apply Z.div_le_mono; lia. Qed.

Lemma Inv_gainXp n w : 0 ≤ n → Inv w → Inv (updateLevel (addXp n w)).
Proof.
  intros Hn [(Hx & Hl & Hnd) Hs]. split.
  - rewrite updateLevel_progress. unfold good, newLevel in *. simpl.
    pose proof (div100_le (xp (userProgress w)) (xp (userProgress w) + n)).
    repeat split; [lia | lia | done].
  - unfold updateLevel. by case_bool_decide.
Qed.

Lemma Inv_updateLevel w : Inv w → Inv (updateLevel w).
Proof.
  intros H. unfold updateLevel. destruct H as [(Hx & Hl & Hnd) Hs].
  case_bool_decide; [lia|]. done.
Qed.

Lemma Inv_updateStreak now w : Inv w → Inv (updateStreak now w).
Proof.
  intros H. unfold updateStreak.
  case_bool_decide; [|done].
  apply Inv_progress; [by apply good_same|].
  case_bool_decide.
  - case_bool_decide.
    + apply Inv_checkAndAwardBadge, Inv_progress; [by apply good_same|done].
    + apply Inv_progress; [by apply good_same|done].
  - apply Inv_progress; [by apply good_same|done].
Qed.

Lemma Inv_markLessonCompleted c i now w : Inv w → Inv (markLessonCompleted c i now w).
Proof.
  intros H. unfold markLessonCompleted.
  set (w1 := match _ !! c with None => _ | Some _ => w end).
  assert (Inv w1) as H1.
  { subst w1. destruct (_ !! c); [done|]. apply Inv_progress; [by apply good_same|done]. }
  clearbody w1.
  destruct (includes i _); simpl; [done|].
  apply Inv_saveUserData, Inv_updateStreak, Inv_gainXp; [lia|].
  apply Inv_progress; [by apply good_same|done].
Qed.

Lemma Inv_completeCourse c w : Inv w → Inv (completeCourse c w).
Proof.
  intros H. unfold completeCourse, showCertificateModal.
  apply Inv_saveUserData.
  apply (Inv_same (updateLevel (addXp 100 (checkAndAwardBadge "course_complete" w))));
    [done|done|].
  apply Inv_gainXp; [lia|]. by apply Inv_checkAndAwardBadge.
Qed.

Lemma Inv_submitQuiz c w : Inv w → Inv (submitQuiz c w).
Proof.
  intros H. unfold submitQuiz.
  destruct (selectedOption w); [|by apply (Inv_same w)].
  apply Inv_saveUserData. case_bool_decide.
  - apply Inv_checkAndAwardBadge, Inv_gainXp; [lia|]. by apply (Inv_same w).
  - by apply (Inv_same w).
Qed.

(** *** Progress only grows *)

Lemma Grows_refl w : Grows w w.
Proof. repeat split; [done..|lia]. Qed.

Lemma Grows_trans w1 w2 w3 : Grows w1 w2 → Grows w2 w3 → Grows w1 w3.
Proof.
  intros (Hc & Hb & Hx) (Hc' & Hb' & Hx'). repeat split.
  - intros c. by transitivity (completedOf c w2).
  - by transitivity (badges (userProgress w2)).
  - lia.
Qed.

Lemma Grows_same w w' : userProgress w' = userProgress w → Grows w w'.
Proof. intros E. unfold Grows, completedOf. rewrite E. repeat split; [done..|lia]. Qed.

Lemma Grows_fields w w' :
  completedLessons (userProgress w') = completedLessons (userProgress w) →
  badges (userProgress w') = badges (userProgress w) →
  xp (userProgress w) ≤ xp (userProgress w') →
  Grows w w'.
Proof. intros Ec Eb Hx. unfold Grows, completedOf. rewrite Ec, Eb. done. Qed.

Lemma Grows_saveUserData w : Grows w (saveUserData w).
Proof. apply Grows_same, saveUserData_progress. Qed.

Lemma Grows_checkAndAwardBadge b w : Grows w (checkAndAwardBadge b w).
Proof.
  unfold Grows, completedOf.
  rewrite checkAndAwardBadge_completed, checkAndAwardBadge_xp, checkAndAwardBadge_badges.
  repeat split; [done| |lia].
  destruct (includes b _); [done|]. set_solver.
Qed.

Lemma Grows_updateLevel w : Grows w (updateLevel w).
Proof.
  unfold Grows, completedOf. rewrite updateLevel_progress. simpl.
  repeat split; [done..|lia].
Qed.

Lemma Grows_addXp n w : 0 ≤ n → Grows w (addXp n w).
Proof. intros Hn. unfold Grows, completedOf. simpl. repeat split; [done..|lia]. Qed.

Lemma Grows_frame w0 w w' :
  userProgress w' = userProgress w → Grows w0 w → Grows w0 w'.
Proof. intros E H. eapply Grows_trans; [exact H|by apply Grows_same]. Qed.

Lemma Grows_with_progress f w0 w :
  (∀ p, completedLessons (f p) = completedLessons p) →
  (∀ p, badges (f p) = badges p) →
  (∀ p, xp p ≤ xp (f p)) →
  Grows w0 w → Grows w0 (with_progress f w).
Proof.
  intros Hc Hb Hx H. eapply Grows_trans; [exact H|].
  apply Grows_fields; simpl; [apply Hc|apply Hb|apply Hx].
Qed.

(** Peels the outermost call off the right-hand side of a [Grows] goal. *)
Ltac grows_step :=
  lazymatch goal with
  | |- Grows ?w ?w => apply Grows_refl
  | |- Grows _ (saveUserData _) => eapply Grows_trans; [|apply Grows_saveUserData]
  | |- Grows _ (updateLevel _) => eapply Grows_trans; [|apply Grows_updateLevel]
  | |- Grows _ (checkAndAwardBadge _ _) =>
      eapply Grows_trans; [|apply Grows_checkAndAwardBadge]
  | |- Grows _ (addXp _ _) => eapply Grows_trans; [|apply Grows_addXp; lia]
  | |- Grows _ (with_progress (set_streak _) _) =>
      apply Grows_with_progress; [done|done|simpl; intros; lia|]
  | |- Grows _ (with_progress (λ p, set_streak _ p) _) =>
      apply Grows_with_progress; [done|done|simpl; intros; lia|]
  | |- Grows _ (with_progress (set_lastLoginDate _) _) =>
      apply Grows_with_progress; [done|done|simpl; intros; lia|]
  | |- Grows _ (with_certificateModalActive _ ?w) => apply (Grows_frame _ w); [done|]
  | |- Grows _ (showCertificateModal _ ?w) => apply (Grows_frame _ w); [done|]
  | |- Grows _ (with_quizContent _ ?w) => apply (Grows_frame _ w); [done|]
  | |- Grows _ (with_quizModalActive _ ?w) => apply (Grows_frame _ w); [done|]
  | |- Grows _ (with_currentLesson _ ?w) => apply (Grows_frame _ w); [done|]
  | |- Grows _ (with_currentCourse _ ?w) => apply (Grows_frame _ w); [done|]
  | |- Grows _ (with_currentPage _ ?w) => apply (Grows_frame _ w); [done|]
  | |- Grows _ (with_currentUser _ ?w) => apply (Grows_frame _ w); [done|]
  | |- Grows _ (with_localStorage _ ?w) => apply (Grows_frame _ w); [done|]
  | |- Grows _ (with_lessonPane _ _ _ ?w) => apply (Grows_frame _ w); [done|]
  | |- Grows _ (showNotification _ _ ?w) => apply (Grows_frame _ w); [done|]
  | |- Grows _ (alert _ ?w) => apply (Grows_frame _ w); [done|]
  | |- Grows _ (showQuizResults _ ?w) => apply (Grows_frame _ w); [done|]
  | |- Grows _ (hideQuizModal ?w) => apply (Grows_frame _ w); [done|]
  | |- Grows _ (showQuiz _ ?w) => apply (Grows_frame _ w); [done|]
  end.

Lemma Grows_updateStreak now w : Grows w (updateStreak now w).
Proof.
  unfold updateStreak. case_bool_decide; [|apply Grows_refl].
  grows_step.
  destruct (bool_decide (lastLoginDate (userProgress w) = Some _)); cbv zeta.
  - destruct (bool_decide (_ >= 7)); repeat grows_step.
  - repeat grows_step.
Qed.

Lemma completedOf_insert c c' l w :
  completedOf c'
    (with_progress (λ p, set_completedLessons (<[c := l]> (completedLessons p)) p) w) =
  if decide (c = c') then l else completedOf c' w.
Proof. unfold completedOf. simpl. rewrite lookup_insert. by case_decide. Qed.

Lemma Grows_insert c l w :
  completedOf c w ⊆ l →
  Grows w (with_progress (λ p, set_completedLessons (<[c := l]> (completedLessons p)) p) w).
Proof.
  intros Hl. repeat split; [|done|simpl; lia].
  intros c'. rewrite completedOf_insert. case_decide; [by subst|done].
Qed.

Lemma Grows_markLessonCompleted c i now w : Grows w (markLessonCompleted c i now w).
Proof.
  unfold markLessonCompleted.
  set (w1 := match _ !! c with None => _ | Some _ => w end).
  assert (Grows w w1) as H1.
  { subst w1. destruct (_ !! c) eqn:E; [apply Grows_refl|].
    apply Grows_insert. unfold completedOf. by rewrite E. }
  clearbody w1.
  destruct (includes i _); simpl; [done|].
  eapply Grows_trans; [exact H1|].
  grows_step. eapply Grows_trans; [|apply Grows_updateStreak].
  grows_step. grows_step.
  apply Grows_insert. fold (completedOf c w1). set_solver.
Qed.

Lemma Grows_completeCourse c w : Grows w (completeCourse c w).
Proof. unfold completeCourse, showCertificateModal. repeat grows_step. Qed.

Lemma Grows_submitQuiz c w : Grows w (submitQuiz c w).
Proof.
  unfold submitQuiz. destruct (selectedOption w); [|grows_step; grows_step].
  grows_step. case_bool_decide; repeat grows_step.
Qed.

Section WithCourses.

Variable CoursesData : gmap string Course.

Lemma Inv_loadLesson i w : Inv w → Inv (settle (loadLesson CoursesData i w)).
Proof.
  intros H. unfold loadLesson.
  destruct (CoursesData !! _) as [course|]; [|done].
  destruct (nth_Z _ _); [|done]. simpl.
  apply Inv_checkAndAwardBadge. by apply (Inv_same w).
Qed.

Lemma Inv_previousLesson w : Inv w → Inv (settle (previousLesson CoursesData w)).
Proof.
  intros H. unfold previousLesson. case_bool_decide; [|done].
  apply Inv_loadLesson. by apply (Inv_same w).
Qed.

Lemma Inv_proceedToNextLesson now w :
  Inv w → Inv (settle (proceedToNextLesson CoursesData now w)).
Proof.
  intros H. unfold proceedToNextLesson.
  pose proof (Inv_markLessonCompleted (propKey (currentCourse w)) (currentLesson w) now w H)
    as H1.
  destruct (CoursesData !! _) as [course|]; [|done].
  case_bool_decide.
  - apply Inv_loadLesson. by eapply Inv_same; [..|exact H1].
  - simpl. by apply Inv_completeCourse.
Qed.

Lemma Inv_nextLesson now w : Inv w → Inv (settle (nextLesson CoursesData now w)).
Proof.
  intros H. unfold nextLesson.
  destruct (CoursesData !! _) as [course|]; [|done].
  destruct (nth_Z _ _) as [[? ? [q|]]|]; try by apply Inv_proceedToNextLesson.
  simpl. by apply (Inv_same w).
Qed.

Lemma Inv_lessonItemClick i w : Inv w → Inv (settle (lessonItemClick CoursesData i w)).
Proof.
  intros H. unfold lessonItemClick.
  destruct (CoursesData !! _) as [course|]; [|done].
  case_bool_decide; [|done]. apply Inv_loadLesson. by apply (Inv_same w).
Qed.

Lemma Inv_startCourse c w : Inv w → Inv (settle (startCourse CoursesData c w)).
Proof.
  intros H. unfold startCourse, showCourseContent, navigateToPage.
  set (w2 := with_currentPage _ _).
  assert (Inv w2) as H2 by by apply (Inv_same w).
  clearbody w2.
  destruct (CoursesData !! _) as [course|]; [|done].
  pose proof (Inv_loadLesson (currentLesson w2) w2 H2) as H3.
  destruct (loadLesson _ _ _) as [w3|e w3]; simpl in *; [|done].
  case_bool_decide; simpl; [|done]. by apply Inv_checkAndAwardBadge.
Qed.

Lemma Inv_resultsButton now w : Inv w → Inv (settle (resultsButton CoursesData now w)).
Proof.
  intros H. unfold resultsButton.
  destruct (quizContent w) as [| |r]; [done|done|].
  destruct (buttonProceeds r).
  - apply Inv_proceedToNextLesson. by apply (Inv_same w).
  - apply Inv_loadLesson. by apply (Inv_same w).
Qed.

Lemma Inv_loginUser u now w : Inv w → Inv (loginUser u now w).
Proof.
  intros [Hg [Hu Hs]]. unfold loginUser.
  apply Inv_showNotification, Inv_updateStreak.
  split; [done|]. split; [|done]. simpl. by intros raw.
Qed.

Lemma Inv_logout w : Inv w → Inv (logout w).
Proof.
  intros [Hg [Hu Hs]]. unfold logout, navigateToPage.
  split; [done|]. split; [|done]. simpl. by intros raw.
Qed.

Lemma Inv_checkDailyProgress n w : Inv w → Inv (checkDailyProgress n w).
Proof.
  intros H. unfold checkDailyProgress. case_bool_decide; [|done].
  by apply Inv_checkAndAwardBadge.
Qed.

Lemma Inv_exec op now w : Inv w → Inv (settle (exec CoursesData op now w)).
Proof.
  intros H. destruct op; simpl.
  - by apply Inv_startCourse.
  - by apply Inv_lessonItemClick.
  - by apply Inv_previousLesson.
  - by apply Inv_nextLesson.
  - by apply Inv_loadLesson.
  - by apply Inv_proceedToNextLesson.
  - by apply Inv_markLessonCompleted.
  - by apply Inv_completeCourse.
  - by apply (Inv_same w).
  - unfold selectOption. destruct (quizContent w); try done.
    case_bool_decide; [|done]. by apply (Inv_same w).
  - by apply Inv_submitQuiz.
  - by apply Inv_resultsButton.
  - by apply (Inv_same w).
  - by apply Inv_checkAndAwardBadge.
  - by apply Inv_updateLevel.
  - by apply Inv_updateStreak.
  - by apply Inv_checkDailyProgress.
  - by apply Inv_loginUser.
  - by apply Inv_logout.
  - by apply Inv_saveUserData.
Qed.

Lemma Inv_run calls : ∀ w, Inv w → Inv (run CoursesData calls w).
Proof.
  induction calls as [|[now op] rest IH]; intros w H; simpl; [done|].
  by apply IH, Inv_exec.
Qed.

Lemma good_default : good defaultProgress.
Proof. repeat split; [done|apply NoDup_nil_2]. Qed.

Lemma mergeProgress_snapshot base p : mergeProgress base (Some (snapshot p)) = p.
Proof. by destruct p. Qed.

Lemma Inv_openPage now ls : storage_ok ls → Inv (openPage now ls).
Proof.
  intros Hok. unfold openPage, loadUserData. simpl.
  assert (Inv (freshPage ls)) as H0 by (split; [apply good_default|done]).
  destruct (ls_currentUser ls) as [[raw|user]|] eqn:Eu; simpl; [|clear Eu|done].
  { destruct Hok as [Hu _]. by destruct (Hu raw). }
  destruct (ls_userData ls !! email user) as [item|] eqn:Ed; simpl.
  - destruct Hok as [Hu Hs].
    destruct (Hs _ _ Ed) as (p & c & l & -> & Hp). simpl.
    apply Inv_updateStreak. split; [|by split]. simpl. by destruct p.
  - apply Inv_updateStreak. by apply (Inv_same (freshPage ls)).
Qed.

Lemma Inv_visit w v : Inv w → Inv (visit CoursesData w v).
Proof.
  intros [_ Hs]. unfold visit. by apply Inv_run, Inv_openPage.
Qed.

Lemma Inv_browse visits : Inv (browse CoursesData visits).
Proof.
  unfold browse.
  assert (Inv (freshPage emptyStorage)) as H0.
  { split; [apply good_default|]. split; [done|]. apply map_Forall_empty. }
  revert H0. generalize (freshPage emptyStorage).
  induction visits as [|v rest IH]; intros w H; simpl; [done|].
  by apply IH, Inv_visit.
Qed.

(** On a course of the catalogue [loadLesson] returns; it touches neither
    XP nor the completed lessons nor the position in the course. *)
Lemma loadLesson_returns i w course :
  CoursesData !! propKey (currentCourse w) = Some course →
  ∃ w', loadLesson CoursesData i w = Done w' ∧
    xp (userProgress w') = xp (userProgress w) ∧
    completedLessons (userProgress w') = completedLessons (userProgress w) ∧
    currentLesson w' = currentLesson w ∧
    currentCourse w' = currentCourse w ∧
    certificateModalActive w' = certificateModalActive w.
Proof.
  intros Hc. unfold loadLesson. rewrite Hc.
  destruct (nth_Z _ _) as [lesson|]; [|by eexists].
  eexists. split; [done|].
  rewrite checkAndAwardBadge_xp, checkAndAwardBadge_completed.
  match goal with |- context [checkAndAwardBadge ?b ?v] =>
    pose proof (controls_checkAndAwardBadge b v) as E end.
  controls_fields E. repeat split; congruence.
Qed.

(** A lesson that is shown earns the badge [first_lesson], whatever has been
    completed. *)
Lemma loadLesson_first_lesson i w course lesson :
  CoursesData !! propKey (currentCourse w) = Some course →
  nth_Z (lessons course) i = Some lesson →
  ∃ w', loadLesson CoursesData i w = Done w' ∧
    "first_lesson" ∈ badges (userProgress w') ∧
    completedLessons (userProgress w') = completedLessons (userProgress w).
Proof.
  intros Hc Hl. unfold loadLesson. rewrite Hc, Hl.
  eexists. split; [done|]. split; [apply checkAndAwardBadge_in|].
  by rewrite checkAndAwardBadge_completed.
Qed.


Lemma nextLesson_with_quiz now w course lesson quizData :
  CoursesData !! propKey (currentCourse w) = Some course →
  nth_Z (lessons course) (currentLesson w) = Some lesson →
  quiz lesson = Some quizData →
  nextLesson CoursesData now w = Done (showQuiz quizData w).
Proof.
  intros Hc Hl Hq. unfold nextLesson. rewrite Hc, Hl.
  destruct lesson; simpl in Hq. by subst.
Qed.


Lemma Grows_loadLesson i w : Grows w (settle (loadLesson CoursesData i w)).
Proof.
  unfold loadLesson.
  destruct (CoursesData !! _) as [course|]; [|apply Grows_refl].
  destruct (nth_Z _ _); simpl; repeat grows_step.
Qed.

Lemma Grows_proceedToNextLesson now w :
  Grows w (settle (proceedToNextLesson CoursesData now w)).
Proof.
  unfold proceedToNextLesson.
  pose proof (Grows_markLessonCompleted (propKey (currentCourse w)) (currentLesson w) now w)
    as H1.
  destruct (CoursesData !! _) as [course|]; [|done].
  case_bool_decide; simpl.
  - eapply Grows_trans; [|apply Grows_loadLesson]. by grows_step.
  - eapply Grows_trans; [exact H1|apply Grows_completeCourse].
Qed.

Lemma Grows_exec op now w : Grows w (settle (exec CoursesData op now w)).
Proof.
  destruct op; simpl; try by repeat grows_step.
  - unfold startCourse, showCourseContent, navigateToPage.
    set (w2 := with_currentPage _ _).
    assert (Grows w w2) as H2 by (subst w2; repeat grows_step).
    clearbody w2.
    destruct (CoursesData !! _) as [course|]; [|done].
    pose proof (Grows_loadLesson (currentLesson w2) w2) as H3.
    destruct (loadLesson _ _ _) as [w3|e w3]; simpl in *;
      [|by eapply Grows_trans].
    case_bool_decide; simpl; [grows_step|]; by eapply Grows_trans.
  - unfold lessonItemClick.
    destruct (CoursesData !! _) as [course|]; [|apply Grows_refl].
    case_bool_decide; [|apply Grows_refl].
    eapply Grows_trans; [|apply Grows_loadLesson]. repeat grows_step.
  - unfold previousLesson. case_bool_decide; [|apply Grows_refl].
    eapply Grows_trans; [|apply Grows_loadLesson]. repeat grows_step.
  - unfold nextLesson.
    destruct (CoursesData !! _) as [course|]; [|apply Grows_refl].
    destruct (nth_Z _ _) as [[? ? [q|]]|]; try apply Grows_proceedToNextLesson.
    simpl. repeat grows_step.
  - apply Grows_loadLesson.
  - apply Grows_proceedToNextLesson.
  - apply Grows_markLessonCompleted.
  - apply Grows_completeCourse.
  - unfold selectOption. destruct (quizContent w); try apply Grows_refl.
    case_bool_decide; repeat grows_step.
  - apply Grows_submitQuiz.
  - unfold resultsButton. destruct (quizContent w) as [| |r]; try apply Grows_refl.
    destruct (buttonProceeds r).
    + eapply Grows_trans; [|apply Grows_proceedToNextLesson]. repeat grows_step.
    + eapply Grows_trans; [|apply Grows_loadLesson]. repeat grows_step.
  - apply Grows_updateStreak.
  - unfold checkDailyProgress. case_bool_decide; repeat grows_step.
  - unfold loginUser. grows_step.
    eapply Grows_trans; [|apply Grows_updateStreak]. repeat grows_step.
Qed.

Lemma Grows_run calls : ∀ w, Grows w (run CoursesData calls w).
Proof.
  induction calls as [|[now op] rest IH]; intros w; simpl; [apply Grows_refl|].
  eapply Grows_trans; [apply Grows_exec|apply IH].
Qed.

End WithCourses.

(** The first lesson of [aerospace], start to end: Next shows the quiz, the
    correct option 1 is checked and submitted (10 XP), Continue marks the
    lesson (25 XP) and moves to the second lesson. *)
Example first_lesson_passed :
  let w := run spacedCourses
             [(0, NextLesson); (0, SelectOption 1); (0, SubmitQuiz 1); (0, ResultsButton)]
             aerospaceStarted in
  completedOf "aerospace" w = [0] ∧ xp (userProgress w) = 35 ∧
  level (userProgress w) = 1 ∧ currentLesson w = 1 ∧
  badges (userProgress w) = ["first_lesson"; "quiz_master"].
Proof. repeat split; reflexivity. Qed.

(** A wrong answer earns nothing and the Review button stays on the lesson. *)
Example first_lesson_failed :
  let w := run spacedCourses
             [(0, NextLesson); (0, SelectOption 0); (0, SubmitQuiz 1); (0, ResultsButton)]
             aerospaceStarted in
  completedOf "aerospace" w = [] ∧ xp (userProgress w) = 0 ∧ currentLesson w = 0.
Proof. repeat split; reflexivity. Qed.

End SpaceEdFacts.

(** ** Properties of the climate dashboard *)

Module ClimateGuardianFacts.
Import ClimateGuardian.

Lemma find_snoc {A} (f : A → bool) l x :
  List.find f (l ++ [x]) =
  match List.find f l with
  | Some y => Some y
  | None => if f x then Some x else None
  end.
Proof.
  induction l as [|a l IH]; simpl; [done|].
  by destruct (f a).
Qed.

(** *** Badges *)

Lemma awardBadge_badges icon name p :
  badges (userData (awardBadge icon name p)) =
  if bool_decide (name ∈ map ClimateGuardian.name (badges (userData p))) then
    badges (userData p)
  else badges (userData p) ++ [mkBadge icon name].
Proof.
  unfold awardBadge.
  destruct (List.find _ _) as [b|] eqn:E.
  - apply find_some in E as [Hin Hb]. apply bool_decide_eq_true in Hb.
    rewrite bool_decide_eq_true_2; [done|].
    apply list_elem_of_fmap. exists b. split; [done|by apply list_elem_of_In].
  - rewrite bool_decide_eq_false_2; [done|].
    intros (b & Hb & Hin)%list_elem_of_fmap.
    apply list_elem_of_In in Hin.
    pose proof (find_none _ _ E b Hin) as Hf.
    apply bool_decide_eq_false in Hf. done.
Qed.

Lemma awardBadge_found icon name p :
  is_Some (List.find (λ badge, bool_decide (ClimateGuardian.name badge = name))
             (badges (userData (awardBadge icon name p)))).
Proof.
  unfold awardBadge.
  destruct (List.find _ (badges (userData p))) as [b|] eqn:E; [by rewrite E|].
  simpl. rewrite find_snoc, E. simpl. by rewrite bool_decide_eq_true_2.
Qed.

(** A badge name that has been awarded is not awarded again. *)
Lemma awardBadge_again icon icon' name p :
  awardBadge icon' name (awardBadge icon name p) = awardBadge icon name p.
Proof.
  destruct (awardBadge_found icon name p) as [b Hb].
  unfold awardBadge at 1. by rewrite Hb.
Qed.

Lemma awardBadge_NoDup icon name p :
  NoDup (map ClimateGuardian.name (badges (userData p))) →
  NoDup (map ClimateGuardian.name (badges (userData (awardBadge icon name p)))).
Proof.
  intros Hnd. rewrite awardBadge_badges. case_bool_decide as Hin; [done|].
  rewrite map_app. simpl. apply NoDup_app. split; [done|].
  split; [|apply NoDup_singleton].
  by intros x Hx ->%list_elem_of_singleton.
Qed.

Lemma awardBadge_streak icon name p :
  streak (userData (awardBadge icon name p)) = streak (userData p) ∧
  lastVisit (userData (awardBadge icon name p)) = lastVisit (userData p).
Proof. unfold awardBadge. by destruct (List.find _ _). Qed.

(** *** The daily visit *)

Lemma checkDailyVisit_same_day now p :
  lastVisit (userData p) = Some (toDateString now) → checkDailyVisit now p = p.
Proof. intros E. unfold checkDailyVisit. by rewrite bool_decide_eq_false_2 by naive_solver. Qed.

Lemma toDateString_setDate now : toDateString (now - msPerDay) = toDateString now - 1.
Proof.
  unfold toDateString, msPerDay.
  replace (now - 24 * 60 * 60 * 1000) with (now + (-1) * (24 * 60 * 60 * 1000)) by lia.
  rewrite Z.div_add by lia. lia.
Qed.

Lemma checkDailyVisit_streak now p :
  streak (userData (checkDailyVisit now p)) =
  if decide (lastVisit (userData p) = Some (toDateString now)) then streak (userData p)
  else if decide (lastVisit (userData p) = Some (toDateString now - 1)) then
    streak (userData p) + 1
  else 1.
Proof.
  unfold checkDailyVisit. rewrite toDateString_setDate.
  case_decide as Ht.
  - by rewrite bool_decide_eq_false_2 by naive_solver.
  - rewrite bool_decide_eq_true_2 by done. cbv zeta.
    case_decide as Hy.
    + rewrite !(bool_decide_eq_true_2 (lastVisit _ = _)) by done.
      repeat case_bool_decide; try done; by rewrite (proj1 (awardBadge_streak _ _ _)).
    + rewrite !(bool_decide_eq_false_2 (lastVisit _ = _)) by done.
      repeat case_bool_decide; try done; by rewrite (proj1 (awardBadge_streak _ _ _)).
Qed.

Lemma checkDailyVisit_lastVisit now p :
  lastVisit (userData (checkDailyVisit now p)) = Some (toDateString now).
Proof.
  unfold checkDailyVisit. case_bool_decide as Ht; [|done]. cbv zeta.
  repeat case_bool_decide; try done; by rewrite (proj2 (awardBadge_streak _ _ _)).
Qed.

(** *** Answering a question *)

Section WithQuestions.

Variable quizQuestions : list Question.

Lemma selectAnswer_answered i p :
  answered (currentQuiz (settle (selectAnswer quizQuestions i p))) = true.
Proof.
  unfold selectAnswer. destruct (answered (currentQuiz p)) eqn:E; [done|].
  destruct (nth_Z _ _); [|done]. simpl. by case_bool_decide.
Qed.

(** Once a question is answered, [selectAnswer] returns at its first line. *)
Lemma selectAnswer_again i j p :
  selectAnswer quizQuestions j (settle (selectAnswer quizQuestions i p)) =
  Done (settle (selectAnswer quizQuestions i p)).
Proof. unfold selectAnswer at 1. by rewrite selectAnswer_answered. Qed.

Lemma classList_add_in cls el : cls ∈ classList (classList_add cls el).
Proof.
  unfold classList_add. destruct (includes cls _) eqn:E; simpl.
  - unfold includes in E. by apply bool_decide_eq_true in E.
  - set_solver.
Qed.

Lemma markOption_correct question selectedIndex index el :
  Z.of_nat index = correct question →
  "correct" ∈ classList (markOption question selectedIndex index el).
Proof.
  intros E. unfold markOption. rewrite bool_decide_eq_true_2 by done.
  simpl. apply classList_add_in.
Qed.

Lemma markOption_incorrect question selectedIndex index el :
  Z.of_nat index ≠ correct question → Z.of_nat index = selectedIndex →
  "incorrect" ∈ classList (markOption question selectedIndex index el).
Proof.
  intros Hc Hs. unfold markOption. rewrite bool_decide_eq_false_2 by done.
  rewrite bool_decide_eq_true_2 by done. simpl. apply classList_add_in.
Qed.

(** A first answer to a question that is on display: the option at the
    correct index is marked [correct] whatever was selected, and the score
    counts the answer if it is the correct one. *)
Lemma selectAnswer_first selectedIndex p question :
  answered (currentQuiz p) = false →
  nth_Z quizQuestions (questionIndex (currentQuiz p)) = Some question →
  ∃ p', selectAnswer quizQuestions selectedIndex p = Done p' ∧
    optionsEl p' = imap (markOption question selectedIndex) (optionsEl p) ∧
    score (currentQuiz p') =
      score (currentQuiz p) + (if bool_decide (selectedIndex = correct question) then 1 else 0) ∧
    answered (currentQuiz p') = true ∧
    userData p' = userData p.
Proof.
  intros Ha Hq. unfold selectAnswer. rewrite Ha, Hq.
  eexists. split; [done|]. case_bool_decide; simpl; repeat split; lia.
Qed.

End WithQuestions.

End ClimateGuardianFacts.

(** ** The claims of the specification *)

Import SpaceEd SpaceEdSpec SpaceEdFacts ClimateGuardianSpec.

(** C1, as stated, fails: a completed course is no terminal state.  On
    [aerospace] three advancements complete the three lessons and the course
    (certificate modal, badge, 175 XP); the page stays on the last lesson, and
    a further advancement there returns again, runs the completion again and
    adds a further 100 XP. *)
Lemma completed_course_is_not_terminal :
  let completed :=
    run spacedCourses
      (map (pair 0) [ProceedToNextLesson; ProceedToNextLesson; ProceedToNextLesson])
      aerospaceStarted in
  completedOf "aerospace" completed = [0; 1; 2] ∧
  currentLesson completed = 2 ∧
  certificateModalActive completed = true ∧
  last (badges (userProgress completed)) = Some "course_complete" ∧
  xp (userProgress completed) = 175 ∧
  ∃ w', proceedToNextLesson spacedCourses 0 completed = Done w' ∧
        currentLesson w' = 2 ∧
        xp (userProgress w') = 275 ∧
        w' ≠ completed.
Proof.
  intros completed.
  do 5 (split; [by vm_compute|]).
  exists (settle (proceedToNextLesson spacedCourses 0 completed)).
  do 3 (split; [by vm_compute|]).
  intros E. apply (f_equal (λ w, xp (userProgress w))) in E. vm_compute in E. discriminate E.
Qed.

(** C1, amended.  A confirmed advancement is [proceedToNextLesson]:
    [nextLesson] calls it at once for a lesson without a quiz, the Continue
    button of the quiz results calls it after a correct answer.  For a course
    [cid] of the catalogue and the current index [i] it returns, and the
    state it returns has [i] among the completed lessons of [cid], added at
    the end if it was not there and otherwise left as it was (marking it
    again changes nothing); XP has grown by 25 exactly when [i] was new, plus
    100 exactly when [i] is the last lesson; if [i + 1 < lessonCount] the
    current lesson is [i + 1], and otherwise the page stays on lesson [i],
    the certificate modal of the course is up and the badge
    [course_complete] is held. *)
Theorem advance_marks_rewards_and_moves
    (CoursesData : gmap string Course) (now : Z) (w : World)
    (cid : string) (course : Course) :
  currentCourse w = Some cid →
  CoursesData !! cid = Some course →
  let i := currentLesson w in
  let isNew := negb (includes i (completedOf cid w)) in
  let isLast := negb (bool_decide (i + 1 < lengthZ (lessons course))) in
  ∃ w', proceedToNextLesson CoursesData now w = Done w' ∧
    completedOf cid w' = (if isNew then completedOf cid w ++ [i] else completedOf cid w) ∧
    (isNew = false → markLessonCompleted cid i now w = w) ∧
    xp (userProgress w') =
      xp (userProgress w) + (if isNew then 25 else 0) + (if isLast then 100 else 0) ∧
    (if isLast then
       currentLesson w' = i ∧ certificateModalActive w' = true ∧
       "course_complete" ∈ badges (userProgress w')
     else
       currentLesson w' = i + 1 ∧
       certificateModalActive w' = certificateModalActive w).
Proof.
  intros Hc Hcourse i isNew isLast.
  unfold proceedToNextLesson. rewrite Hc. simpl. rewrite Hcourse.
  set (w1 := markLessonCompleted cid (currentLesson w) now w).
  pose proof (controls_markLessonCompleted cid (currentLesson w) now w) as E.
  fold w1 in E. controls_fields E.
  assert (completedOf cid w1 =
          if isNew then completedOf cid w ++ [i] else completedOf cid w) as Hdone.
  { unfold completedOf at 1. subst w1.
    rewrite markLessonCompleted_completed, lookup_insert_eq. simpl.
    subst isNew i. by destruct (includes _ _). }
  assert (xp (userProgress w1) = xp (userProgress w) + (if isNew then 25 else 0)) as Hxp.
  { subst w1. rewrite markLessonCompleted_xp. subst isNew i. by destruct (includes _ _). }
  assert (isNew = false → markLessonCompleted cid i now w = w) as Hagain.
  { intros Hn. apply markLessonCompleted_again. apply includes_true.
    subst isNew. by destruct (includes _ _). }
  replace (currentLesson w1) with i by (unfold i; congruence).
  destruct (bool_decide (i + 1 < lengthZ (lessons course))) eqn:Elast; subst isLast; simpl.
  - apply bool_decide_eq_true in Elast.
    rewrite bool_decide_eq_true_2 by lia.
    destruct (loadLesson_returns CoursesData (i + 1) (with_currentLesson (i + 1) w1) course)
      as (w' & Hw' & Hx & Hcl & Hl & _ & Hcert).
    { simpl. replace (currentCourse w1) with (currentCourse w) by congruence.
      by rewrite Hc. }
    exists w'. split; [done|]. simpl in *.
    split; [by unfold completedOf in *; rewrite Hcl|].
    split; [done|]. split; [lia|]. split; [done|]. unfold i in *; congruence.
  - apply bool_decide_eq_false in Elast.
    rewrite bool_decide_eq_false_2 by lia.
    exists (completeCourse (propKey (currentCourse w1)) w1). split; [done|].
    destruct (completeCourse_controls (propKey (currentCourse w1)) w1) as (Hl & _ & Hcert).
    split; [by unfold completedOf in *; rewrite completeCourse_completed|].
    split; [done|]. split; [rewrite completeCourse_xp; lia|].
    split; [unfold i; congruence|]. split; [done|apply completeCourse_badge].
Qed.

(** C1 amended, on the page: the first lesson of [aerospace], not yet
    completed, is advanced past at clock reading [0]. *)
Lemma advance_marks_rewards_and_moves_witness :
  currentCourse aerospaceStarted = Some "aerospace" ∧
  spacedCourses !! "aerospace" = Some aerospace ∧
  ∃ w', proceedToNextLesson spacedCourses 0 aerospaceStarted = Done w' ∧
    completedOf "aerospace" w' = [0] ∧
    xp (userProgress w') = 25 ∧
    currentLesson w' = 1.
Proof.
  split; [reflexivity|]. split; [reflexivity|].
  destruct (advance_marks_rewards_and_moves spacedCourses 0 aerospaceStarted
              "aerospace" aerospace eq_refl eq_refl)
    as (w' & Hw' & Hdone & _ & Hxp & Hpos).
  exists w'. split; [exact Hw'|].
  split; [exact Hdone|]. split; [exact Hxp|]. exact (proj1 Hpos).
Defined.

(** C2.  The level [updateLevel] derives from [xp] is [floor(xp / 100) + 1]:
    it is the one [l] with [100 * (l - 1) ≤ xp < 100 * l], so 1 at 0 and at
    99, 2 at 100, 3 at 250.  [updateLevel] stores it when it exceeds the
    stored level; as XP never drops, on every state the page reaches, over
    any visits and any calls, XP is non-negative and the stored level is the
    derived one. *)
Theorem level_is_derived_from_xp
    (CoursesData : gmap string Course)
    (visits : list (Z * list (Z * Op))) (x n : Z) (w : World) :
  (100 * (newLevel x - 1) ≤ x < 100 * newLevel x) ∧
  newLevel 0 = 1 ∧ newLevel 99 = 1 ∧ newLevel 100 = 2 ∧ newLevel 250 = 3 ∧
  level (userProgress (updateLevel (addXp n w))) =
    Z.max (level (userProgress w)) (newLevel (xp (userProgress w) + n)) ∧
  let p := userProgress (browse CoursesData visits) in
  0 ≤ xp p ∧ level p = xp p / 100 + 1.
Proof.
  split.
  { unfold newLevel. pose proof (Z.div_mod x 100). pose proof (Z.mod_pos_bound x 100). lia. }
  do 4 (split; [reflexivity|]).
  split; [by rewrite updateLevel_progress|].
  destruct (Inv_browse CoursesData visits) as [(Hx & Hl & _) _]. by split.
Qed.

(** C3.  [checkAndAwardBadge] called again for the same badge returns the
    state unchanged: nothing is pushed, notified or saved; after the first
    call the identifier occurs once if it did not occur before (and as often
    as before otherwise), and on every state the page reaches no identifier
    occurs twice.  The dashboard's [awardBadge] behaves the same way on badge
    names. *)
Theorem badge_award_is_idempotent
    (CoursesData : gmap string Course)
    (visits : list (Z * list (Z * Op))) (badge_id : string) (w : World)
    (icon icon' name : string) (p : ClimateGuardian.Page) :
  let w1 := checkAndAwardBadge badge_id w in
  let p1 := ClimateGuardian.awardBadge icon name p in
  checkAndAwardBadge badge_id w1 = w1 ∧
  notifications (checkAndAwardBadge badge_id w1) = notifications w1 ∧
  occurrences badge_id (badges (userProgress w1)) =
    Nat.max 1 (occurrences badge_id (badges (userProgress w))) ∧
  NoDup (badges (userProgress (browse CoursesData visits))) ∧
  ClimateGuardian.awardBadge icon' name p1 = p1 ∧
  occurrences name
      (map ClimateGuardian.name (ClimateGuardian.badges (ClimateGuardian.userData p1))) =
    Nat.max 1 (occurrences name
      (map ClimateGuardian.name (ClimateGuardian.badges (ClimateGuardian.userData p)))).
Proof.
  intros w1 p1.
  assert (checkAndAwardBadge badge_id w1 = w1) as Hagain.
  { unfold checkAndAwardBadge at 1.
    pose proof (checkAndAwardBadge_in badge_id w) as Hin.
    apply includes_true in Hin. subst w1. by rewrite Hin. }
  split; [done|]. split; [by rewrite Hagain|]. split.
  { subst w1. rewrite checkAndAwardBadge_badges.
    destruct (includes badge_id _) eqn:E.
    - apply includes_true, occurrences_present in E. lia.
    - apply includes_false in E. rewrite occurrences_snoc, occurrences_absent; done. }
  split.
  { by destruct (Inv_browse CoursesData visits) as [(_ & _ & Hnd) _]. }
  split; [apply ClimateGuardianFacts.awardBadge_again|].
  subst p1. rewrite ClimateGuardianFacts.awardBadge_badges.
  case_bool_decide as E.
  - apply occurrences_present in E. lia.
  - rewrite map_app. simpl. rewrite occurrences_snoc, occurrences_absent; done.
Qed.

(** C7.  Over every sequence of calls, from any state: no course loses a
    completed index, no badge is lost and XP does not decrease. *)
Theorem progress_only_grows
    (CoursesData : gmap string Course) (calls : list (Z * Op)) (w : World) :
  let w' := run CoursesData calls w in
  (∀ courseId, completedOf courseId w ⊆ completedOf courseId w') ∧
  badges (userProgress w) ⊆ badges (userProgress w') ∧
  xp (userProgress w) ≤ xp (userProgress w').
Proof. apply Grows_run. Qed.

(** C4.  [updateStreak] does not count by calendar day where the clocks
    change.  In New York a new visitor's progress is updated on Saturday
    8 March 2025 and on Sunday 9 March, the day the clocks go forward: the
    streak is 2 and the stored date is the Sunday.  On Monday 10 March at
    00:30, the next calendar day, the instant 24 hours earlier falls on the
    Saturday, so that [yesterday] is not the stored date: the streak is set
    back to 1, where one day after the stored date it should grow to 3.  The
    dashboard's [checkDailyVisit], which takes the day before today's date,
    counts 3 at the same three readings of the clock. *)
Theorem updateStreak_forgets_yesterday_at_clock_change :
  let w1 := SpaceEdClock.updateStreakIn SpaceEdClock.newYork SpaceEdClock.saturdayNoon
              (freshPage emptyStorage) in
  let w2 := SpaceEdClock.updateStreakIn SpaceEdClock.newYork SpaceEdClock.sundayNoon w1 in
  let w3 := SpaceEdClock.updateStreakIn SpaceEdClock.newYork SpaceEdClock.mondayEarly w2 in
  let day := SpaceEdClock.toDateStringIn SpaceEdClock.newYork in
  let clock := SpaceEdClock.localTime SpaceEdClock.newYork in
  let p3 := ClimateGuardian.checkDailyVisit (clock SpaceEdClock.mondayEarly)
              (ClimateGuardian.checkDailyVisit (clock SpaceEdClock.sundayNoon)
                 (ClimateGuardian.checkDailyVisit (clock SpaceEdClock.saturdayNoon)
                    (ClimateGuardian.startPage
                       (ClimateGuardian.mkStorage None None None None)))) in
  day SpaceEdClock.sundayNoon = day SpaceEdClock.saturdayNoon + 1 ∧
  day SpaceEdClock.mondayEarly = day SpaceEdClock.sundayNoon + 1 ∧
  streak (userProgress w2) = 2 ∧
  lastLoginDate (userProgress w2) = Some (day SpaceEdClock.sundayNoon) ∧
  day (SpaceEdClock.mondayEarly - 24 * 60 * 60 * 1000) = day SpaceEdClock.saturdayNoon ∧
  streak (userProgress w3) = 1 ∧
  lastLoginDate (userProgress w3) = Some (day SpaceEdClock.mondayEarly) ∧
  ClimateGuardian.streak (ClimateGuardian.userData p3) = 3.
Proof. repeat split; by vm_compute. Qed.

(** The streak update in a zone without clock changes.  [updateStreak] at a
    clock reading of day [today]: when the stored date is [today] the state
    is returned unchanged, so a further call on the
    same day does nothing; when it is the day before, the streak grows by 1;
    in every other case (a gap, or no date yet) the streak becomes 1; and the
    stored date is [today] afterwards.  From 2024-01-01 with streak 5, a call
    on 2024-01-02 gives 6 and a call on 2024-01-05 gives 1.  The dashboard's
    [checkDailyVisit] does the same with [lastVisit]. *)
Theorem streak_update_by_calendar_day (now now' : Z) (w : World)
    (p : ClimateGuardian.Page) :
  let today := toDateString now in
  let p0 := userProgress w in
  let p1 := userProgress (updateStreak now w) in
  let u0 := ClimateGuardian.userData p in
  let u1 := ClimateGuardian.userData (ClimateGuardian.checkDailyVisit now p) in
  (lastLoginDate p0 = Some today → updateStreak now w = w) ∧
  (toDateString now' = today →
     updateStreak now' (updateStreak now w) = updateStreak now w) ∧
  streak p1 =
    (if decide (lastLoginDate p0 = Some today) then streak p0
     else if decide (lastLoginDate p0 = Some (today - 1)) then streak p0 + 1
     else 1) ∧
  lastLoginDate p1 = Some today ∧
  streak (userProgress (updateStreak (19724 * msPerDay) streakFive)) = 6 ∧
  streak (userProgress (updateStreak (19727 * msPerDay) streakFive)) = 1 ∧
  streak (userProgress (updateStreak (19727 * msPerDay)
            (updateStreak (19724 * msPerDay) streakFive))) = 1 ∧
  (ClimateGuardian.lastVisit u0 = Some today → ClimateGuardian.checkDailyVisit now p = p) ∧
  (toDateString now' = today →
     ClimateGuardian.checkDailyVisit now' (ClimateGuardian.checkDailyVisit now p) =
     ClimateGuardian.checkDailyVisit now p) ∧
  ClimateGuardian.streak u1 =
    (if decide (ClimateGuardian.lastVisit u0 = Some today) then ClimateGuardian.streak u0
     else if decide (ClimateGuardian.lastVisit u0 = Some (today - 1)) then
       ClimateGuardian.streak u0 + 1
     else 1) ∧
  ClimateGuardian.lastVisit u1 = Some today ∧
  ClimateGuardian.streak (ClimateGuardian.userData
    (ClimateGuardian.checkDailyVisit (19724 * msPerDay) visitFive)) = 6 ∧
  ClimateGuardian.streak (ClimateGuardian.userData
    (ClimateGuardian.checkDailyVisit (19727 * msPerDay) visitFive)) = 1.
Proof.
  intros today p0 p1 u0 u1.
  split; [apply updateStreak_same_day|].
  split.
  { intros E. apply updateStreak_same_day. rewrite updateStreak_lastLoginDate.
    by rewrite E. }
  split; [apply updateStreak_streak|].
  split; [apply updateStreak_lastLoginDate|].
  do 3 (split; [reflexivity|]).
  split; [apply ClimateGuardianFacts.checkDailyVisit_same_day|].
  split.
  { intros E. apply ClimateGuardianFacts.checkDailyVisit_same_day.
    rewrite ClimateGuardianFacts.checkDailyVisit_lastVisit. by rewrite E. }
  split; [apply ClimateGuardianFacts.checkDailyVisit_streak|].
  split; [apply ClimateGuardianFacts.checkDailyVisit_lastVisit|].
  split; reflexivity.
Qed.

(** At a concrete day: a second call later on 2024-01-02 changes nothing. *)
Lemma streak_update_by_calendar_day_witness :
  toDateString (19724 * msPerDay + 3600000) = toDateString (19724 * msPerDay) ∧
  updateStreak (19724 * msPerDay + 3600000) (updateStreak (19724 * msPerDay) streakFive) =
  updateStreak (19724 * msPerDay) streakFive.
Proof.
  split; [reflexivity|].
  exact (proj1 (proj2 (streak_update_by_calendar_day (19724 * msPerDay)
                         (19724 * msPerDay + 3600000) streakFive visitFive))
           eq_refl).
Defined.

(** C5.  A submission with a radio checked replaces the form by the results,
    so that afterwards no radio is checked; a submission directly after a
    submission therefore finds none: it raises the alert and changes nothing
    else, in particular neither the progress nor what is stored.  On the
    dashboard [selectAnswer] leaves the question answered, and a
    [selectAnswer] after it returns at once with the state, and so the
    score, unchanged. *)
Theorem second_submit_is_rejected (correctAnswer correctAnswer' : Z) (w : World)
    (quizQuestions : list ClimateGuardian.Question) (selectedIndex selectedIndex' : Z)
    (p : ClimateGuardian.Page) :
  let w1 := submitQuiz correctAnswer w in
  let p1 := settle (ClimateGuardian.selectAnswer quizQuestions selectedIndex p) in
  quizContent w1 =
    match selectedOption w with
    | Some userAnswer =>
        quizContent (showQuizResults (bool_decide (userAnswer = correctAnswer)) w)
    | None => quizContent w
    end ∧
  selectedOption w1 = None ∧
  submitQuiz correctAnswer' w1 = alert "Please select an answer before submitting." w1 ∧
  userProgress (submitQuiz correctAnswer' w1) = userProgress w1 ∧
  localStorage (submitQuiz correctAnswer' w1) = localStorage w1 ∧
  quizContent (submitQuiz correctAnswer' w1) = quizContent w1 ∧
  ClimateGuardian.answered (ClimateGuardian.currentQuiz p1) = true ∧
  ClimateGuardian.selectAnswer quizQuestions selectedIndex' p1 = Done p1.
Proof.
  intros w1 p1.
  split; [apply submitQuiz_content|].
  split; [apply submitQuiz_selectedOption|].
  assert (submitQuiz correctAnswer' w1 =
          alert "Please select an answer before submitting." w1) as E.
  { unfold submitQuiz at 1. subst w1. by rewrite submitQuiz_selectedOption. }
  rewrite E. do 4 (split; [done|]).
  split; [apply ClimateGuardianFacts.selectAnswer_answered|].
  apply ClimateGuardianFacts.selectAnswer_again.
Qed.

(** C10.  On the quiz form with the radio of option [userAnswer] checked,
    [submitQuiz] adds 10 to XP when [userAnswer] is the correct answer and
    leaves XP as it is when it is not. *)
Theorem correct_answer_earns_ten_xp
    (quizData : Quiz) (userAnswer correctAnswer : Z) (w : World) :
  quizContent w = QuizForm quizData (Some userAnswer) →
  xp (userProgress (submitQuiz correctAnswer w)) =
  xp (userProgress w) + (if bool_decide (userAnswer = correctAnswer) then 10 else 0).
Proof.
  intros Hform. rewrite submitQuiz_xp. unfold selectedOption. by rewrite Hform.
Qed.

(** C10 on the page: the quiz of the first lesson of [aerospace] is shown,
    its correct option 1 is clicked and the answer submitted. *)
Lemma correct_answer_earns_ten_xp_witness :
  let w := selectOption 1 (showQuiz (quizOf 0) aerospaceStarted) in
  correct (quizOf 0) = 1 ∧
  quizContent w = QuizForm (quizOf 0) (Some 1) ∧
  xp (userProgress w) = 0 ∧
  xp (userProgress (submitQuiz (correct (quizOf 0)) w)) = 10.
Proof.
  split; [reflexivity|]. split; [reflexivity|]. split; [reflexivity|].
  exact (correct_answer_earns_ten_xp (quizOf 0) 1 (correct (quizOf 0))
           (selectOption 1 (showQuiz (quizOf 0) aerospaceStarted)) eq_refl).
Defined.

(** C6, as stated, fails for [submitQuiz]: no function of the state it leaves
    recovers the correct index.  After the wrong answer 0 to the quiz of
    lesson 1 (correct index 1) and after the wrong answer 0 to the quiz of
    lesson 2 (correct index 2) the page is in the same state. *)
Lemma submitQuiz_does_not_disclose_correct_index :
  ¬ ∃ reveal : World → Z,
      ∀ (quizData : Quiz) (userAnswer : Z) (w : World),
        quizContent w = QuizForm quizData (Some userAnswer) →
        reveal (submitQuiz (correct quizData) w) = correct quizData.
Proof.
  intros [reveal H].
  pose proof (H (quizOf 0) 0 (wrongAnswerTo (quizOf 0)) eq_refl) as H1.
  pose proof (H (quizOf 1) 0 (wrongAnswerTo (quizOf 1)) eq_refl) as H2.
  change (submitQuiz (correct (quizOf 1)) (wrongAnswerTo (quizOf 1)))
    with (submitQuiz (correct (quizOf 0)) (wrongAnswerTo (quizOf 0))) in H2.
  rewrite H1 in H2. discriminate H2.
Qed.

(** C6, amended.  A first submission computes [isCorrect] as the equality of
    the checked index with the correct one and shows that verdict; after a
    wrong answer what [submitQuiz] shows is one fixed view, the same whatever
    the correct index is.  On the dashboard, a first [selectAnswer] marks the
    option at the correct index [correct] whether the answer was right or
    wrong, and counts the answer in the score exactly when it is right. *)
Theorem submit_shows_verdict_and_dashboard_marks_correct
    (quizData : Quiz) (userAnswer : Z) (w : World)
    (quizQuestions : list ClimateGuardian.Question) (selectedIndex : Z)
    (p : ClimateGuardian.Page) (question : ClimateGuardian.Question)
    (el : ClimateGuardian.OptionEl) :
  quizContent w = QuizForm quizData (Some userAnswer) →
  ClimateGuardian.answered (ClimateGuardian.currentQuiz p) = false →
  nth_Z quizQuestions (ClimateGuardian.questionIndex (ClimateGuardian.currentQuiz p)) =
    Some question →
  nth_Z (ClimateGuardian.optionsEl p) (ClimateGuardian.correct question) = Some el →
  let isCorrect := bool_decide (userAnswer = correct quizData) in
  quizContent (submitQuiz (correct quizData) w) =
    QuizResultsView
      (mkQuizResults
         (if isCorrect then "✅ Correct!" else "❌ Incorrect")
         (if isCorrect then "Great job! You earned 10 XP points."
          else "Don't worry, learning is a process. Review the lesson and try again!")
         (if isCorrect then "Continue" else "Review Lesson")
         isCorrect) ∧
  ∃ p' el',
    ClimateGuardian.selectAnswer quizQuestions selectedIndex p = Done p' ∧
    nth_Z (ClimateGuardian.optionsEl p') (ClimateGuardian.correct question) = Some el' ∧
    "correct" ∈ ClimateGuardian.classList el' ∧
    ClimateGuardian.score (ClimateGuardian.currentQuiz p') =
      ClimateGuardian.score (ClimateGuardian.currentQuiz p) +
      (if bool_decide (selectedIndex = ClimateGuardian.correct question) then 1 else 0).
Proof.
  intros Hform Hans Hq Hel isCorrect. split.
  { rewrite submitQuiz_content. unfold selectedOption. by rewrite Hform. }
  destruct (ClimateGuardianFacts.selectAnswer_first quizQuestions selectedIndex p question
              Hans Hq) as (p' & Hp' & Hopts & Hscore & _).
  apply nth_Z_Some in Hel as [Hpos Hel].
  exists p', (ClimateGuardian.markOption question selectedIndex
                (Z.to_nat (ClimateGuardian.correct question)) el).
  split; [done|]. split.
  { apply nth_Z_Some. split; [done|].
    rewrite Hopts, list_lookup_imap, Hel. done. }
  split; [|done].
  apply ClimateGuardianFacts.markOption_correct. lia.
Qed.

(** C6 amended, on the pages: the wrong answer 0 to the first quiz of
    [aerospace], and the wrong answer 0 to the first question of the
    dashboard, whose option 1 is then marked. *)
Lemma submit_shows_verdict_and_dashboard_marks_correct_witness :
  quizContent (wrongAnswerTo (quizOf 0)) = QuizForm (quizOf 0) (Some 0) ∧
  ClimateGuardian.answered (ClimateGuardian.currentQuiz quizStarted) = false ∧
  quizContent (submitQuiz (correct (quizOf 0)) (wrongAnswerTo (quizOf 0))) =
    QuizResultsView
      (mkQuizResults "❌ Incorrect"
         "Don't worry, learning is a process. Review the lesson and try again!"
         "Review Lesson" false) ∧
  ∃ p' el',
    ClimateGuardian.selectAnswer ClimateGuardian.climateQuestions 0 quizStarted = Done p' ∧
    nth_Z (ClimateGuardian.optionsEl p') 1 = Some el' ∧
    "correct" ∈ ClimateGuardian.classList el'.
Proof.
  split; [reflexivity|]. split; [reflexivity|].
  destruct (submit_shows_verdict_and_dashboard_marks_correct
              (quizOf 0) 0 (wrongAnswerTo (quizOf 0))
              ClimateGuardian.climateQuestions 0 quizStarted
              (ClimateGuardian.mkQuestion
                 "What is the current atmospheric CO₂ concentration?"
                 ["350 ppm"; "420 ppm"; "500 ppm"; "380 ppm"] 1)
              (ClimateGuardian.mkOptionEl "420 ppm" ["quiz-option"] false)
              eq_refl eq_refl eq_refl eq_refl)
    as (Hview & p' & el' & Hp' & Hel' & Hcls & _).
  split; [exact Hview|].
  exists p', el'. split; [exact Hp'|]. split; [exact Hel'|exact Hcls].
Defined.

(** C8.  The code awards [first_lesson] when a lesson is shown, not when one
    is completed: opening the course [aerospace] on a new profile returns
    with the badge held and no lesson completed, although the catalogue
    describes the badge as "Complete your first lesson". *)
Theorem first_lesson_awarded_before_any_completion :
  startCourse spacedCourses "aerospace" (freshPage emptyStorage) = Done aerospaceStarted ∧
  badges (userProgress aerospaceStarted) = ["first_lesson"] ∧
  completedLessons (userProgress aerospaceStarted) = ∅ ∧
  description <$> List.find (λ b, bool_decide (badgeId b = "first_lesson")) BadgeSystem_badges
    = Some "Complete your first lesson".
Proof. repeat split; reflexivity. Qed.

(** C9.  With nothing stored [loadUserData] returns and leaves the default
    progress; with a user and no progress blob it returns with the default
    progress on which the streak of the day has been started.  With a blob
    that [JSON.parse] rejects it throws: the [SyntaxError] leaves
    [loadUserData], the blob is not treated as absent.  [SettingsManager.load]
    of the cosmos explorer keeps its defaults in that case. *)
Theorem loadUserData_throws_on_malformed_blob (now : Z) (settings : gmap string Z) :
  loadUserData now (freshPage emptyStorage) = Done (freshPage emptyStorage) ∧
  userProgress (freshPage emptyStorage) = mkProgress ∅ 0 1 0 None [] ∧
  loadUserData now (freshPage (mkStorage (Some (Json ada)) ∅)) =
    Done (with_progress
            (λ _, mkProgress ∅ 1 1 0 (Some (toDateString now)) [])
            (with_currentUser (Some ada) (freshPage (mkStorage (Some (Json ada)) ∅)))) ∧
  loadUserData now (freshPage cutShortStorage) =
    Threw SyntaxError (with_currentUser (Some ada) (freshPage cutShortStorage)) ∧
  CosmosExplorer.load (Some (NotJSON "{")) settings = settings.
Proof. repeat split; reflexivity. Qed.

(** ** Further properties of the learning platform *)

Module SpaceEdPathsFacts.
Import SpaceEd SpaceEdSpec SpaceEdFacts SpaceEdPaths.

(** *** Every call changes the progress by elementary updates *)

Lemma Updates_refl w : Updates w w.
Proof. apply rtc_refl. Qed.

Lemma Updates_trans w1 w2 w3 : Updates w1 w2 → Updates w2 w3 → Updates w1 w3.
Proof. apply rtc_trans. Qed.

Lemma Updates_frame w0 w w' :
  userProgress w' = userProgress w → Updates w0 w → Updates w0 w'.
Proof. unfold Updates. by intros ->. Qed.

Lemma Updates_with_progress f w0 w :
  Update (userProgress w) (f (userProgress w)) →
  Updates w0 w → Updates w0 (with_progress f w).
Proof. intros Hf H. eapply rtc_r; [exact H|exact Hf]. Qed.

Lemma Updates_checkAndAwardBadge b w0 w :
  Updates w0 w → Updates w0 (checkAndAwardBadge b w).
Proof.
  intros H. unfold Updates. rewrite checkAndAwardBadge_progress.
  destruct (includes b _) eqn:E; [done|].
  eapply rtc_r; [exact H|]. apply U_badge. by apply includes_false.
Qed.

Lemma Updates_updateLevel w0 w : Updates w0 w → Updates w0 (updateLevel w).
Proof.
  intros H. unfold Updates. rewrite updateLevel_progress.
  eapply rtc_r; [exact H|apply U_level].
Qed.

Lemma Updates_addXp n w0 w : 0 ≤ n → Updates w0 w → Updates w0 (addXp n w).
Proof. intros Hn H. apply Updates_with_progress; [by apply U_xp|done]. Qed.

(** Peels the outermost call off the right-hand side of an [Updates] goal. *)
Ltac updates_step :=
  lazymatch goal with
  | |- Updates ?w ?w => apply Updates_refl
  | |- Updates _ (saveUserData ?w) =>
      apply (Updates_frame _ w); [apply saveUserData_progress|]
  | |- Updates _ (updateLevel _) => apply Updates_updateLevel
  | |- Updates _ (checkAndAwardBadge _ _) => apply Updates_checkAndAwardBadge
  | |- Updates _ (addXp _ _) => apply Updates_addXp; [lia|]
  | |- Updates _ (with_progress (set_streak 1) _) =>
      apply Updates_with_progress; [apply U_streak_one|]
  | |- Updates _ (with_progress (λ p, set_streak (streak p + 1) p) _) =>
      apply Updates_with_progress; [apply U_streak_next|]
  | |- Updates _ (with_progress (set_lastLoginDate (Some _)) _) =>
      apply Updates_with_progress; [apply U_date|]
  | |- Updates _ (with_certificateModalActive _ ?w) => apply (Updates_frame _ w); [done|]
  | |- Updates _ (showCertificateModal _ ?w) => apply (Updates_frame _ w); [done|]
  | |- Updates _ (with_quizContent _ ?w) => apply (Updates_frame _ w); [done|]
  | |- Updates _ (with_quizModalActive _ ?w) => apply (Updates_frame _ w); [done|]
  | |- Updates _ (with_currentLesson _ ?w) => apply (Updates_frame _ w); [done|]
  | |- Updates _ (with_currentCourse _ ?w) => apply (Updates_frame _ w); [done|]
  | |- Updates _ (with_currentPage _ ?w) => apply (Updates_frame _ w); [done|]
  | |- Updates _ (with_currentUser _ ?w) => apply (Updates_frame _ w); [done|]
  | |- Updates _ (with_localStorage _ ?w) => apply (Updates_frame _ w); [done|]
  | |- Updates _ (with_lessonPane _ _ _ ?w) => apply (Updates_frame _ w); [done|]
  | |- Updates _ (showNotification _ _ ?w) => apply (Updates_frame _ w); [done|]
  | |- Updates _ (alert _ ?w) => apply (Updates_frame _ w); [done|]
  | |- Updates _ (showQuizResults _ ?w) => apply (Updates_frame _ w); [done|]
  | |- Updates _ (hideQuizModal ?w) => apply (Updates_frame _ w); [done|]
  | |- Updates _ (showQuiz _ ?w) => apply (Updates_frame _ w); [done|]
  | |- Updates _ (navigateToPage _ ?w) => apply (Updates_frame _ w); [done|]
  end.

Lemma Updates_updateStreak now w0 w : Updates w0 w → Updates w0 (updateStreak now w).
Proof.
  intros H. unfold updateStreak. case_bool_decide; [|done].
  updates_step.
  destruct (bool_decide (lastLoginDate (userProgress w) = Some _)); cbv zeta.
  - destruct (bool_decide (_ >= 7)); repeat updates_step; done.
  - repeat updates_step; done.
Qed.

Lemma Updates_markLessonCompleted c i now w0 w :
  Updates w0 w → Updates w0 (markLessonCompleted c i now w).
Proof.
  intros H. unfold markLessonCompleted.
  set (w1 := match _ !! c with None => _ | Some _ => w end).
  assert (Updates w0 w1 ∧ is_Some (completedLessons (userProgress w1) !! c)) as [H1 [l Hl]].
  { subst w1. destruct (_ !! c) eqn:E; [by eauto|]. split.
    - apply Updates_with_progress; [by apply U_course|done].
    - simpl. rewrite lookup_insert_eq. by eauto. }
  clearbody w1. rewrite Hl. simpl.
  destruct (includes i l) eqn:Ei; simpl; [done|].
  updates_step. apply Updates_updateStreak. repeat updates_step.
  apply Updates_with_progress; [|done].
  apply U_lesson; [done|by apply includes_false].
Qed.

Lemma Updates_completeCourse c w0 w : Updates w0 w → Updates w0 (completeCourse c w).
Proof. intros H. unfold completeCourse. repeat updates_step. done. Qed.

Lemma Updates_submitQuiz c w0 w : Updates w0 w → Updates w0 (submitQuiz c w).
Proof.
  intros H. unfold submitQuiz. destruct (selectedOption w); [|by updates_step].
  updates_step. case_bool_decide; repeat updates_step; done.
Qed.

Section WithCourses.

Variable CoursesData : gmap string Course.

Lemma Updates_loadLesson i w0 w :
  Updates w0 w → Updates w0 (settle (loadLesson CoursesData i w)).
Proof.
  intros H. unfold loadLesson.
  destruct (CoursesData !! _) as [course|]; [|done].
  destruct (nth_Z _ _); simpl; repeat updates_step; done.
Qed.

Lemma Updates_proceedToNextLesson now w0 w :
  Updates w0 w → Updates w0 (settle (proceedToNextLesson CoursesData now w)).
Proof.
  intros H. unfold proceedToNextLesson.
  pose proof (Updates_markLessonCompleted (propKey (currentCourse w)) (currentLesson w)
                now w0 w H) as H1.
  destruct (CoursesData !! _) as [course|]; [|done].
  case_bool_decide; simpl.
  - apply Updates_loadLesson. by updates_step.
  - by apply Updates_completeCourse.
Qed.

Lemma Updates_exec op now w0 w :
  Updates w0 w → Updates w0 (settle (exec CoursesData op now w)).
Proof.
  intros H. destruct op; simpl.
  - unfold startCourse, showCourseContent.
    set (w2 := navigateToPage _ _).
    assert (Updates w0 w2) as H2 by (subst w2; repeat updates_step; done).
    clearbody w2.
    destruct (CoursesData !! _) as [course|]; [|done].
    pose proof (Updates_loadLesson (currentLesson w2) w0 w2 H2) as H3.
    destruct (loadLesson _ _ _) as [w3|e w3]; simpl in *; [|done].
    case_bool_decide; simpl; [by updates_step|done].
  - unfold lessonItemClick.
    destruct (CoursesData !! _) as [course|]; [|done].
    case_bool_decide; [|done]. apply Updates_loadLesson. by updates_step.
  - unfold previousLesson. case_bool_decide; [|done].
    apply Updates_loadLesson. by updates_step.
  - unfold nextLesson.
    destruct (CoursesData !! _) as [course|]; [|done].
    destruct (nth_Z _ _) as [[? ? [q|]]|]; try by apply Updates_proceedToNextLesson.
    simpl. by updates_step.
  - by apply Updates_loadLesson.
  - by apply Updates_proceedToNextLesson.
  - by apply Updates_markLessonCompleted.
  - by apply Updates_completeCourse.
  - by updates_step.
  - unfold selectOption. destruct (quizContent w); try done.
    case_bool_decide; [by updates_step|done].
  - by apply Updates_submitQuiz.
  - unfold resultsButton. destruct (quizContent w) as [| |r]; try done.
    destruct (buttonProceeds r).
    + apply Updates_proceedToNextLesson. by updates_step.
    + apply Updates_loadLesson. by updates_step.
  - by updates_step.
  - by apply Updates_checkAndAwardBadge.
  - by apply Updates_updateLevel.
  - by apply Updates_updateStreak.
  - unfold checkDailyProgress. case_bool_decide; [by updates_step|done].
  - unfold loginUser. updates_step. apply Updates_updateStreak. repeat updates_step. done.
  - unfold logout. repeat updates_step. done.
  - by updates_step.
Qed.

Lemma Updates_run calls : ∀ w0 w, Updates w0 w → Updates w0 (run CoursesData calls w).
Proof.
  induction calls as [|[now op] rest IH]; intros w0 w H; simpl; [done|].
  by apply IH, Updates_exec.
Qed.

End WithCourses.

Lemma isLessonCompleted_completedOf c i w :
  isLessonCompleted c i w = includes i (completedOf c w).
Proof.
  unfold isLessonCompleted, completedOf.
  destruct (completedLessons (userProgress w) !! c); [done|].
  symmetry. apply includes_false, not_elem_of_nil.
Qed.

(** *** What the elementary updates preserve *)

Lemma Updates_invariant (P : UserProgress → Prop) w w' :
  (∀ p q, Update p q → P p → P q) →
  Updates w w' → P (userProgress w) → P (userProgress w').
Proof.
  intros HP H. unfold Updates in H.
  induction H as [|p q r Hpq _ IH]; [done|].
  intros Hp. apply IH. by apply (HP p q).
Qed.

Lemma Update_completedOnce p q : Update p q → completedOnce p → completedOnce q.
Proof.
  unfold completedOnce.
  destruct 1 as [p b Hb|p n Hn|p|p|p|p d|p c Hc|p c l i Hl Hi]; simpl; try done.
  - intros H. apply map_Forall_insert_2; [apply NoDup_nil_2|done].
  - intros H. apply map_Forall_insert_2; [|done].
    apply NoDup_app. split; [by apply (H c l)|].
    split; [|apply NoDup_singleton].
    by intros x Hx ->%list_elem_of_singleton.
Qed.

Lemma Update_level p q : Update p q → level p ≤ level q.
Proof. destruct 1; simpl; lia. Qed.

Lemma Update_lastLoginDate p q :
  Update p q → is_Some (lastLoginDate p) → is_Some (lastLoginDate q).
Proof. destruct 1; simpl; eauto. Qed.

Lemma Update_courses p q :
  Update p q → dom (completedLessons p) ⊆ dom (completedLessons q).
Proof. destruct 1; simpl; try done; rewrite dom_insert; set_solver. Qed.

Lemma Update_badges_prefix p q : Update p q → badges p `prefix_of` badges q.
Proof. destruct 1; simpl; try done. by apply prefix_app_r. Qed.

Lemma Update_completed_prefix c p q :
  Update p q →
  default [] (completedLessons p !! c) `prefix_of` default [] (completedLessons q !! c).
Proof.
  destruct 1 as [p b Hb|p n Hn|p|p|p|p d|p c' Hc|p c' l i Hl Hi]; simpl; try done.
  - rewrite lookup_insert. case_decide; [subst; by rewrite Hc|done].
  - rewrite lookup_insert. case_decide; [subst; rewrite Hl; by apply prefix_app_r|done].
Qed.

Lemma Updates_monotone {A} (R : relation A) `{!PreOrder R} (f : UserProgress → A) w w' :
  (∀ p q, Update p q → R (f p) (f q)) →
  Updates w w' → R (f (userProgress w)) (f (userProgress w')).
Proof.
  intros HR H. unfold Updates in H.
  induction H as [|p q r Hpq _ IH]; [done|].
  etrans; [by apply HR|done].
Qed.

(** *** Moving about leaves the progress alone, and stays on a lesson *)

Lemma position_of_controls w w' : controls w' = controls w → position w' = position w.
Proof. intros E. controls_fields E. unfold position. congruence. Qed.

Lemma position_checkAndAwardBadge b w : position (checkAndAwardBadge b w) = position w.
Proof. apply position_of_controls, controls_checkAndAwardBadge. Qed.

Lemma position_saveUserData w : position (saveUserData w) = position w.
Proof. apply position_of_controls, controls_saveUserData. Qed.

Lemma position_updateLevel w : position (updateLevel w) = position w.
Proof. apply position_of_controls, controls_updateLevel. Qed.

Lemma position_updateStreak now w : position (updateStreak now w) = position w.
Proof. apply position_of_controls, controls_updateStreak. Qed.

Lemma position_markLessonCompleted c i now w :
  position (markLessonCompleted c i now w) = position w.
Proof. apply position_of_controls, controls_markLessonCompleted. Qed.

Lemma position_completeCourse c w : position (completeCourse c w) = position w.
Proof.
  destruct (completeCourse_controls c w) as (Hl & Hc & _).
  unfold position. by rewrite Hl, Hc.
Qed.

Lemma position_submitQuiz c w : position (submitQuiz c w) = position w.
Proof.
  unfold submitQuiz. destruct (selectedOption w); [|done].
  rewrite position_saveUserData. case_bool_decide; [|done].
  by rewrite position_checkAndAwardBadge, position_updateLevel.
Qed.

Lemma exceptBadges_checkAndAwardBadge b w :
  exceptBadges (userProgress (checkAndAwardBadge b w)) = exceptBadges (userProgress w).
Proof. rewrite checkAndAwardBadge_progress. by destruct (includes b _). Qed.

Section Moves.

Variable CoursesData : gmap string Course.

Lemma position_loadLesson i w :
  position (settle (loadLesson CoursesData i w)) = position w.
Proof.
  unfold loadLesson.
  destruct (CoursesData !! _) as [course|]; [|done].
  destruct (nth_Z _ _); [|done]. simpl. by rewrite position_checkAndAwardBadge.
Qed.

Lemma exceptBadges_loadLesson i w :
  exceptBadges (userProgress (settle (loadLesson CoursesData i w))) =
  exceptBadges (userProgress w).
Proof.
  unfold loadLesson.
  destruct (CoursesData !! _) as [course|]; [|done].
  destruct (nth_Z _ _); [|done]. simpl. by rewrite exceptBadges_checkAndAwardBadge.
Qed.

Lemma exceptBadges_navigates op now w :
  navigates op = true →
  exceptBadges (userProgress (settle (exec CoursesData op now w))) =
  exceptBadges (userProgress w).
Proof.
  destruct op; try done; intros _; simpl.
  - unfold startCourse, showCourseContent.
    set (w2 := navigateToPage _ _).
    change (exceptBadges (userProgress w)) with (exceptBadges (userProgress w2)).
    clearbody w2.
    destruct (CoursesData !! _) as [course|]; [|done].
    pose proof (exceptBadges_loadLesson (currentLesson w2) w2) as H3.
    destruct (loadLesson _ _ _) as [w3|e w3]; simpl in *; [|done].
    case_bool_decide; simpl; [|done]. by rewrite exceptBadges_checkAndAwardBadge.
  - unfold lessonItemClick.
    destruct (CoursesData !! _) as [course|]; [|done].
    case_bool_decide; [|done]. by rewrite exceptBadges_loadLesson.
  - unfold previousLesson. case_bool_decide; [|done]. by rewrite exceptBadges_loadLesson.
  - apply exceptBadges_loadLesson.
  - unfold selectOption. destruct (quizContent w); try done. by case_bool_decide.
Qed.

Lemma onALesson_same w w' :
  position w' = position w → onALesson CoursesData w → onALesson CoursesData w'.
Proof. unfold onALesson, position. intros [= -> ->]. done. Qed.

Lemma onALesson_loadLesson i w :
  onALesson CoursesData w → onALesson CoursesData (settle (loadLesson CoursesData i w)).
Proof. apply onALesson_same, position_loadLesson. Qed.

Lemma onALesson_proceedToNextLesson now w :
  onALesson CoursesData w →
  onALesson CoursesData (settle (proceedToNextLesson CoursesData now w)).
Proof.
  intros H. unfold proceedToNextLesson.
  pose proof (position_markLessonCompleted (propKey (currentCourse w)) (currentLesson w)
                now w) as Hp.
  set (w1 := markLessonCompleted _ _ _ _) in *.
  assert (onALesson CoursesData w1) as H1 by by apply (onALesson_same w).
  unfold position in Hp. injection Hp as Hc Hl. clearbody w1.
  destruct (CoursesData !! _) as [course|] eqn:Ec; [|done].
  case_bool_decide as Hlt; simpl.
  - apply onALesson_loadLesson. intros course' Hc'. simpl in *.
    rewrite Hc, Ec in Hc'. injection Hc' as <-.
    specialize (H course Ec). lia.
  - apply (onALesson_same w1); [apply position_completeCourse|done].
Qed.

Lemma onALesson_exec op now w :
  noEmptyCourse CoursesData →
  onALesson CoursesData w → onALesson CoursesData (settle (exec CoursesData op now w)).
Proof.
  intros Hne H. destruct op; simpl.
  - unfold startCourse, showCourseContent.
    set (w2 := navigateToPage _ _).
    assert (onALesson CoursesData w2) as H2.
    { intros course Hc. subst w2. simpl in *.
      pose proof (Hne _ _ Hc) as Hl. simpl in Hl. unfold lengthZ.
      destruct (lessons course); [by destruct Hl|]. rewrite length_cons. lia. }
    clearbody w2.
    destruct (CoursesData !! _) as [course|]; [|done].
    pose proof (onALesson_loadLesson (currentLesson w2) w2 H2) as H3.
    destruct (loadLesson _ _ _) as [w3|e w3]; simpl in *; [|done].
    case_bool_decide; simpl; [|done].
    apply (onALesson_same w3); [apply position_checkAndAwardBadge|done].
  - unfold lessonItemClick.
    destruct (CoursesData !! _) as [course|] eqn:Ec; [|done].
    case_bool_decide; [|done]. apply onALesson_loadLesson.
    intros course' Hc'. simpl in *. rewrite Ec in Hc'. by injection Hc' as <-.
  - unfold previousLesson. case_bool_decide; [|done]. apply onALesson_loadLesson.
    intros course Hc. simpl in *. specialize (H course Hc). lia.
  - unfold nextLesson.
    destruct (CoursesData !! _) as [course|]; [|done].
    destruct (nth_Z _ _) as [[? ? [q|]]|]; try by apply onALesson_proceedToNextLesson.
    done.
  - by apply onALesson_loadLesson.
  - by apply onALesson_proceedToNextLesson.
  - apply (onALesson_same w); [apply position_markLessonCompleted|done].
  - apply (onALesson_same w); [apply position_completeCourse|done].
  - done.
  - unfold selectOption. destruct (quizContent w); try done. by case_bool_decide.
  - apply (onALesson_same w); [apply position_submitQuiz|done].
  - unfold resultsButton. destruct (quizContent w) as [| |r]; try done.
    destruct (buttonProceeds r).
    + by apply onALesson_proceedToNextLesson.
    + by apply onALesson_loadLesson.
  - done.
  - apply (onALesson_same w); [apply position_checkAndAwardBadge|done].
  - apply (onALesson_same w); [apply position_updateLevel|done].
  - apply (onALesson_same w); [apply position_updateStreak|done].
  - unfold checkDailyProgress. case_bool_decide; [|done].
    apply (onALesson_same w); [apply position_checkAndAwardBadge|done].
  - unfold loginUser. apply (onALesson_same w); [|done].
    change (position (updateStreak now
              (with_localStorage
                 (mkStorage (Some (Json user))
                    (ls_userData (localStorage (with_currentUser (Some user) w))))
                 (with_currentUser (Some user) w))) = position w).
    by rewrite position_updateStreak.
  - done.
  - apply (onALesson_same w); [apply position_saveUserData|done].
Qed.

End Moves.

(** *** What is stored, and what comes back *)

Lemma updateStreak_progress_ext now w1 w2 :
  userProgress w1 = userProgress w2 →
  userProgress (updateStreak now w1) = userProgress (updateStreak now w2).
Proof.
  intros E. unfold updateStreak. rewrite E.
  case_bool_decide; [|done]. cbn [userProgress with_progress]. rewrite !E.
  repeat case_bool_decide;
    rewrite ?checkAndAwardBadge_progress; cbn [userProgress with_progress];
    rewrite ?E; done.
Qed.

Lemma unsaved_frame w0 w w' :
  currentUser w' = currentUser w → localStorage w' = localStorage w →
  unsaved w0 w → unsaved w0 w'.
Proof. unfold unsaved. intros -> ->. done. Qed.

Lemma unsaved_saveUserData w0 w : unsaved w0 w → unsaved w0 (saveUserData w).
Proof. intros [Hu Hs]. unfold saveUserData. by rewrite Hu. Qed.

Lemma unsaved_showBadgeNotification b w0 w :
  unsaved w0 w → unsaved w0 (showBadgeNotification b w).
Proof.
  unfold showBadgeNotification. destruct (List.find _ _); [|done].
  by apply unsaved_frame.
Qed.

Lemma unsaved_checkAndAwardBadge b w0 w :
  unsaved w0 w → unsaved w0 (checkAndAwardBadge b w).
Proof.
  intros H. unfold checkAndAwardBadge. destruct (includes b _); simpl; [done|].
  apply unsaved_saveUserData, unsaved_showBadgeNotification. by apply (unsaved_frame _ w).
Qed.

Lemma unsaved_updateLevel w0 w : unsaved w0 w → unsaved w0 (updateLevel w).
Proof.
  intros H. unfold updateLevel. case_bool_decide; [|done]. by apply (unsaved_frame _ w).
Qed.

Lemma unsaved_updateStreak now w0 w : unsaved w0 w → unsaved w0 (updateStreak now w).
Proof.
  intros H. unfold updateStreak. case_bool_decide; [|done].
  destruct (bool_decide (lastLoginDate (userProgress w) = Some _)); cbv zeta.
  - destruct (bool_decide (_ >= 7)).
    + eapply unsaved_frame; [..|apply (unsaved_checkAndAwardBadge "week_streak")]; [done|done|].
      by apply (unsaved_frame _ w).
    + by apply (unsaved_frame _ w).
  - by apply (unsaved_frame _ w).
Qed.

Lemma unsaved_markLessonCompleted c i now w0 w :
  unsaved w0 w → unsaved w0 (markLessonCompleted c i now w).
Proof.
  intros H. unfold markLessonCompleted.
  set (w1 := match _ !! c with None => _ | Some _ => w end).
  assert (unsaved w0 w1) as H1.
  { subst w1. destruct (_ !! c); [done|]. by apply (unsaved_frame _ w). }
  clearbody w1.
  destruct (includes i _); simpl; [done|].
  apply unsaved_saveUserData, unsaved_updateStreak, unsaved_updateLevel.
  by apply (unsaved_frame _ w1).
Qed.

Lemma unsaved_completeCourse c w0 w : unsaved w0 w → unsaved w0 (completeCourse c w).
Proof.
  intros H. unfold completeCourse, showCertificateModal.
  apply unsaved_saveUserData.
  eapply unsaved_frame; [..|apply unsaved_updateLevel]; [done|done|].
  eapply unsaved_frame; [..|apply (unsaved_checkAndAwardBadge "course_complete"), H];
    done.
Qed.

Lemma unsaved_submitQuiz c w0 w : unsaved w0 w → unsaved w0 (submitQuiz c w).
Proof.
  intros H. unfold submitQuiz. destruct (selectedOption w); [|by apply (unsaved_frame _ w)].
  apply unsaved_saveUserData. case_bool_decide; [|by apply (unsaved_frame _ w)].
  apply unsaved_checkAndAwardBadge, unsaved_updateLevel. by apply (unsaved_frame _ w).
Qed.

Section Stored.

Variable CoursesData : gmap string Course.

Lemma unsaved_loadLesson i w0 w :
  unsaved w0 w → unsaved w0 (settle (loadLesson CoursesData i w)).
Proof.
  intros H. unfold loadLesson.
  destruct (CoursesData !! _) as [course|]; [|done].
  destruct (nth_Z _ _); [|done]. simpl.
  apply unsaved_checkAndAwardBadge. by apply (unsaved_frame _ w).
Qed.

Lemma unsaved_proceedToNextLesson now w0 w :
  unsaved w0 w → unsaved w0 (settle (proceedToNextLesson CoursesData now w)).
Proof.
  intros H. unfold proceedToNextLesson.
  pose proof (unsaved_markLessonCompleted (propKey (currentCourse w)) (currentLesson w)
                now w0 w H) as H1.
  destruct (CoursesData !! _) as [course|]; [|done].
  case_bool_decide; simpl.
  - apply unsaved_loadLesson. by eapply unsaved_frame; [..|exact H1].
  - by apply unsaved_completeCourse.
Qed.

Lemma unsaved_exec op now w0 w :
  signs op = false →
  unsaved w0 w → unsaved w0 (settle (exec CoursesData op now w)).
Proof.
  intros Hop H. destruct op; try done; simpl.
  - unfold startCourse, showCourseContent, navigateToPage.
    set (w2 := with_currentPage _ _).
    assert (unsaved w0 w2) as H2 by by apply (unsaved_frame _ w).
    clearbody w2.
    destruct (CoursesData !! _) as [course|]; [|done].
    pose proof (unsaved_loadLesson (currentLesson w2) w0 w2 H2) as H3.
    destruct (loadLesson _ _ _) as [w3|e w3]; simpl in *; [|done].
    case_bool_decide; simpl; [|done]. by apply unsaved_checkAndAwardBadge.
  - unfold lessonItemClick.
    destruct (CoursesData !! _) as [course|]; [|done].
    case_bool_decide; [|done]. apply unsaved_loadLesson. by apply (unsaved_frame _ w).
  - unfold previousLesson. case_bool_decide; [|done].
    apply unsaved_loadLesson. by apply (unsaved_frame _ w).
  - unfold nextLesson.
    destruct (CoursesData !! _) as [course|]; [|done].
    destruct (nth_Z _ _) as [[? ? [q|]]|]; try by apply unsaved_proceedToNextLesson.
    simpl. by apply (unsaved_frame _ w).
  - by apply unsaved_loadLesson.
  - by apply unsaved_proceedToNextLesson.
  - by apply unsaved_markLessonCompleted.
  - by apply unsaved_completeCourse.
  - unfold selectOption. destruct (quizContent w); try done.
    case_bool_decide; [|done]. by apply (unsaved_frame _ w).
  - by apply unsaved_submitQuiz.
  - unfold resultsButton. destruct (quizContent w) as [| |r]; try done.
    destruct (buttonProceeds r).
    + apply unsaved_proceedToNextLesson. by apply (unsaved_frame _ w).
    + apply unsaved_loadLesson. by apply (unsaved_frame _ w).
  - by apply unsaved_checkAndAwardBadge.
  - by apply unsaved_updateLevel.
  - by apply unsaved_updateStreak.
  - unfold checkDailyProgress. case_bool_decide; [|done].
    by apply unsaved_checkAndAwardBadge.
  - by apply unsaved_saveUserData.
Qed.

Lemma unsaved_run calls : ∀ w0 w,
  forallb (λ call, negb (signs call.2)) calls = true →
  unsaved w0 w → unsaved w0 (run CoursesData calls w).
Proof.
  induction calls as [|[now op] rest IH]; intros w0 w Hc H; simpl in *; [done|].
  apply andb_prop in Hc as [Hop Hrest].
  apply IH; [done|]. apply unsaved_exec; [|done]. by destruct (signs op).
Qed.

End Stored.

(** *** Passing the lessons of a course *)












Section Walk.

Variable CoursesData : gmap string Course.

Lemma run_app calls1 calls2 w :
  run CoursesData (calls1 ++ calls2) w = run CoursesData calls2 (run CoursesData calls1 w).
Proof.
  revert w. induction calls1 as [|[now op] rest IH]; intros w; simpl; [done|]. apply IH.
Qed.











End Walk.

(** *** Days in a row, and a wrong answer *)

Lemma toDateString_days t0 (n : nat) :
  toDateString (t0 + Z.of_nat n * msPerDay) = toDateString t0 + Z.of_nat n.
Proof. unfold toDateString, msPerDay. by rewrite Z.div_add by lia. Qed.

Lemma updateStreak_week now w :
  lastLoginDate (userProgress w) = Some (toDateString now - 1) →
  streak (userProgress w) + 1 >= 7 →
  "week_streak" ∈ badges (userProgress (updateStreak now w)).
Proof.
  intros Hy H7. unfold updateStreak. rewrite toDateString_yesterday.
  rewrite bool_decide_eq_true_2 by (rewrite Hy; intros [=]; lia).
  rewrite bool_decide_eq_true_2 by done. cbv zeta.
  rewrite bool_decide_eq_true_2 by done. simpl. apply checkAndAwardBadge_in.
Qed.

Lemma loginDays_streak t0 (n : nat) w :
  lastLoginDate (userProgress w) ≠ Some (toDateString t0) →
  lastLoginDate (userProgress w) ≠ Some (toDateString t0 - 1) →
  streak (userProgress (loginDays t0 (S n) w)) = Z.of_nat (S n) ∧
  lastLoginDate (userProgress (loginDays t0 (S n) w)) = Some (toDateString t0 + Z.of_nat n).
Proof.
  intros Ht Hy. induction n as [|n [IHs IHd]].
  - change (loginDays t0 1 w) with (updateStreak (t0 + Z.of_nat 0 * msPerDay) w).
    replace (t0 + Z.of_nat 0 * msPerDay) with t0 by lia.
    replace (toDateString t0 + Z.of_nat 0) with (toDateString t0) by lia.
    split; [|apply updateStreak_lastLoginDate].
    rewrite updateStreak_streak. rewrite !decide_False; done.
  - change (loginDays t0 (S (S n)) w)
      with (updateStreak (t0 + Z.of_nat (S n) * msPerDay) (loginDays t0 (S n) w)).
    split.
    + rewrite updateStreak_streak, toDateString_days, IHs, IHd.
      rewrite decide_False by (intros [=]; lia).
      rewrite decide_True by (f_equal; lia). lia.
    + by rewrite updateStreak_lastLoginDate, toDateString_days.
Qed.

Lemma loginDays_week t0 (n : nat) w :
  lastLoginDate (userProgress w) ≠ Some (toDateString t0) →
  lastLoginDate (userProgress w) ≠ Some (toDateString t0 - 1) →
  (7 ≤ S n)%nat →
  "week_streak" ∈ badges (userProgress (loginDays t0 (S n) w)).
Proof.
  intros Ht Hy H7. destruct n as [|m]; [lia|].
  destruct (loginDays_streak t0 m w Ht Hy) as [Hs Hd].
  change (loginDays t0 (S (S m)) w)
    with (updateStreak (t0 + Z.of_nat (S m) * msPerDay) (loginDays t0 (S m) w)).
  apply updateStreak_week.
  - rewrite Hd, toDateString_days. f_equal. lia.
  - rewrite Hs. lia.
Qed.

(** Where the offset of the zone is the same now and 24 hours ago,
    [updateStreakIn] is [updateStreak] at the local clock reading. *)
Lemma updateStreakIn_steady (zone : SpaceEdClock.Zone) offset now w :
  zone now = offset →
  zone (now - 24 * 60 * 60 * 1000) = offset →
  SpaceEdClock.updateStreakIn zone now w = updateStreak (now + offset) w.
Proof.
  intros Hnow Hago.
  unfold SpaceEdClock.updateStreakIn, updateStreak, SpaceEdClock.toDateStringIn,
    SpaceEdClock.localTime.
  rewrite Hnow, Hago.
  by replace (now - 24 * 60 * 60 * 1000 + offset)
    with (now + offset - 24 * 60 * 60 * 1000) by lia.
Qed.

Lemma updateStreakIn_fixed offset now w :
  SpaceEdClock.updateStreakIn (SpaceEdClock.fixedOffset offset) now w =
  updateStreak (now + offset) w.
Proof. by apply updateStreakIn_steady. Qed.

Lemma loginDaysIn_steady (zone : SpaceEdClock.Zone) offset t0 (n : nat) w :
  (∀ t, t0 - msPerDay ≤ t ≤ t0 + Z.of_nat n * msPerDay → zone t = offset) →
  ∀ k : nat, (k ≤ S n)%nat →
    SpaceEdClock.loginDaysIn zone t0 k w = loginDays (t0 + offset) k w.
Proof.
  intros Hzone k. induction k as [|k IH]; intros Hk; [done|].
  cbn [SpaceEdClock.loginDaysIn loginDays]. rewrite IH by lia.
  rewrite (updateStreakIn_steady zone offset).
  - f_equal. lia.
  - apply Hzone. unfold msPerDay. lia.
  - apply Hzone. unfold msPerDay. lia.
Qed.

Section Gate.

Variable CoursesData : gmap string Course.

Lemma quizModalActive_loadLesson i w :
  quizModalActive (settle (loadLesson CoursesData i w)) = quizModalActive w.
Proof.
  unfold loadLesson.
  destruct (CoursesData !! _) as [course|]; [|done].
  destruct (nth_Z _ _) as [lesson|]; [|done]. simpl.
  match goal with |- context [checkAndAwardBadge ?b ?v] =>
    pose proof (controls_checkAndAwardBadge b v) as E end.
  by controls_fields E.
Qed.

Lemma answerQuiz_wrong now w course lesson quizData answer :
  CoursesData !! propKey (currentCourse w) = Some course →
  nth_Z (lessons course) (currentLesson w) = Some lesson →
  quiz lesson = Some quizData →
  0 ≤ answer < lengthZ (options quizData) →
  answer ≠ correct quizData →
  let w' := run CoursesData (map (pair now) (answerQuiz quizData answer)) w in
  position w' = position w ∧
  exceptBadges (userProgress w') = exceptBadges (userProgress w) ∧
  quizModalActive w' = false.
Proof.
  intros Hc Hl Hq Hrange Hwrong. unfold answerQuiz. simpl.
  rewrite (nextLesson_with_quiz CoursesData now w course lesson quizData Hc Hl Hq). simpl.
  assert (selectOption answer (showQuiz quizData w) =
          with_quizContent (QuizForm quizData (Some answer)) (showQuiz quizData w)) as ->.
  { unfold selectOption. simpl. by rewrite bool_decide_eq_true_2. }
  set (w2 := with_quizContent _ _).
  assert (submitQuiz (correct quizData) w2 = saveUserData (showQuizResults false w2)) as ->.
  { unfold submitQuiz. simpl. by rewrite bool_decide_eq_false_2. }
  set (w3 := saveUserData _).
  assert (quizContent w3 = quizContent (showQuizResults false w2)) as Hview
    by apply (quizContent_of_controls _ _ (controls_saveUserData _)).
  unfold resultsButton. rewrite Hview. simpl.
  set (w4 := hideQuizModal w3).
  assert (position w4 = position w) as Hp4.
  { subst w4 w3. unfold hideQuizModal, position. simpl.
    by pose proof (position_saveUserData (showQuizResults false w2)) as [= -> ->]. }
  assert (userProgress w4 = userProgress w) as Hu4.
  { subst w4 w3. simpl. by rewrite saveUserData_progress. }
  split; [by rewrite position_loadLesson|].
  split; [by rewrite exceptBadges_loadLesson, Hu4|].
  rewrite quizModalActive_loadLesson. by subst w4.
Qed.

End Gate.

End SpaceEdPathsFacts.

(** ** Further properties of the climate dashboard *)

Module ClimateGuardianRunsFacts.
Import ClimateGuardian ClimateGuardianFacts ClimateGuardianRuns.

(** *** The storage mirrors the user data *)

Lemma synced_iff p :
  synced p ↔
  default 0 (ls_climateStreak (localStorage p)) = streak (userData p) ∧
  default [] (ls_climateBadges (localStorage p)) = badges (userData p) ∧
  ls_lastVisit (localStorage p) = lastVisit (userData p) ∧
  default 0 (ls_quizScore (localStorage p)) = quizScore (userData p).
Proof.
  unfold synced, startPage. simpl. destruct (userData p) as [s b l q]. simpl. split.
  - by intros [= -> -> -> ->].
  - by intros (-> & -> & -> & ->).
Qed.

Lemma synced_startPage ls : synced (startPage ls).
Proof. done. Qed.

Lemma synced_awardBadge icon name p : synced p → synced (awardBadge icon name p).
Proof.
  intros H. unfold awardBadge. destruct (List.find _ _); [done|].
  apply synced_iff in H as (Hs & Hb & Hl & Hq). apply synced_iff. by simpl.
Qed.

Lemma synced_checkDailyVisit now p : synced p → synced (checkDailyVisit now p).
Proof.
  intros H. unfold checkDailyVisit. case_bool_decide; [|done]. cbv zeta.
  set (streak' := if bool_decide (lastVisit _ = _) then _ else _). clearbody streak'.
  match goal with |- synced (if _ then _ else if _ then awardBadge _ _ ?p2 else _) =>
    assert (synced p2) as H2 end.
  { apply synced_iff in H as (Hs & Hb & Hl & Hq). apply synced_iff. by simpl. }
  repeat case_bool_decide; try done; by apply synced_awardBadge.
Qed.

Section WithQuestions.

Variable quizQuestions : list Question.

Lemma synced_finishQuiz p : synced p → synced (finishQuiz quizQuestions p).
Proof.
  intros H. unfold finishQuiz. cbv zeta.
  match goal with |- synced (if _ then awardBadge _ _ (if _ then awardBadge _ _ ?p4 else _)
                             else _) =>
    assert (synced p4) as H4 end.
  { apply synced_iff in H as (Hs & Hb & Hl & Hq). apply synced_iff. by simpl. }
  repeat case_bool_decide; try done; repeat apply synced_awardBadge; done.
Qed.

Lemma synced_same p p' :
  userData p' = userData p → localStorage p' = localStorage p → synced p → synced p'.
Proof. unfold synced. intros -> ->. done. Qed.

Lemma synced_showQuestion p : synced p → synced (settle (showQuestion quizQuestions p)).
Proof.
  intros H. unfold showQuestion. case_bool_decide; [by apply synced_finishQuiz|].
  destruct (nth_Z _ _); [|done]. simpl. by apply (synced_same p).
Qed.

Lemma synced_exec e now p : synced p → synced (settle (exec quizQuestions e now p)).
Proof.
  intros H. destruct e; simpl.
  - unfold startQuiz. apply synced_showQuestion. by apply (synced_same p).
  - unfold selectAnswer. destruct (answered _); [done|].
    destruct (nth_Z _ _); [|by apply (synced_same p)].
    simpl. case_bool_decide; by apply (synced_same p).
  - unfold autoAdvance. destruct (pendingAdvance p); [done|].
    case_bool_decide.
    + apply synced_showQuestion. by apply (synced_same p).
    + simpl. apply synced_finishQuiz. by apply (synced_same p).
  - by apply synced_checkDailyVisit.
  - by apply synced_awardBadge.
Qed.

Lemma synced_run events : ∀ p, synced p → synced (run quizQuestions events p).
Proof.
  induction events as [|[now e] rest IH]; intros p H; simpl; [done|].
  by apply IH, synced_exec.
Qed.

End WithQuestions.

(** *** The score stays within the quiz; the best score and the badges grow *)

Lemma awardBadge_rest icon name p :
  currentQuiz (awardBadge icon name p) = currentQuiz p ∧
  quizScore (userData (awardBadge icon name p)) = quizScore (userData p) ∧
  questionEl (awardBadge icon name p) = questionEl p ∧
  pendingAdvance (awardBadge icon name p) = pendingAdvance p.
Proof. unfold awardBadge. by destruct (List.find _ _). Qed.

Lemma awardBadge_prefix icon name p :
  badges (userData p) `prefix_of` badges (userData (awardBadge icon name p)).
Proof.
  rewrite awardBadge_badges. case_bool_decide; [done|]. by apply prefix_app_r.
Qed.

Lemma checkDailyVisit_rest now p :
  currentQuiz (checkDailyVisit now p) = currentQuiz p ∧
  quizScore (userData (checkDailyVisit now p)) = quizScore (userData p).
Proof.
  unfold checkDailyVisit. case_bool_decide; [|done]. cbv zeta.
  repeat case_bool_decide; try done;
    by rewrite (proj1 (awardBadge_rest _ _ _)), (proj1 (proj2 (awardBadge_rest _ _ _))).
Qed.

Lemma checkDailyVisit_prefix now p :
  badges (userData p) `prefix_of` badges (userData (checkDailyVisit now p)).
Proof.
  unfold checkDailyVisit. case_bool_decide; [|done]. cbv zeta.
  repeat case_bool_decide; try done;
    (etrans; [|apply awardBadge_prefix]); done.
Qed.

Section Score.

Variable quizQuestions : list Question.

Lemma finishQuiz_currentQuiz p :
  currentQuiz (finishQuiz quizQuestions p) = currentQuiz p.
Proof.
  unfold finishQuiz. cbv zeta.
  repeat case_bool_decide; rewrite ?(proj1 (awardBadge_rest _ _ _)); done.
Qed.

Lemma finishQuiz_quizScore p :
  quizScore (userData (finishQuiz quizQuestions p)) =
  Z.max (quizScore (userData p)) (score (currentQuiz p)).
Proof.
  unfold finishQuiz. cbv zeta.
  repeat case_bool_decide; rewrite ?(proj1 (proj2 (awardBadge_rest _ _ _))); done.
Qed.

Lemma finishQuiz_prefix p :
  badges (userData p) `prefix_of` badges (userData (finishQuiz quizQuestions p)).
Proof.
  unfold finishQuiz. cbv zeta.
  repeat case_bool_decide; try done.
  - etrans; [|apply awardBadge_prefix]. etrans; [|apply awardBadge_prefix]. done.
  - etrans; [|apply awardBadge_prefix]. done.
  - etrans; [|apply awardBadge_prefix]. done.
Qed.

Lemma within_finishQuiz best p : within quizQuestions best p → within quizQuestions best (finishQuiz quizQuestions p).
Proof.
  intros [Hs Hb]. split.
  - unfold scoreWithin. by rewrite finishQuiz_currentQuiz.
  - rewrite finishQuiz_quizScore. destruct Hs as (_ & _ & Hs). lia.
Qed.

Lemma within_showQuestion best p :
  within quizQuestions best p → score (currentQuiz p) ≤ questionIndex (currentQuiz p) →
  within quizQuestions best (settle (showQuestion quizQuestions p)).
Proof.
  intros H Hle. unfold showQuestion. case_bool_decide; [by apply within_finishQuiz|].
  destruct (nth_Z _ _); [|done]. simpl. destruct H as [(Hi & Hs & Hn) Hb].
  split; [|done]. unfold scoreWithin. simpl. lia.
Qed.

Lemma within_exec best e now p :
  within quizQuestions best p → within quizQuestions best (settle (exec quizQuestions e now p)).
Proof.
  intros H. destruct e as [|selectedIndex| | |icon name]; simpl.
  - unfold startQuiz. apply within_showQuestion; [|done].
    destruct H as [(Hi & Hs & Hn) Hb]. split; [|done].
    unfold scoreWithin. simpl. unfold lengthZ. lia.
  - unfold selectAnswer. destruct (answered (currentQuiz p)) eqn:Ea; [done|].
    destruct H as [(Hi & Hs & Hn) Hb]. rewrite Ea in Hs.
    destruct (nth_Z _ _) as [question|] eqn:Eq.
    + apply nth_Z_Some in Eq as [_ Eq]. apply lookup_lt_Some in Eq.
      simpl. case_bool_decide; (split; [|done]); unfold scoreWithin, lengthZ in *;
        simpl; lia.
    + split; [|done]. unfold scoreWithin. simpl. lia.
  - unfold autoAdvance. destruct (pendingAdvance p); [done|].
    destruct H as [(Hi & Hs & Hn) Hb].
    case_bool_decide.
    + apply within_showQuestion; [|simpl; destruct (answered _); lia].
      split; [|done]. unfold scoreWithin. simpl. destruct (answered _); lia.
    + simpl. apply within_finishQuiz.
      split; [|done]. unfold scoreWithin. simpl. destruct (answered _); lia.
  - destruct H as [Hs Hb]. destruct (checkDailyVisit_rest now p) as [Hq Hbest].
    split; [unfold scoreWithin; by rewrite Hq|by rewrite Hbest].
  - destruct H as [Hs Hb]. destruct (awardBadge_rest icon name p) as (Hq & Hbest & _).
    split; [unfold scoreWithin; by rewrite Hq|by rewrite Hbest].
Qed.

Lemma within_run best events : ∀ p,
  within quizQuestions best p → within quizQuestions best (run quizQuestions events p).
Proof.
  induction events as [|[now e] rest IH]; intros p H; simpl; [done|].
  by apply IH, within_exec.
Qed.

(** The best score and the badges over one event. *)
Lemma grows_exec e now p :
  quizScore (userData p) ≤ quizScore (userData (settle (exec quizQuestions e now p))) ∧
  badges (userData p) `prefix_of`
    badges (userData (settle (exec quizQuestions e now p))).
Proof.
  assert (∀ q, userData q = userData p →
               quizScore (userData p) ≤ quizScore (userData (finishQuiz quizQuestions q)) ∧
               badges (userData p) `prefix_of` badges (userData (finishQuiz quizQuestions q)))
    as Hfinish.
  { intros q <-. split; [rewrite finishQuiz_quizScore; lia|apply finishQuiz_prefix]. }
  assert (∀ q, userData q = userData p →
               quizScore (userData p) ≤
                 quizScore (userData (settle (showQuestion quizQuestions q))) ∧
               badges (userData p) `prefix_of`
                 badges (userData (settle (showQuestion quizQuestions q)))) as Hshow.
  { intros q Hq. unfold showQuestion. case_bool_decide; [by apply Hfinish|].
    destruct (nth_Z _ _); simpl; by rewrite Hq. }
  destruct e as [|selectedIndex| | |icon name]; simpl.
  - unfold startQuiz. by apply Hshow.
  - unfold selectAnswer. destruct (answered _); [done|].
    destruct (nth_Z _ _); [|done]. simpl. by case_bool_decide.
  - unfold autoAdvance. destruct (pendingAdvance p); [done|].
    case_bool_decide; [by apply Hshow|by apply Hfinish].
  - split; [by rewrite (proj2 (checkDailyVisit_rest now p))|apply checkDailyVisit_prefix].
  - split; [by rewrite (proj1 (proj2 (awardBadge_rest icon name p)))|apply awardBadge_prefix].
Qed.

End Score.

(** *** Days in a row *)

Lemma awardBadge_named icon name p : name ∈ badgeNames (awardBadge icon name p).
Proof.
  unfold badgeNames. rewrite awardBadge_badges. case_bool_decide as E; [done|].
  rewrite map_app. apply elem_of_app. right. by apply list_elem_of_singleton.
Qed.

Lemma badgeNames_prefix p p' :
  badges (userData p) `prefix_of` badges (userData p') →
  ∀ name, name ∈ badgeNames p → name ∈ badgeNames p'.
Proof.
  intros [k Hk] name. unfold badgeNames. rewrite Hk, map_app, elem_of_app. by left.
Qed.

Lemma checkDailyVisit_week now p :
  lastVisit (userData p) = Some (toDateString now - 1) →
  streak (userData p) + 1 = 7 →
  "Week Warrior" ∈ badgeNames (checkDailyVisit now p).
Proof.
  intros Hy H7. unfold checkDailyVisit. rewrite toDateString_setDate.
  rewrite bool_decide_eq_true_2 by (rewrite Hy; intros [=]; lia). cbv zeta.
  rewrite !(bool_decide_eq_true_2 (lastVisit _ = _)) by done.
  rewrite bool_decide_eq_true_2 by done. apply awardBadge_named.
Qed.

Lemma toDateString_visit_days t0 (n : nat) :
  toDateString (t0 + Z.of_nat n * msPerDay) = toDateString t0 + Z.of_nat n.
Proof. unfold toDateString, msPerDay. by rewrite Z.div_add by lia. Qed.

Lemma visitDays_streak t0 (n : nat) p :
  lastVisit (userData p) ≠ Some (toDateString t0) →
  lastVisit (userData p) ≠ Some (toDateString t0 - 1) →
  streak (userData (visitDays t0 (S n) p)) = Z.of_nat (S n) ∧
  lastVisit (userData (visitDays t0 (S n) p)) = Some (toDateString t0 + Z.of_nat n).
Proof.
  intros Ht Hy. induction n as [|n [IHs IHd]].
  - change (visitDays t0 1 p) with (checkDailyVisit (t0 + Z.of_nat 0 * msPerDay) p).
    replace (t0 + Z.of_nat 0 * msPerDay) with t0 by lia.
    replace (toDateString t0 + Z.of_nat 0) with (toDateString t0) by lia.
    split; [|apply checkDailyVisit_lastVisit].
    rewrite checkDailyVisit_streak. rewrite !decide_False; done.
  - change (visitDays t0 (S (S n)) p)
      with (checkDailyVisit (t0 + Z.of_nat (S n) * msPerDay) (visitDays t0 (S n) p)).
    split.
    + rewrite checkDailyVisit_streak, toDateString_visit_days, IHs, IHd.
      rewrite decide_False by (intros [=]; lia).
      rewrite decide_True by (f_equal; lia). lia.
    + by rewrite checkDailyVisit_lastVisit, toDateString_visit_days.
Qed.

Lemma visitDays_week t0 (n : nat) p :
  lastVisit (userData p) ≠ Some (toDateString t0) →
  lastVisit (userData p) ≠ Some (toDateString t0 - 1) →
  (6 ≤ n)%nat →
  "Week Warrior" ∈ badgeNames (visitDays t0 (S n) p).
Proof.
  intros Ht Hy. induction n as [|n IH]; [lia|]. intros H6.
  change (visitDays t0 (S (S n)) p)
    with (checkDailyVisit (t0 + Z.of_nat (S n) * msPerDay) (visitDays t0 (S n) p)).
  destruct (decide (n = 5%nat)) as [->|Hn].
  - destruct (visitDays_streak t0 5 p Ht Hy) as [Hs Hd].
    apply checkDailyVisit_week.
    + rewrite Hd, toDateString_visit_days. f_equal. lia.
    + rewrite Hs. lia.
  - eapply badgeNames_prefix; [apply checkDailyVisit_prefix|]. apply IH. lia.
Qed.

(** *** A quiz played to the end *)

Section Play.

Variable quizQuestions : list Question.

Lemma run_events_app events1 events2 p :
  run quizQuestions (events1 ++ events2) p =
  run quizQuestions events2 (run quizQuestions events1 p).
Proof.
  revert p. induction events1 as [|[now e] rest IH]; intros p; simpl; [done|]. apply IH.
Qed.

Lemma lookup_question_middle {A} (passed rest : list A) x :
  nth_Z (passed ++ x :: rest) (lengthZ passed) = Some x.
Proof.
  apply nth_Z_Some. unfold lengthZ. split; [lia|].
  rewrite Nat2Z.id. by apply list_lookup_middle.
Qed.

Lemma play_run now : ∀ rest passed answers p,
  quizQuestions = passed ++ rest → rest ≠ [] →
  length answers = length rest →
  questionIndex (currentQuiz p) = lengthZ passed →
  answered (currentQuiz p) = false →
  pendingAdvance p = 0%nat →
  ∃ p1, run quizQuestions (map (pair now) (play answers)) p = finishQuiz quizQuestions p1 ∧
        score (currentQuiz p1) = score (currentQuiz p) + hits answers rest ∧
        userData p1 = userData p ∧
        localStorage p1 = localStorage p.
Proof.
  induction rest as [|question rest IH];
    intros passed answers p Hsplit Hne Hlen Hi Ha Hp; [done|].
  destruct answers as [|answer answers]; [done|].
  injection Hlen as Hlen.
  change (play (answer :: answers))
    with ([SelectAnswer answer; TimerFires] ++ play answers).
  rewrite map_app, run_events_app.
  assert (lengthZ quizQuestions = lengthZ passed + 1 + lengthZ rest) as Hn.
  { unfold lengthZ. rewrite Hsplit, length_app, length_cons. lia. }
  set (hit := if bool_decide (answer = correct question) then 1 else 0).
  assert (∃ p3, selectAnswer quizQuestions answer p = Done p3 ∧
                currentQuiz p3 =
                  mkCurrentQuiz (lengthZ passed) (score (currentQuiz p) + hit) true ∧
                pendingAdvance p3 = 1%nat ∧
                userData p3 = userData p ∧ localStorage p3 = localStorage p)
    as (p3 & Hsel & Hq3 & Hp3 & Hu3 & Hl3).
  { unfold selectAnswer. rewrite Ha, Hi, Hsplit, lookup_question_middle.
    eexists. split; [done|]. subst hit.
    case_bool_decide; simpl; rewrite ?Hp, ?Hi, ?Z.add_0_r; done. }
  change (run quizQuestions (map (pair now) [SelectAnswer answer; TimerFires]) p)
    with (settle (autoAdvance quizQuestions
                    (settle (selectAnswer quizQuestions answer p)))).
  rewrite Hsel. cbn [settle]. unfold autoAdvance. rewrite Hp3. cbv zeta.
  replace (currentQuiz (with_pendingAdvance 0 p3)) with (currentQuiz p3) by done.
  rewrite Hq3. cbn [questionIndex score answered currentQuiz with_currentQuiz].
  set (p2 := with_currentQuiz _ (with_pendingAdvance 0 p3)).
  assert (currentQuiz p2 =
          mkCurrentQuiz (lengthZ passed + 1) (score (currentQuiz p) + hit) true ∧
          pendingAdvance p2 = 0%nat ∧
          userData p2 = userData p ∧ localStorage p2 = localStorage p)
    as (Hq2 & Hp2 & Hu2 & Hl2) by done.
  clearbody p2.
  change (hits (answer :: answers) (question :: rest)) with (hit + hits answers rest).
  destruct rest as [|question' rest'].
  - destruct answers; [|done].
    rewrite bool_decide_eq_false_2 by (unfold lengthZ in *; simpl in *; lia).
    exists p2. split; [done|]. rewrite Hq2. simpl. split; [lia|done].
  - rewrite bool_decide_eq_true_2 by (unfold lengthZ in *; rewrite length_cons in Hn; lia).
    unfold showQuestion. rewrite Hq2. cbn [questionIndex score answered].
    rewrite bool_decide_eq_false_2 by (unfold lengthZ in *; rewrite length_cons in Hn; lia).
    assert (nth_Z quizQuestions (lengthZ passed + 1) = Some question') as ->.
    { rewrite Hsplit.
      replace (passed ++ question :: question' :: rest')
        with ((passed ++ [question]) ++ question' :: rest') by by rewrite <-app_assoc.
      replace (lengthZ passed + 1) with (lengthZ (passed ++ [question]))
        by (unfold lengthZ; rewrite length_app; simpl; lia).
      apply lookup_question_middle. }
    cbn [settle].
    match goal with |- ∃ p1, run _ _ ?p' = _ ∧ _ =>
      destruct (IH (passed ++ [question]) answers p') as (p1 & Hrun & Hs1 & Hu1 & Hl1) end;
      try done.
    + by rewrite <-app_assoc.
    + simpl. rewrite Hq2. unfold lengthZ. rewrite length_app. simpl. lia.
    + exists p1. split; [done|]. simpl in Hs1, Hu1, Hl1. rewrite Hq2 in Hs1. simpl in Hs1.
      split; [rewrite Hs1; lia|]. split; congruence.
Qed.

Lemma startQuiz_run p question rest :
  quizQuestions = question :: rest →
  ∃ p', startQuiz quizQuestions p = Done p' ∧
        currentQuiz p' = mkCurrentQuiz 0 0 false ∧
        pendingAdvance p' = pendingAdvance p ∧
        userData p' = userData p ∧ localStorage p' = localStorage p.
Proof.
  intros Hq. unfold startQuiz, showQuestion. simpl.
  rewrite bool_decide_eq_false_2 by (rewrite Hq; unfold lengthZ; simpl; lia).
  rewrite Hq. simpl. by eexists.
Qed.

Lemma finishQuiz_view p :
  questionEl (finishQuiz quizQuestions p) =
  QuizComplete (score (currentQuiz p)) (lengthZ quizQuestions)
    (getScoreMessage (score (currentQuiz p))).
Proof.
  unfold finishQuiz. cbv zeta.
  repeat case_bool_decide;
    rewrite ?(proj1 (proj2 (proj2 (awardBadge_rest _ _ _)))); done.
Qed.

Lemma finishQuiz_badges p :
  let k := score (currentQuiz p) in
  let p' := finishQuiz quizQuestions p in
  (7 ≤ k → "Climate Expert" ∈ badgeNames p') ∧
  (k = 10 → "Perfect Score" ∈ badgeNames p') ∧
  (k < 7 → badges (userData p') = badges (userData p)).
Proof.
  intros k p'. subst k p'. unfold finishQuiz. cbv zeta.
  split; [|split].
  - intros H7. rewrite (bool_decide_eq_true_2 (_ >= 7)) by lia.
    case_bool_decide.
    + eapply badgeNames_prefix; [apply awardBadge_prefix|]. apply awardBadge_named.
    + apply awardBadge_named.
  - intros H10. rewrite (bool_decide_eq_true_2 (_ = 10)) by done. apply awardBadge_named.
  - intros Hlt. rewrite (bool_decide_eq_false_2 (_ >= 7)) by lia.
    by rewrite (bool_decide_eq_false_2 (_ = 10)) by lia.
Qed.

End Play.

End ClimateGuardianRunsFacts.

(** ** Further properties of the code *)

Import SpaceEdPaths SpaceEdPathsFacts.

(** X1.  For course identifiers that are no property names of
    [Object.prototype]: after [markLessonCompleted(courseId, lessonIndex)] the
    lesson counts as completed for [isLessonCompleted], and every other
    lesson of every course counts as it did before. *)
Theorem marked_lesson_is_completed
    (courseId courseId' : string) (lessonIndex lessonIndex' now : Z) (w : World) :
  plainKey courseId →
  plainKey courseId' →
  isLessonCompleted courseId' lessonIndex'
    (markLessonCompleted courseId lessonIndex now w) =
  if decide (courseId' = courseId ∧ lessonIndex' = lessonIndex) then true
  else isLessonCompleted courseId' lessonIndex' w.
Proof.
  intros _ _.
  rewrite !isLessonCompleted_completedOf. unfold completedOf at 1.
  rewrite markLessonCompleted_completed, lookup_insert.
  destruct (decide (courseId = courseId')) as [->|Hc]; simpl.
  - set (l := completedOf courseId' w).
    destruct (decide (courseId' = courseId' ∧ lessonIndex' = lessonIndex)) as [[_ ->]|Hn].
    + destruct (includes lessonIndex l) eqn:E; [done|]. apply includes_true.
      apply elem_of_app. right. by apply list_elem_of_singleton.
    + assert (lessonIndex' ≠ lessonIndex) as Hi by (intros ->; by apply Hn).
      destruct (includes lessonIndex l); [done|].
      unfold includes. apply bool_decide_ext. rewrite elem_of_app, list_elem_of_singleton.
      split; [by intros [?|?]|by left].
  - rewrite decide_False; [done|]. intros [-> _]. done.
Qed.

(** X1 on the page: lesson 1 of [aerospace] is marked on the page that has
    just opened the course; lesson 1 then counts as completed, lesson 0 of
    the same course and lesson 1 of [satellites] do not. *)
Lemma marked_lesson_is_completed_witness :
  let w := markLessonCompleted "aerospace" 1 0 aerospaceStarted in
  plainKey "aerospace" ∧ plainKey "satellites" ∧
  isLessonCompleted "aerospace" 1 w = true ∧
  isLessonCompleted "aerospace" 0 w = false ∧
  isLessonCompleted "satellites" 1 w = false.
Proof.
  assert (plainKey "aerospace") as Ha
    by (unfold plainKey; apply (bool_decide_unpack _); by vm_compute).
  assert (plainKey "satellites") as Hs
    by (unfold plainKey; apply (bool_decide_unpack _); by vm_compute).
  split; [exact Ha|]. split; [exact Hs|].
  split; [exact (marked_lesson_is_completed "aerospace" "aerospace" 1 1 0
                   aerospaceStarted Ha Ha)|].
  split; [exact (marked_lesson_is_completed "aerospace" "aerospace" 1 0 0
                   aerospaceStarted Ha Ha)|].
  exact (marked_lesson_is_completed "aerospace" "satellites" 1 1 0
           aerospaceStarted Ha Hs).
Defined.

(** X2.  If no course holds a completed index twice, no sequence of calls
    makes one hold an index twice. *)
Theorem completed_indices_stay_distinct
    (CoursesData : gmap string Course) (calls : list (Z * Op)) (w : World) :
  completedOnce (userProgress w) →
  completedOnce (userProgress (run CoursesData calls w)).
Proof.
  apply (Updates_invariant completedOnce); [apply Update_completedOnce|].
  apply Updates_run, Updates_refl.
Qed.

(** X2 on the page: the first lesson of [aerospace] marked twice over. *)
Lemma completed_indices_stay_distinct_witness :
  completedOnce (userProgress aerospaceStarted) ∧
  completedOnce (userProgress
    (run spacedCourses
       [(0, MarkLessonCompleted "aerospace" 0); (0, MarkLessonCompleted "aerospace" 0);
        (0, ProceedToNextLesson)]
       aerospaceStarted)).
Proof.
  assert (completedOnce (userProgress aerospaceStarted)) as H0
    by apply map_Forall_empty.
  split; [exact H0|].
  exact (completed_indices_stay_distinct spacedCourses _ aerospaceStarted H0).
Defined.

(** X3.  Over every sequence of calls the stored level never decreases, a
    stored login date is never cleared, and no course disappears from
    [completedLessons]. *)
Theorem level_date_and_courses_are_kept
    (CoursesData : gmap string Course) (calls : list (Z * Op)) (w : World) :
  let p := userProgress w in
  let p' := userProgress (run CoursesData calls w) in
  level p ≤ level p' ∧
  (is_Some (lastLoginDate p) → is_Some (lastLoginDate p')) ∧
  dom (completedLessons p) ⊆ dom (completedLessons p').
Proof.
  intros p p'.
  pose proof (Updates_run CoursesData calls w w (Updates_refl w)) as H.
  split; [|split].
  - apply (Updates_monotone Z.le level); [apply Update_level|done].
  - apply (Updates_invariant
             (λ q, is_Some (lastLoginDate p) → is_Some (lastLoginDate q))
             w (run CoursesData calls w)); [|done|done].
    intros q r Hqr Hq Hp. by apply (Update_lastLoginDate q r), Hq.
  - apply (Updates_monotone (⊆) (λ q, dom (completedLessons q)));
      [apply Update_courses|done].
Qed.

(** X4.  Badges and completed indices are only ever appended: over every
    sequence of calls the badge list and the list of each course keep their
    entries in place and in order, new ones coming after them. *)
Theorem badges_and_indices_are_appended
    (CoursesData : gmap string Course) (calls : list (Z * Op)) (w : World)
    (courseId : string) :
  let w' := run CoursesData calls w in
  badges (userProgress w) `prefix_of` badges (userProgress w') ∧
  completedOf courseId w `prefix_of` completedOf courseId w'.
Proof.
  intros w'.
  pose proof (Updates_run CoursesData calls w w (Updates_refl w)) as H.
  split.
  - apply (Updates_monotone prefix badges); [apply Update_badges_prefix|done].
  - apply (Updates_monotone prefix (λ q, default [] (completedLessons q !! courseId)));
      [apply Update_completed_prefix|done].
Qed.

(** X5.  Moving about (opening a course, clicking a lesson of the list, going
    back, showing a lesson, showing a quiz, checking an option, closing the
    quiz) changes nothing of the progress but, possibly, the badges: XP, level,
    streak, login date and completed lessons stay as they are. *)
Theorem moving_about_leaves_progress
    (CoursesData : gmap string Course) (op : Op) (now : Z) (w : World) :
  navigates op = true →
  exceptBadges (userProgress (settle (exec CoursesData op now w))) =
  exceptBadges (userProgress w).
Proof. apply exceptBadges_navigates. Qed.

(** X5 on the page: back from the second lesson of [aerospace], the first
    having been passed. *)
Lemma moving_about_leaves_progress_witness :
  let w := run spacedCourses [(0, ProceedToNextLesson)] aerospaceStarted in
  navigates PreviousLesson = true ∧
  xp (userProgress w) = 25 ∧
  currentLesson (settle (exec spacedCourses PreviousLesson 0 w)) = 0 ∧
  exceptBadges (userProgress (settle (exec spacedCourses PreviousLesson 0 w))) =
  exceptBadges (userProgress w).
Proof.
  split; [reflexivity|]. split; [reflexivity|]. split; [reflexivity|].
  exact (moving_about_leaves_progress spacedCourses PreviousLesson 0 _ eq_refl).
Defined.

(** X6.  In a catalogue without empty courses, if the current lesson is a
    lesson of the current course, it is still one after every sequence of
    calls: the index never leaves [0 .. lessonCount - 1]. *)
Theorem current_lesson_stays_in_course
    (CoursesData : gmap string Course) (calls : list (Z * Op)) (w : World) :
  noEmptyCourse CoursesData →
  onALesson CoursesData w →
  onALesson CoursesData (run CoursesData calls w).
Proof.
  intros Hne. revert w.
  induction calls as [|[now op] rest IH]; intros w H; simpl; [done|].
  by apply IH, onALesson_exec.
Qed.

(** X6 on the page: Next is pressed past the end of [aerospace]. *)
Lemma current_lesson_stays_in_course_witness :
  noEmptyCourse spacedCourses ∧
  onALesson spacedCourses aerospaceStarted ∧
  onALesson spacedCourses
    (run spacedCourses
       [(0, ProceedToNextLesson); (0, ProceedToNextLesson); (0, ProceedToNextLesson);
        (0, ProceedToNextLesson); (0, PreviousLesson)]
       aerospaceStarted).
Proof.
  assert (noEmptyCourse spacedCourses) as Hne.
  { unfold noEmptyCourse, spacedCourses.
    repeat (apply map_Forall_insert_2; [discriminate|]). apply map_Forall_empty. }
  assert (onALesson spacedCourses aerospaceStarted) as H0.
  { intros course Hc. vm_compute in Hc. injection Hc as <-. vm_compute. by split. }
  split; [exact Hne|]. split; [exact H0|].
  exact (current_lesson_stays_in_course spacedCourses _ aerospaceStarted Hne H0).
Defined.

(** X7.  What a signed-in user has is restored when the page is opened
    again: after [saveUserData], [loadUserData] on a new page signs the same
    user in, puts the course and the lesson back, and leaves the progress
    that [updateStreak] makes of the saved one, which is the saved progress
    itself when the page is reopened on the day of the last login. *)
Theorem saved_progress_is_restored (now : Z) (w : World) (user : User) :
  currentUser w = Some user →
  ls_currentUser (localStorage w) = Some (Json user) →
  let w' := openPage now (localStorage (saveUserData w)) in
  currentUser w' = Some user ∧
  currentCourse w' = currentCourse w ∧
  currentLesson w' = currentLesson w ∧
  userProgress w' = userProgress (updateStreak now w) ∧
  (lastLoginDate (userProgress w) = Some (toDateString now) →
   userProgress w' = userProgress w).
Proof.
  intros Hu Hls w'.
  assert (∃ w4, w' = updateStreak now w4 ∧ controls w4 = controls
            (with_currentLesson (currentLesson w)
               (with_currentCourse (currentCourse w)
                  (with_currentUser (Some user) (freshPage (localStorage (saveUserData w)))))) ∧
            userProgress w4 = userProgress w) as (w4 & -> & Hc4 & Hp4).
  { subst w'. unfold openPage, loadUserData, saveUserData. rewrite Hu. simpl.
    rewrite Hls. simpl. rewrite lookup_insert_eq. simpl.
    eexists. split; [reflexivity|]. split; [reflexivity|]. simpl.
    by destruct (userProgress w). }
  pose proof (controls_updateStreak now w4) as E. rewrite Hc4 in E.
  controls_fields E. simpl in *.
  split; [done|]. split; [done|]. split; [done|].
  assert (userProgress (updateStreak now w4) = userProgress (updateStreak now w)) as Hp
    by by apply updateStreak_progress_ext.
  split; [done|].
  intros Hd. rewrite Hp. by rewrite (updateStreak_same_day now w Hd).
Qed.

(** X7 on the page: [ada] signs in, passes the first lesson of [aerospace]
    and reopens the page an hour later. *)
Lemma saved_progress_is_restored_witness :
  let w := run spacedCourses [(0, LoginUser ada); (0, ProceedToNextLesson)]
             aerospaceStarted in
  currentUser w = Some ada ∧
  ls_currentUser (localStorage w) = Some (Json ada) ∧
  xp (userProgress w) = 25 ∧
  userProgress (openPage 3600000 (localStorage (saveUserData w))) = userProgress w.
Proof.
  split; [reflexivity|]. split; [reflexivity|]. split; [reflexivity|].
  exact (proj2 (proj2 (proj2 (proj2
           (saved_progress_is_restored 3600000
              (run spacedCourses [(0, LoginUser ada); (0, ProceedToNextLesson)]
                 aerospaceStarted)
              ada eq_refl eq_refl)))) eq_refl).
Defined.

(** X8.  Nothing a visitor does while signed out is stored: as long as no
    call signs a user in, the storage stays as it was, and opening the page
    again starts from the default progress. *)
Theorem signed_out_progress_is_not_stored
    (CoursesData : gmap string Course) (calls : list (Z * Op)) (now : Z) (w : World) :
  currentUser w = None →
  ls_currentUser (localStorage w) = None →
  forallb (λ call, negb (signs call.2)) calls = true →
  let w' := run CoursesData calls w in
  localStorage w' = localStorage w ∧
  openPage now (localStorage w') = freshPage (localStorage w).
Proof.
  intros Hu Hls Hcalls w'.
  destruct (unsaved_run CoursesData calls w w Hcalls) as [_ Hs]; [done|].
  split; [done|]. subst w'. rewrite Hs.
  unfold openPage, loadUserData. simpl. by rewrite Hls.
Qed.

(** X8 on the page: a signed-out visitor passes the first lesson, earns 25 XP
    and opens the page again. *)
Lemma signed_out_progress_is_not_stored_witness :
  let calls := [(0, ProceedToNextLesson)] in
  currentUser aerospaceStarted = None ∧
  xp (userProgress (run spacedCourses calls aerospaceStarted)) = 25 ∧
  openPage 0 (localStorage (run spacedCourses calls aerospaceStarted)) =
  freshPage emptyStorage.
Proof.
  split; [reflexivity|]. split; [reflexivity|].
  exact (proj2 (signed_out_progress_is_not_stored spacedCourses
                  [(0, ProceedToNextLesson)] 0 aerospaceStarted eq_refl eq_refl eq_refl)).
Defined.

Import SpaceEdAccounts.

(** X9.  Signing up with an email that has no account stores the account and
    signs the user in; a login with that email then succeeds exactly with
    the password given at signup, and with any other password it raises
    "Invalid password" and signs nobody in. *)
Theorem signup_then_login
    (name email password password' : string) (now now' : Z) (s : Site) :
  name ≠ EmptyString → email ≠ EmptyString → password ≠ EmptyString →
  password' ≠ EmptyString →
  truthy (users s !! email) = None →
  let user := mkUser name email password in
  let s1 := handleSignup name email password now s in
  users s1 = <[email := Json user]> (users s) ∧
  currentUser (page s1) = Some user ∧
  handleLogin email password' now' s1 =
    Done (if decide (password' = password) then onPage (loginUser user now') s1
          else onPage (alert "Invalid password") s1).
Proof.
  intros Hn He Hp Hp' Hfree user s1.
  assert (s1 = onPage (loginUser user now)
                 (mkSite (page s) (<[email := Json user]> (users s)))) as Hs1.
  { subst s1. unfold handleSignup.
    rewrite bool_decide_eq_false_2 by (intros [?|[?|?]]; done).
    by rewrite Hfree. }
  split; [by rewrite Hs1|]. split.
  { rewrite Hs1. simpl.
    pose proof (controls_updateStreak now
      (with_localStorage (mkStorage (Some (Json user)) (ls_userData (localStorage (page s))))
         (with_currentUser (Some user) (page s)))) as E.
    by controls_fields E. }
  unfold handleLogin.
  rewrite bool_decide_eq_false_2 by (intros [?|?]; done).
  replace (users s1 !! email) with (Some (Json user))
    by (rewrite Hs1; simpl; by rewrite lookup_insert_eq).
  simpl. case_decide as Hd.
  - by rewrite bool_decide_eq_true_2.
  - by rewrite bool_decide_eq_false_2.
Qed.

(** A site where nobody has an account yet. *)
Lemma signup_then_login_witness :
  let s := mkSite (freshPage emptyStorage) ∅ in
  let s1 := handleSignup "Ada" "ada@example.org" "secret" 0 s in
  truthy (users s !! "ada@example.org") = None ∧
  currentUser (page (settle (handleLogin "ada@example.org" "guess" 0 (onPage logout s1)))) =
    None ∧
  currentUser (page (settle (handleLogin "ada@example.org" "secret" 0 (onPage logout s1)))) =
    Some ada ∧
  handleLogin "ada@example.org" "guess" 1 s1 = Done (onPage (alert "Invalid password") s1).
Proof.
  split; [reflexivity|]. split; [reflexivity|]. split; [reflexivity|].
  exact (proj2 (proj2
    (signup_then_login "Ada" "ada@example.org" "secret" "guess" 0 1
       (mkSite (freshPage emptyStorage) ∅)
       ltac:(discriminate) ltac:(discriminate) ltac:(discriminate) ltac:(discriminate)
       eq_refl))).
Defined.

(** X10.  An account that is stored is never altered by a signup or a login,
    whatever these are called with: [handleSignup] refuses an email that is
    taken and otherwise writes under another key, [handleLogin] writes no
    account at all. *)
Theorem stored_account_is_kept
    (name email password email' : string) (now : Z) (s : Site) (item : Stored User) :
  truthy (users s !! email') = Some item →
  users (handleSignup name email password now s) !! email' = users s !! email' ∧
  users (settle (handleLogin email password now s)) = users s.
Proof.
  intros Hitem. split.
  - unfold handleSignup. case_bool_decide; [done|].
    destruct (truthy (users s !! email)) eqn:E; [done|]. simpl.
    rewrite lookup_insert_ne; [done|]. intros ->. by rewrite E in Hitem.
  - unfold handleLogin. case_bool_decide; [done|].
    destruct (truthy (users s !! email)) as [[raw|user]|]; try done.
    by case_bool_decide.
Qed.

(** X10 on the site: a second signup with [ada]'s email and another password. *)
Lemma stored_account_is_kept_witness :
  let s1 := handleSignup "Ada" "ada@example.org" "secret" 0
              (mkSite (freshPage emptyStorage) ∅) in
  truthy (users s1 !! "ada@example.org") = Some (Json ada) ∧
  users (handleSignup "Eve" "ada@example.org" "other" 1 s1) !! "ada@example.org" =
    Some (Json ada).
Proof.
  split; [reflexivity|].
  exact (proj1 (stored_account_is_kept "Eve" "ada@example.org" "other" "ada@example.org" 1
                  (handleSignup "Ada" "ada@example.org" "secret" 0
                     (mkSite (freshPage emptyStorage) ∅))
                  (Json ada) eq_refl)).
Defined.



(** X12.  In a zone whose clocks do not change from 24 hours before the
    first call to the last call: [updateStreak] called on [n] days in a row,
    24 hours apart, the first call neither on the day of the stored login
    date nor on the day after it, leaves a streak of [n] and the last of
    these days as login date; from the seventh day on the badge
    [week_streak] is held. *)
Theorem streak_counts_days_in_a_row
    (zone : SpaceEdClock.Zone) (offset t0 : Z) (n : nat) (w : World) :
  (∀ t, t0 - msPerDay ≤ t ≤ t0 + Z.of_nat n * msPerDay → zone t = offset) →
  lastLoginDate (userProgress w) ≠ Some (SpaceEdClock.toDateStringIn zone t0) →
  lastLoginDate (userProgress w) ≠ Some (SpaceEdClock.toDateStringIn zone t0 - 1) →
  let p := userProgress (SpaceEdClock.loginDaysIn zone t0 (S n) w) in
  streak p = Z.of_nat (S n) ∧
  lastLoginDate p = Some (SpaceEdClock.toDateStringIn zone t0 + Z.of_nat n) ∧
  ((7 ≤ S n)%nat → "week_streak" ∈ badges p).
Proof.
  intros Hzone Ht Hy p. subst p.
  assert (SpaceEdClock.toDateStringIn zone t0 = toDateString (t0 + offset)) as Hday.
  { unfold SpaceEdClock.toDateStringIn, SpaceEdClock.localTime.
    rewrite (Hzone t0); [done|]. unfold msPerDay. lia. }
  rewrite Hday in *.
  rewrite (loginDaysIn_steady zone offset t0 n w Hzone (S n)) by lia.
  destruct (loginDays_streak (t0 + offset) n w Ht Hy) as [Hs Hd].
  split; [done|]. split; [done|]. intros H7. by apply loginDays_week.
Qed.

(** X12 in New York: a new visitor's progress is updated at noon on eight
    days in a row from Monday 10 March 2025, after the clocks have gone
    forward. *)
Lemma streak_counts_days_in_a_row_witness :
  let mondayNoon := 1741622400000 in
  let p := userProgress
             (SpaceEdClock.loginDaysIn SpaceEdClock.newYork mondayNoon 8
                (freshPage emptyStorage)) in
  SpaceEdClock.newYork (mondayNoon - msPerDay) = -4 * 60 * 60 * 1000 ∧
  SpaceEdClock.newYork (mondayNoon + 7 * msPerDay) = -4 * 60 * 60 * 1000 ∧
  streak p = 8 ∧
  "week_streak" ∈ badges p.
Proof.
  split; [reflexivity|]. split; [reflexivity|].
  destruct (streak_counts_days_in_a_row SpaceEdClock.newYork (-4 * 60 * 60 * 1000)
              1741622400000 7 (freshPage emptyStorage)) as (Hs & _ & Hb).
  - intros t Ht. unfold SpaceEdClock.newYork.
    rewrite bool_decide_eq_false_2; [done|]. unfold msPerDay in Ht. lia.
  - discriminate.
  - discriminate.
  - split; [exact Hs|]. apply Hb. lia.
Defined.

(** X13.  A wrong answer neither advances nor rewards: on a lesson with a
    quiz, Next, a wrong option, Submit and the Review button leave the
    visitor on the same lesson of the same course, with the quiz modal
    closed and with XP, level, streak, login date and completed lessons as
    they were. *)
Theorem wrong_answer_changes_nothing
    (CoursesData : gmap string Course) (now : Z) (w : World)
    (course : Course) (lesson : Lesson) (quizData : Quiz) (answer : Z) :
  CoursesData !! propKey (currentCourse w) = Some course →
  nth_Z (lessons course) (currentLesson w) = Some lesson →
  quiz lesson = Some quizData →
  0 ≤ answer < lengthZ (options quizData) →
  answer ≠ correct quizData →
  let w' := run CoursesData (map (pair now) (answerQuiz quizData answer)) w in
  position w' = position w ∧
  exceptBadges (userProgress w') = exceptBadges (userProgress w) ∧
  quizModalActive w' = false.
Proof. apply answerQuiz_wrong. Qed.

(** X13 on the page: option 0 for the quiz of the first lesson of
    [aerospace], whose correct option is 1. *)
Lemma wrong_answer_changes_nothing_witness :
  let w' := run spacedCourses (map (pair 0) (answerQuiz (quizOf 0) 0)) aerospaceStarted in
  nth_Z (lessons aerospace) (currentLesson aerospaceStarted) =
    Some (mkLesson 1 "Introduction to Aerospace Engineering" (Some (quizOf 0))) ∧
  correct (quizOf 0) = 1 ∧
  position w' = position aerospaceStarted ∧
  exceptBadges (userProgress w') = exceptBadges (userProgress aerospaceStarted).
Proof.
  split; [reflexivity|]. split; [reflexivity|].
  destruct (wrong_answer_changes_nothing spacedCourses 0 aerospaceStarted aerospace
              (mkLesson 1 "Introduction to Aerospace Engineering" (Some (quizOf 0)))
              (quizOf 0) 0 eq_refl eq_refl eq_refl)
    as (Hp & Hx & _); [by vm_compute|discriminate|].
  split; [exact Hp|exact Hx].
Defined.

Import ClimateGuardianRuns ClimateGuardianRunsFacts.

(** X14.  On the dashboard, whatever is clicked and whenever the timers
    fire, stale ones included, the score of the running quiz stays between 0
    and the number of questions, and the best score kept for the visitor
    never exceeds the larger of that number and the best score found in the
    storage when the page was opened. *)
Theorem dashboard_score_stays_within_quiz
    (quizQuestions : list ClimateGuardian.Question)
    (ls : ClimateGuardian.LocalStorage) (events : list (Z * Event)) :
  let p := ClimateGuardianRuns.run quizQuestions events (ClimateGuardian.startPage ls) in
  0 ≤ ClimateGuardian.score (ClimateGuardian.currentQuiz p) ≤ lengthZ quizQuestions ∧
  ClimateGuardian.quizScore (ClimateGuardian.userData p) ≤
    Z.max (default 0 (ClimateGuardian.ls_quizScore ls)) (lengthZ quizQuestions).
Proof.
  intros p.
  assert (within quizQuestions (default 0 (ClimateGuardian.ls_quizScore ls))
            (ClimateGuardian.startPage ls)) as H0.
  { split; [|simpl; lia]. unfold scoreWithin, lengthZ. simpl. lia. }
  destruct (within_run quizQuestions _ events _ H0) as [(_ & Hs & Hn) Hb].
  fold p in Hs, Hn, Hb. split; [lia|done].
Qed.

(** X15.  A visitor who starts the quiz with no timer pending, answers every
    question once and lets each timer fire, ends on the "Quiz Complete" view
    with a score equal to the number of correct answers; the best score
    becomes the larger of the old best and that score; "Climate Expert" is
    held from 7 correct answers, "Perfect Score" with 10, and below 7 the
    badges stay as they were. *)
Theorem dashboard_quiz_played_to_the_end
    (quizQuestions : list ClimateGuardian.Question) (answers : list Z) (now : Z)
    (p : ClimateGuardian.Page) :
  quizQuestions ≠ [] →
  length answers = length quizQuestions →
  ClimateGuardian.pendingAdvance p = 0%nat →
  let p' := ClimateGuardianRuns.run quizQuestions
              (map (pair now) (StartQuiz :: play answers)) p in
  let k := hits answers quizQuestions in
  ClimateGuardian.questionEl p' =
    ClimateGuardian.QuizComplete k (lengthZ quizQuestions)
      (ClimateGuardian.getScoreMessage k) ∧
  ClimateGuardian.score (ClimateGuardian.currentQuiz p') = k ∧
  ClimateGuardian.quizScore (ClimateGuardian.userData p') =
    Z.max (ClimateGuardian.quizScore (ClimateGuardian.userData p)) k ∧
  (7 ≤ k → "Climate Expert" ∈ badgeNames p') ∧
  (k = 10 → "Perfect Score" ∈ badgeNames p') ∧
  (k < 7 → ClimateGuardian.badges (ClimateGuardian.userData p') =
           ClimateGuardian.badges (ClimateGuardian.userData p)).
Proof.
  intros Hne Hlen Hp p' k.
  assert (∃ question rest, quizQuestions = question :: rest) as (question & rest & Hq).
  { destruct quizQuestions; [done|by eauto]. }
  destruct (startQuiz_run quizQuestions p question rest Hq)
    as (p0 & Hstart & Hq0 & Hp0 & Hu0 & Hl0).
  destruct (play_run quizQuestions now quizQuestions [] answers p0)
    as (p1 & Hrun & Hs1 & Hu1 & Hl1);
    [done|by rewrite Hq|done|by rewrite Hq0|by rewrite Hq0|by rewrite Hp0|].
  assert (p' = ClimateGuardian.finishQuiz quizQuestions p1) as ->.
  { subst p'.
    change (ClimateGuardianRuns.run quizQuestions
              (map (pair now) (StartQuiz :: play answers)) p)
      with (ClimateGuardianRuns.run quizQuestions (map (pair now) (play answers))
              (settle (ClimateGuardian.startQuiz quizQuestions p))).
    rewrite Hstart. exact Hrun. }
  assert (ClimateGuardian.score (ClimateGuardian.currentQuiz p1) = k) as Hk.
  { rewrite Hs1, Hq0. simpl. done. }
  split; [by rewrite finishQuiz_view, Hk|].
  split; [by rewrite finishQuiz_currentQuiz|].
  split; [by rewrite finishQuiz_quizScore, Hk, Hu1, Hu0|].
  pose proof (finishQuiz_badges quizQuestions p1) as Hb. simpl in Hb.
  rewrite Hk, Hu1, Hu0 in Hb. exact Hb.
Qed.

(** X15 on the dashboard: the ten questions, the first seven answered with
    their correct option and the last three with option 0. *)
Lemma dashboard_quiz_played_to_the_end_witness :
  let answers := [1; 1; 1; 2; 1; 1; 2; 0; 0; 0] in
  let p' := ClimateGuardianRuns.run ClimateGuardian.climateQuestions
              (map (pair 0) (StartQuiz :: play answers))
              (ClimateGuardian.startPage (ClimateGuardian.mkStorage None None None None)) in
  hits answers ClimateGuardian.climateQuestions = 7 ∧
  ClimateGuardian.score (ClimateGuardian.currentQuiz p') = 7 ∧
  "Climate Expert" ∈ badgeNames p'.
Proof.
  destruct (dashboard_quiz_played_to_the_end ClimateGuardian.climateQuestions
              [1; 1; 1; 2; 1; 1; 2; 0; 0; 0] 0
              (ClimateGuardian.startPage (ClimateGuardian.mkStorage None None None None))
              ltac:(discriminate) eq_refl eq_refl)
    as (_ & Hs & _ & He & _).
  split; [reflexivity|]. split; [exact Hs|]. apply He. by vm_compute.
Defined.

(** X16.  What the dashboard stores is what it holds: after any events,
    opening the page again over the storage gives the same streak, badges,
    last visit and best score. *)
Theorem dashboard_storage_mirrors_user_data
    (quizQuestions : list ClimateGuardian.Question)
    (ls : ClimateGuardian.LocalStorage) (events : list (Z * Event)) :
  let p := ClimateGuardianRuns.run quizQuestions events (ClimateGuardian.startPage ls) in
  ClimateGuardian.userData (ClimateGuardian.startPage (ClimateGuardian.localStorage p)) =
  ClimateGuardian.userData p.
Proof. apply (synced_run quizQuestions events), synced_startPage. Qed.

(** X17.  A visit on each of [n] days in a row, the first of them neither on
    the day of the stored last visit nor on the day after it, leaves a streak
    of [n] and the last of these days as last visit; from the seventh day on
    the badge "Week Warrior" is held. *)
Theorem dashboard_streak_counts_days_in_a_row
    (t0 : Z) (n : nat) (p : ClimateGuardian.Page) :
  ClimateGuardian.lastVisit (ClimateGuardian.userData p) ≠ Some (toDateString t0) →
  ClimateGuardian.lastVisit (ClimateGuardian.userData p) ≠ Some (toDateString t0 - 1) →
  let u := ClimateGuardian.userData (visitDays t0 (S n) p) in
  ClimateGuardian.streak u = Z.of_nat (S n) ∧
  ClimateGuardian.lastVisit u = Some (toDateString t0 + Z.of_nat n) ∧
  ((7 ≤ S n)%nat → "Week Warrior" ∈ badgeNames (visitDays t0 (S n) p)).
Proof.
  intros Ht Hy u.
  destruct (visitDays_streak t0 n p Ht Hy) as [Hs Hd].
  split; [done|]. split; [done|]. intros H7.
  apply visitDays_week; [done|done|lia].
Qed.

(** X17 on the dashboard: a new visitor comes on eight days in a row. *)
Lemma dashboard_streak_counts_days_in_a_row_witness :
  let p := ClimateGuardian.startPage (ClimateGuardian.mkStorage None None None None) in
  ClimateGuardian.lastVisit (ClimateGuardian.userData p) ≠ Some (toDateString 0) ∧
  ClimateGuardian.streak (ClimateGuardian.userData (visitDays 0 8 p)) = 8 ∧
  "Week Warrior" ∈ badgeNames (visitDays 0 8 p).
Proof.
  split; [discriminate|].
  destruct (dashboard_streak_counts_days_in_a_row 0 7
              (ClimateGuardian.startPage (ClimateGuardian.mkStorage None None None None))
              ltac:(discriminate) ltac:(discriminate)) as (Hs & _ & Hb).
  split; [exact Hs|]. apply Hb. lia.
Defined.

(** X18.  On the dashboard nothing is taken back: over any events the best
    score does not decrease and the badges keep their place and order, new
    ones coming after them. *)
Theorem dashboard_best_score_and_badges_grow
    (quizQuestions : list ClimateGuardian.Question) (events : list (Z * Event))
    (p : ClimateGuardian.Page) :
  let p' := ClimateGuardianRuns.run quizQuestions events p in
  ClimateGuardian.quizScore (ClimateGuardian.userData p) ≤
    ClimateGuardian.quizScore (ClimateGuardian.userData p') ∧
  ClimateGuardian.badges (ClimateGuardian.userData p) `prefix_of`
    ClimateGuardian.badges (ClimateGuardian.userData p').
Proof.
  revert p. induction events as [|[now e] rest IH]; intros p; simpl; [done|].
  destruct (grows_exec quizQuestions e now p) as [Hq Hb].
  destruct (IH (settle (ClimateGuardianRuns.exec quizQuestions e now p))) as [Hq' Hb'].
  split; [lia|by etrans].
Qed.
